(** * Docker-AutoScaler: the scaling decision engine and the control loop

    A shallow embedding of [autoscaler/config.py] and [autoscaler/autoscaler.py].

    Conventions of the embedding.
    - Python [int] is [Z].  A Python [float] is read as the rational number it
      stands for, in [Q]; comparisons between floats and integers are exact,
      as they are in Python.  Arithmetic on floats rounds to binary64
      ([Binary64.rnd]: to nearest, ties to even) in [get_trend], with its
      means and its products by 1.1 and 0.9, and in the connection utilization
      of [collect_postgres_metrics].  No quantity of the program comes near
      the largest binary64 number, so overflow is left out.
    - The percentages [collect_api_metrics] averages over the containers and
      the product [current_replicas * scale_factor] of the exponential
      algorithm are computed without rounding.  [current_replicas * 2] is a
      product of integers, and [current_replicas * 1.5] is exact in binary64
      for every count below [2^51]; an average, or a product by 0.7, may
      differ from the binary64 result in its last place, and its truncation
      by one ([int(90 * 0.7)] is 62 in binary64 and 63 here).  What is stated
      of these values below (bounds, clamps, directions, which containers
      count) does not depend on that place.
    - Python [dict]s are [gmap]s with string keys; [dict.get(k, 0)] is a lookup
      with default.
    - [datetime.now()] is a reading of the wall clock in microseconds.  Between
      two readings the clock moves by an amount chosen by the environment:
      [datetime.now()] is naive local time, so the amount is negative when the
      clock was set back in between.
    - Everything the process asks of the outside world (the health endpoint, the
      Docker API) is answered by an explicit environment record, one per
      pipeline run; a Python exception in such a call is one of the answers. *)

From Stdlib Require Import ZArith QArith Qround Qminmax Qabs Qpower Lia List Bool.
From Stdlib Require Import SpecFloat.
From stdpp Require Import gmap strings list.

Local Open Scope Z_scope.

(** ** Binary64 arithmetic *)

(** A finite binary64 number is read as the rational it stands for; an
    operation on floats is the exact operation followed by rounding. *)
Module Binary64.

(** [floor(log2 x)] for a positive [x]. *)
Definition ilog2 (x : Q) : Z :=
  let k := Z.log2 (Qnum x) - Z.log2 (Zpos (Qden x)) in
  if Qle_bool (2 ^ k) x then k else k - 1.

(** The exponent of the unit in the last place of the binary64 numbers around
    [x]: 53 significant bits, and no exponent below that of the subnormals. *)
Definition exponent (x : Q) : Z := Z.max (ilog2 (Qabs x) - 52) (-1074).

(** The integer nearest to [x], the even one of the two when [x] lies halfway. *)
Definition nearest_even (x : Q) : Z :=
  let f := Qfloor x in
  match (x - inject_Z f ?= 1 # 2)%Q with
  | Lt => f
  | Gt => f + 1
  | Eq => if Z.even f then f else f + 1
  end.

(** [x] rounded to a multiple of [2 ^ c]. *)
Definition round_at (c : Z) (x : Q) : Q :=
  (inject_Z (nearest_even (x / 2 ^ c)) * 2 ^ c)%Q.

(** [x] rounded to binary64, to nearest, ties to even. *)
Definition rnd (x : Q) : Q :=
  Qred (if Qeq_bool x 0 then 0 else round_at (exponent x) x)%Q.

(** [a * b] and [a / b] on floats.  [div] is also the true division of two
    integers, which Python rounds once, from the exact quotient. *)
Definition mul (a b : Q) : Q := rnd (a * b).
Definition div (a b : Q) : Q := rnd (a / b).

(** The standard library's specification of IEEE 754 arithmetic at the
    parameters of binary64, to compare [rnd] with: the float of an integer,
    and the rational a float stands for. *)
Definition ieee_of_Z (n : Z) : spec_float := binary_normalize 53 1024 n 0 false.

Definition ieee_mul : spec_float -> spec_float -> spec_float := SFmul 53 1024.
Definition ieee_div : spec_float -> spec_float -> spec_float := SFdiv 53 1024.

Definition ieee_value (x : spec_float) : option Q :=
  match x with
  | S754_zero _ => Some 0%Q
  | S754_finite s m e =>
      Some (Qred ((if s then -(1) else 1) * inject_Z (Zpos m) * 2 ^ e))%Q
  | S754_infinity _ | S754_nan => None
  end.

End Binary64.

(** ** Python primitives *)

Module Py.

(** [a < b] on numbers, as a boolean. *)
Definition ltb (a b : Q) : bool := negb (Qle_bool b a).

(** [a > b]. *)
Definition gtb (a b : Q) : bool := ltb b a.

(** [max(a, b)]: the first of the largest arguments. *)
Definition max (a b : Q) : Q := if gtb b a then b else a.

(** [min(a, b)]: the first of the smallest arguments. *)
Definition min (a b : Q) : Q := if ltb b a then b else a.

(** [int(x)]: truncation towards zero. *)
Definition int (x : Q) : Z := Z.quot (Qnum x) (Zpos (Qden x)).

(** [l[-k:]]: the last [k] elements, all of [l] when it is shorter. *)
Definition last_n {A} (k : nat) (l : list A) : list A :=
  skipn (length l - k)%nat l.

(** [l[:-k]]: everything but the last [k] elements. *)
Definition but_last_n {A} (k : nat) (l : list A) : list A :=
  firstn (length l - k)%nat l.

(** [sum(l)] over numbers. *)
Definition sum (l : list Q) : Q := fold_right Qplus 0%Q l.

(** [statistics.mean(l)], only ever called on a non-empty list: the exact sum
    of the data divided by their number, rounded once. *)
Definition mean (l : list Q) : Q :=
  Binary64.rnd (sum l / inject_Z (Z.of_nat (length l)))%Q.

(** Truthiness of [os.getenv(name)]: set, and not the empty string. *)
Definition truthy (v : option string) : bool :=
  match v with
  | Some (String _ _) => true
  | _ => false
  end.

End Py.

(** ** [config.py] *)

(** The settings [AutoscalerConfig] reads from the environment.
    [PREDICTION_SAMPLES] is the [maxlen] of every history ring; [deque] refuses
    a negative [maxlen], so the field is a [nat]. *)
Record AutoscalerConfig := {
  SCALE_UP_THRESHOLD : Z;
  SCALE_DOWN_THRESHOLD : Z;
  MIN_REPLICAS : Z;
  MAX_REPLICAS : Z;
  CHECK_INTERVAL : Z;
  COOLDOWN_PERIOD : Z;
  SCALING_ALGORITHM : string;
  CPU_SCALE_UP_THRESHOLD : Z;
  CPU_SCALE_DOWN_THRESHOLD : Z;
  MEMORY_SCALE_UP_THRESHOLD : Z;
  MEMORY_SCALE_DOWN_THRESHOLD : Z;
  RESPONSE_TIME_SCALE_UP_THRESHOLD : Z;
  RESPONSE_TIME_SCALE_DOWN_THRESHOLD : Z;
  PREDICTION_SAMPLES : nat
}.

(** The values used when the environment sets nothing. *)
Definition default_config : AutoscalerConfig := {|
  SCALE_UP_THRESHOLD := 80;
  SCALE_DOWN_THRESHOLD := 30;
  MIN_REPLICAS := 2;
  MAX_REPLICAS := 10;
  CHECK_INTERVAL := 30;
  COOLDOWN_PERIOD := 120;
  SCALING_ALGORITHM := "linear";
  CPU_SCALE_UP_THRESHOLD := 70;
  CPU_SCALE_DOWN_THRESHOLD := 20;
  MEMORY_SCALE_UP_THRESHOLD := 80;
  MEMORY_SCALE_DOWN_THRESHOLD := 40;
  RESPONSE_TIME_SCALE_UP_THRESHOLD := 1000;
  RESPONSE_TIME_SCALE_DOWN_THRESHOLD := 200;
  PREDICTION_SAMPLES := 10
|}.

(** The same configuration with another [SCALING_ALGORITHM]. *)
Definition with_algorithm (tag : string) (c : AutoscalerConfig) : AutoscalerConfig := {|
  SCALE_UP_THRESHOLD := SCALE_UP_THRESHOLD c;
  SCALE_DOWN_THRESHOLD := SCALE_DOWN_THRESHOLD c;
  MIN_REPLICAS := MIN_REPLICAS c;
  MAX_REPLICAS := MAX_REPLICAS c;
  CHECK_INTERVAL := CHECK_INTERVAL c;
  COOLDOWN_PERIOD := COOLDOWN_PERIOD c;
  SCALING_ALGORITHM := tag;
  CPU_SCALE_UP_THRESHOLD := CPU_SCALE_UP_THRESHOLD c;
  CPU_SCALE_DOWN_THRESHOLD := CPU_SCALE_DOWN_THRESHOLD c;
  MEMORY_SCALE_UP_THRESHOLD := MEMORY_SCALE_UP_THRESHOLD c;
  MEMORY_SCALE_DOWN_THRESHOLD := MEMORY_SCALE_DOWN_THRESHOLD c;
  RESPONSE_TIME_SCALE_UP_THRESHOLD := RESPONSE_TIME_SCALE_UP_THRESHOLD c;
  RESPONSE_TIME_SCALE_DOWN_THRESHOLD := RESPONSE_TIME_SCALE_DOWN_THRESHOLD c;
  PREDICTION_SAMPLES := PREDICTION_SAMPLES c
|}.

(** Class attributes that are literals in [config.py]. *)
Definition API_SERVICE_NAME : string := "scalable-backend-production_api".
Definition POSTGRES_SERVICE_NAME : string := "scalable-backend-production_postgres".
Definition REDIS_SERVICE_NAME : string := "scalable-backend-production_redis".
Definition POSTGRES_MAX_REPLICAS : Z := 3.
Definition REDIS_SCALE_UP_MEMORY : Z := 80.
Definition REDIS_MAX_REPLICAS : Z := 2.

(** ** [MetricsCollector] *)

(** One entry of a history ring: [{'timestamp': ..., 'value': ...}]. *)
Record sample := { timestamp : Z; value : Q }.

(** The three answers of [get_trend]. *)
Inductive trend := increasing | decreasing | stable.

#[global] Instance trend_eq_dec : EqDecision trend.
Proof. solve_decision. Defined.

(** The state of a [MetricsCollector]: the rings, keyed by
    [f"{service}_{metric_type}"], and the instant of the last recorded scaling
    action of each service. *)
Record MetricsCollector := {
  metrics_history : gmap string (list sample);
  last_scaling_action : gmap string Z
}.

Definition history_key (service metric_type : string) : string :=
  service +:+ "_" +:+ metric_type.

(** [deque.append] on a ring of capacity [maxlen]. *)
Definition deque_append (maxlen : nat) (ring : list sample) (x : sample) : list sample :=
  Py.last_n maxlen (ring ++ [x]).

(** Microseconds in a second, seconds in a day. *)
Definition us_per_second : Z := 1000000.
Definition seconds_per_day : Z := 86400.

(** [timedelta.seconds] of the difference [later - earlier] of two instants:
    the seconds field of the normalised (days, seconds, microseconds) triple. *)
Definition timedelta_seconds (later earlier : Z) : Z :=
  ((later - earlier) / us_per_second) mod seconds_per_day.

Section Collector.

Variable cfg : AutoscalerConfig.

(** [add_metric], the clock reading [now]. *)
Definition add_metric (mc : MetricsCollector) (now : Z)
    (service metric_type : string) (v : Q) : MetricsCollector :=
  let key := history_key service metric_type in
  let ring := default [] (metrics_history mc !! key) in
  {| metrics_history :=
       <[key := deque_append (PREDICTION_SAMPLES cfg) ring
                  {| timestamp := now; value := v |}]> (metrics_history mc);
     last_scaling_action := last_scaling_action mc |}.

(** The numeric core of [get_trend], on the values of one ring.  The literals
    [1.1] and [0.9] are the binary64 numbers nearest to them. *)
Definition trend_of_ring (ring : list sample) : trend :=
  if (length ring <? 3)%nat then stable else
  let values := map value (Py.last_n 5 ring) in
  if (length values <? 3)%nat then stable else
  let recent_avg := Py.mean (Py.last_n 3 values) in
  let older_avg :=
    if (3 <? length values)%nat then Py.mean (Py.but_last_n 3 values)
    else nth 0 values 0%Q in
  if Py.gtb recent_avg (Binary64.mul older_avg (Binary64.rnd (11 # 10))) then increasing
  else if Py.ltb recent_avg (Binary64.mul older_avg (Binary64.rnd (9 # 10))) then decreasing
  else stable.

(** [get_trend]. *)
Definition get_trend (mc : MetricsCollector) (service metric_type : string) : trend :=
  trend_of_ring (default [] (metrics_history mc !! history_key service metric_type)).

(** [can_scale], the clock reading [now]. *)
Definition can_scale (mc : MetricsCollector) (now : Z) (service : string) : bool :=
  match last_scaling_action mc !! service with
  | None => true
  | Some last => COOLDOWN_PERIOD cfg <=? timedelta_seconds now last
  end.

(** [record_scaling_action]. *)
Definition record_scaling_action (mc : MetricsCollector) (now : Z)
    (service : string) : MetricsCollector :=
  {| metrics_history := metrics_history mc;
     last_scaling_action := <[service := now]> (last_scaling_action mc) |}.

End Collector.

(** ** The decision engine of [AutoScaler] *)

Section Decision.

Variable cfg : AutoscalerConfig.

(** [metrics.get(k, 0)]. *)
Definition metrics_get (metrics : gmap string Q) (k : string) : Q :=
  default 0%Q (metrics !! k).

Definition _linear_scaling_decision (metrics : gmap string Q)
    (current_replicas : Z) : Z :=
  let cpu_usage := metrics_get metrics "cpu_usage" in
  let memory_usage := metrics_get metrics "memory_usage" in
  let response_time := metrics_get metrics "response_time" in
  let scale_up :=
    Py.gtb cpu_usage (inject_Z (CPU_SCALE_UP_THRESHOLD cfg))
    || Py.gtb memory_usage (inject_Z (MEMORY_SCALE_UP_THRESHOLD cfg))
    || Py.gtb response_time (inject_Z (RESPONSE_TIME_SCALE_UP_THRESHOLD cfg)) in
  let scale_down :=
    Py.ltb cpu_usage (inject_Z (CPU_SCALE_DOWN_THRESHOLD cfg))
    && Py.ltb memory_usage (inject_Z (MEMORY_SCALE_DOWN_THRESHOLD cfg))
    && Py.ltb response_time (inject_Z (RESPONSE_TIME_SCALE_DOWN_THRESHOLD cfg)) in
  if scale_up && (current_replicas <? MAX_REPLICAS cfg) then current_replicas + 1
  else if scale_down && (current_replicas >? MIN_REPLICAS cfg) then current_replicas - 1
  else current_replicas.

(** The [scale_factor] chosen by [_exponential_scaling_decision]; [None] is
    the branch that returns [current_replicas] at once. *)
Definition scale_factor (max_usage : Q) : option Q :=
  if Py.gtb max_usage 90 then Some 2%Q
  else if Py.gtb max_usage (inject_Z (SCALE_UP_THRESHOLD cfg)) then Some (3 # 2)%Q
  else if Py.ltb max_usage (inject_Z (SCALE_DOWN_THRESHOLD cfg)) then Some (7 # 10)%Q
  else None.

Definition _exponential_scaling_decision (metrics : gmap string Q)
    (current_replicas : Z) : Z :=
  let cpu_usage := metrics_get metrics "cpu_usage" in
  let memory_usage := metrics_get metrics "memory_usage" in
  let max_usage := Py.max cpu_usage memory_usage in
  match scale_factor max_usage with
  | None => current_replicas
  | Some f =>
      let new_replicas := Py.int (inject_Z current_replicas * f)%Q in
      Z.max (MIN_REPLICAS cfg) (Z.min (MAX_REPLICAS cfg) new_replicas)
  end.

Definition _predictive_scaling_decision (mc : MetricsCollector)
    (metrics : gmap string Q) (current_replicas : Z) : Z :=
  let cpu_trend := get_trend mc "api" "cpu_usage" in
  let memory_trend := get_trend mc "api" "memory_usage" in
  let cpu_usage := metrics_get metrics "cpu_usage" in
  let memory_usage := metrics_get metrics "memory_usage" in
  if (bool_decide (cpu_trend = increasing) || bool_decide (memory_trend = increasing))
     && (Py.gtb cpu_usage 60 || Py.gtb memory_usage 60)
  then Z.min (current_replicas + 1) (MAX_REPLICAS cfg)
  else if (bool_decide (cpu_trend = decreasing) && bool_decide (memory_trend = decreasing))
          && (Py.ltb cpu_usage 40 && Py.ltb memory_usage 40)
  then Z.max (current_replicas - 1) (MIN_REPLICAS cfg)
  else current_replicas.

Definition make_scaling_decision (mc : MetricsCollector)
    (metrics : gmap string Q) (current_replicas : Z) : Z :=
  if String.eqb (SCALING_ALGORITHM cfg) "linear" then
    _linear_scaling_decision metrics current_replicas
  else if String.eqb (SCALING_ALGORITHM cfg) "exponential" then
    _exponential_scaling_decision metrics current_replicas
  else if String.eqb (SCALING_ALGORITHM cfg) "predictive" then
    _predictive_scaling_decision mc metrics current_replicas
  else
    _linear_scaling_decision metrics current_replicas.

End Decision.

(** ** The outside world *)

(** What a call into [requests] or the Docker SDK comes back with. *)
Inductive outcome (A : Type) : Type :=
| Returned (a : A)
| Raised.
Arguments Returned {A} a.
Arguments Raised {A}.

(** [requests.get(API_HEALTH_URL, timeout=10)]: an exception, or a response
    with its status code, what [response.json().get('status') == 'healthy']
    evaluates to (or raises), and [response.elapsed] in milliseconds. *)
Inductive health_answer :=
| HealthRaised
| HealthResponse (status_code : Z) (healthy : outcome bool) (elapsed_ms : Q).

(** The fields of [container.stats(stream=False)] that are read. *)
Record container_stats := {
  cpu_total_usage : Z;
  precpu_total_usage : Z;
  system_cpu_usage : Z;
  presystem_cpu_usage : Z;
  memory_stats_usage : Z;
  memory_stats_limit : Z
}.

(** One call of [service.update(mode={'Replicated': {'Replicas': n}})]: the
    service, the replica count asked for, the instant of the call and whether
    the orchestrator accepted it (the call returned) or not (it raised). *)
Record update_request := {
  ur_service : string;
  ur_replicas : Z;
  ur_time : Z;
  ur_accepted : bool
}.

(** What one call of [scale_service] meets: the replica count read back from
    [services.get], by how much the clock has moved when [service.update] is
    called, and whether that call returns. *)
Record scale_answers := {
  sa_read : outcome Z;
  sa_delay : Z;
  sa_update_ok : bool
}.

(** What one run of [scale_api_instances] meets.  Each [dt_] field is the
    difference, in microseconds, between the clock reading it is named after
    and the reading before it. *)
Record api_run := {
  api_health : health_answer;
  api_containers : outcome (list (outcome container_stats));
  api_replicas_read : outcome Z;
  api_dt_cpu : Z;
  api_dt_memory : Z;
  api_dt_response : Z;
  api_dt_gate : Z;
  api_scale : scale_answers;
  api_dt_stamp : Z
}.

(** What one run of [scale_postgres_instances] or [scale_redis_instances]
    meets: the application tier's replica count read by the collector, the
    tier's own replica count, and the rest as above. *)
Record tier_run := {
  tier_api_replicas_read : outcome Z;
  tier_replicas_read : outcome Z;
  tier_dt_gate : Z;
  tier_scale : scale_answers;
  tier_dt_stamp : Z
}.

(** What one monitoring cycle meets. *)
Record cycle := {
  cycle_api : api_run;
  cycle_postgres : tier_run;
  cycle_redis : tier_run
}.

(** ** [AutoScaler] *)

(** The object's fields, the module-level Prometheus registry, and the two
    parts of the outside world the properties speak of: the wall clock and the
    log of every [service.update] call made so far (newest first). *)
Record state := {
  metrics_collector : MetricsCollector;
  docker_available : bool;
  scaling_decisions_counter : gmap (string * string) nat;
  gauges : gmap string Q;
  clock : Z;
  update_log : list update_request
}.

Definition set_metrics_collector (mc : MetricsCollector) (s : state) : state :=
  {| metrics_collector := mc;
     docker_available := docker_available s;
     scaling_decisions_counter := scaling_decisions_counter s;
     gauges := gauges s;
     clock := clock s;
     update_log := update_log s |}.

(** [gauge.set(v)]. *)
Definition gauge_set (name : string) (v : Q) (s : state) : state :=
  {| metrics_collector := metrics_collector s;
     docker_available := docker_available s;
     scaling_decisions_counter := scaling_decisions_counter s;
     gauges := <[name := v]> (gauges s);
     clock := clock s;
     update_log := update_log s |}.

(** [scaling_decisions_counter.labels(service=..., direction=...).inc()]. *)
Definition counter_inc (service direction : string) (s : state) : state :=
  {| metrics_collector := metrics_collector s;
     docker_available := docker_available s;
     scaling_decisions_counter :=
       <[(service, direction) :=
           S (default O (scaling_decisions_counter s !! (service, direction)))]>
         (scaling_decisions_counter s);
     gauges := gauges s;
     clock := clock s;
     update_log := update_log s |}.

(** The clock moves by [dt]. *)
Definition advance (dt : Z) (s : state) : state :=
  {| metrics_collector := metrics_collector s;
     docker_available := docker_available s;
     scaling_decisions_counter := scaling_decisions_counter s;
     gauges := gauges s;
     clock := clock s + dt;
     update_log := update_log s |}.

(** [service.update] is called. *)
Definition log_update (r : update_request) (s : state) : state :=
  {| metrics_collector := metrics_collector s;
     docker_available := docker_available s;
     scaling_decisions_counter := scaling_decisions_counter s;
     gauges := gauges s;
     clock := clock s;
     update_log := r :: update_log s |}.

(** [AutoScaler.__init__]: [docker_unavailable] is [os.getenv('DOCKER_UNAVAILABLE')],
    [ping_ok] tells whether [docker.from_env] and [ping] both returned. *)
Definition AutoScaler_init (docker_unavailable : option string) (ping_ok : bool)
    (now : Z) : state :=
  {| metrics_collector := {| metrics_history := ∅; last_scaling_action := ∅ |};
     docker_available :=
       if Py.truthy docker_unavailable then false else ping_ok;
     scaling_decisions_counter := ∅;
     gauges := ∅;
     clock := now;
     update_log := [] |}.

(** The sample [collect_api_metrics] returns from its exception handler. *)
Definition zero_filled : gmap string Q :=
  <["healthy" := 0%Q]> (<["response_time" := 0%Q]> (<["memory_usage" := 0%Q]>
  (<["cpu_usage" := 0%Q]> (<["error_rate" := 0%Q]> ∅)))).

(** The body of the loop over the containers: the running totals
    [(total_cpu, total_memory)].  An exception leaves the totals as they are
    at that point: [stats] may raise, and a zero [limit] raises in the
    division after [total_cpu] was updated. *)
Definition add_container_stats (totals : Q * Q) (c : outcome container_stats) : Q * Q :=
  let '(total_cpu, total_memory) := totals in
  match c with
  | Raised => totals
  | Returned stats =>
      let cpu_delta := cpu_total_usage stats - precpu_total_usage stats in
      let system_delta := system_cpu_usage stats - presystem_cpu_usage stats in
      let total_cpu' :=
        if 0 <? system_delta
        then (total_cpu + inject_Z cpu_delta / inject_Z system_delta * 100)%Q
        else total_cpu in
      if memory_stats_limit stats =? 0 then (total_cpu', total_memory)
      else (total_cpu',
            (total_memory
             + inject_Z (memory_stats_usage stats) / inject_Z (memory_stats_limit stats) * 100)%Q)
  end.

(** [collect_api_metrics].  [None] is Python's [None]: with a status code
    other than 200 the function falls off its end.  The boolean under
    ['healthy'] is stored as the number it is ([True == 1]). *)
Definition collect_api_metrics (available : bool) (e : api_run) : option (gmap string Q) :=
  match api_health e with
  | HealthRaised => Some zero_filled
  | HealthResponse status_code healthy elapsed_ms =>
      if status_code =? 200 then
        match healthy with
        | Raised => Some zero_filled
        | Returned h =>
            let metrics :=
              <["healthy" := if h then 1%Q else 0%Q]> (<["response_time" := elapsed_ms]>
              (<["memory_usage" := 0%Q]> (<["cpu_usage" := 0%Q]>
              (<["error_rate" := 0%Q]> ∅)))) in
            match (if available then api_containers e else Returned []) with
            | Raised => Some zero_filled
            | Returned containers =>
                match containers with
                | [] => Some metrics
                | _ :: _ =>
                    let '(total_cpu, total_memory) :=
                      fold_left add_container_stats containers (0%Q, 0%Q) in
                    let n := inject_Z (Z.of_nat (length containers)) in
                    Some (<["memory_usage" := (total_memory / n)%Q]>
                          (<["cpu_usage" := (total_cpu / n)%Q]> metrics))
                end
            end
        end
      else None
  end.

(** [get_service_replicas]; [read] is what [services.get] and the attribute
    lookup come back with. *)
Definition get_service_replicas (available : bool) (read : outcome Z) : Z :=
  if negb available then 1
  else match read with
       | Returned replicas => replicas
       | Raised => 0
       end.

(** [scale_service]. *)
Definition scale_service (service_name : string) (target_replicas : Z)
    (a : scale_answers) (s : state) : bool * state :=
  if negb (docker_available s) then (false, s)
  else
    match sa_read a with
    | Raised => (false, s)
    | Returned current_replicas =>
        if current_replicas =? target_replicas then (true, s)
        else
          let s := advance (sa_delay a) s in
          let s := log_update {| ur_service := service_name;
                                 ur_replicas := target_replicas;
                                 ur_time := clock s;
                                 ur_accepted := sa_update_ok a |} s in
          if sa_update_ok a then
            let direction :=
              if target_replicas >? current_replicas then "up" else "down" in
            (true, counter_inc service_name direction s)
          else (false, s)
    end.

(** [collect_postgres_metrics]: [estimated_connections / 1000 * 100] is a true
    division of two integers followed by a product of floats. *)
Definition collect_postgres_metrics (available : bool) (read : outcome Z) : gmap string Q :=
  let api_replicas := get_service_replicas available read in
  let estimated_connections := api_replicas * 50 in
  <["connections" := inject_Z estimated_connections]>
    (<["connection_utilization" :=
         Py.min (Binary64.mul (Binary64.div (inject_Z estimated_connections) 1000) 100)
           100%Q]> ∅).

(** [collect_redis_metrics]. *)
Definition collect_redis_metrics (available : bool) (read : outcome Z) : gmap string Q :=
  let api_replicas := get_service_replicas available read in
  let estimated_memory_usage := Z.min (api_replicas * 10) 80 in
  <["memory_usage" := inject_Z estimated_memory_usage]> (<["hit_rate" := 85%Q]> ∅).

Section ControlLoop.

Variable cfg : AutoscalerConfig.

(** [self.metrics_collector.add_metric(...)], after [dt] has passed. *)
Definition store_metric (dt : Z) (service metric_type : string) (v : Q)
    (s : state) : state :=
  let s := advance dt s in
  set_metrics_collector
    (add_metric cfg (metrics_collector s) (clock s) service metric_type v) s.

(** [self.metrics_collector.record_scaling_action(service)], after [dt]. *)
Definition stamp (dt : Z) (service : string) (s : state) : state :=
  let s := advance dt s in
  set_metrics_collector
    (record_scaling_action (metrics_collector s) (clock s) service) s.

(** The part of [scale_api_instances] between the log line and the gate:
    the three [add_metric] calls and the four gauges.  The subscripts
    [metrics['cpu_usage']] and the like cannot raise here: both dictionaries
    [collect_api_metrics] builds have all the keys. *)
Definition record_api_sample (e : api_run) (metrics : gmap string Q)
    (current_replicas : Z) (s : state) : state :=
  let s := store_metric (api_dt_cpu e) "api" "cpu_usage"
             (metrics_get metrics "cpu_usage") s in
  let s := store_metric (api_dt_memory e) "api" "memory_usage"
             (metrics_get metrics "memory_usage") s in
  let s := store_metric (api_dt_response e) "api" "response_time"
             (metrics_get metrics "response_time") s in
  let s := gauge_set "api_cpu_usage_percent" (metrics_get metrics "cpu_usage") s in
  let s := gauge_set "api_memory_usage_percent" (metrics_get metrics "memory_usage") s in
  let s := gauge_set "api_response_time_ms" (metrics_get metrics "response_time") s in
  gauge_set "api_replicas_current" (inject_Z current_replicas) s.

(** [scale_api_instances].  With [metrics] being [None] the first subscript
    raises, before anything was stored; the handler logs and returns. *)
Definition scale_api_instances (e : api_run) (s : state) : state :=
  match collect_api_metrics (docker_available s) e with
  | None => s
  | Some metrics =>
      let current_replicas :=
        get_service_replicas (docker_available s) (api_replicas_read e) in
      let s := record_api_sample e metrics current_replicas s in
      let s := advance (api_dt_gate e) s in
      if negb (can_scale cfg (metrics_collector s) (clock s) "api") then s
      else
        let target_replicas :=
          make_scaling_decision cfg (metrics_collector s) metrics current_replicas in
        if negb (target_replicas =? current_replicas) then
          let '(ok, s) := scale_service API_SERVICE_NAME target_replicas (api_scale e) s in
          if ok then stamp (api_dt_stamp e) "api" s else s
        else s
  end.

(** [scale_postgres_instances]. *)
Definition scale_postgres_instances (e : tier_run) (s : state) : state :=
  let metrics := collect_postgres_metrics (docker_available s) (tier_api_replicas_read e) in
  let current_replicas :=
    get_service_replicas (docker_available s) (tier_replicas_read e) in
  let s := gauge_set "postgres_replicas_current" (inject_Z current_replicas) s in
  if Py.gtb (metrics_get metrics "connection_utilization") 80
     && (current_replicas <? POSTGRES_MAX_REPLICAS) then
    let s := advance (tier_dt_gate e) s in
    if can_scale cfg (metrics_collector s) (clock s) "postgres" then
      let '(ok, s) := scale_service POSTGRES_SERVICE_NAME (current_replicas + 1)
                        (tier_scale e) s in
      if ok then stamp (tier_dt_stamp e) "postgres" s else s
    else s
  else s.

(** [scale_redis_instances]. *)
Definition scale_redis_instances (e : tier_run) (s : state) : state :=
  let metrics := collect_redis_metrics (docker_available s) (tier_api_replicas_read e) in
  let current_replicas :=
    get_service_replicas (docker_available s) (tier_replicas_read e) in
  let s := gauge_set "redis_replicas_current" (inject_Z current_replicas) s in
  if Py.gtb (metrics_get metrics "memory_usage") (inject_Z REDIS_SCALE_UP_MEMORY)
     && (current_replicas <? REDIS_MAX_REPLICAS) then
    let s := advance (tier_dt_gate e) s in
    if can_scale cfg (metrics_collector s) (clock s) "redis" then
      let '(ok, s) := scale_service REDIS_SERVICE_NAME (current_replicas + 1)
                        (tier_scale e) s in
      if ok then stamp (tier_dt_stamp e) "redis" s else s
    else s
  else s.

(** [run_monitoring_cycle]. *)
Definition run_monitoring_cycle (c : cycle) (s : state) : state :=
  scale_redis_instances (cycle_redis c)
    (scale_postgres_instances (cycle_postgres c)
       (scale_api_instances (cycle_api c) s)).

(** The loop of [run]: the scheduled cycles, one after the other. *)
Definition run (cycles : list cycle) (s : state) : state :=
  fold_left (fun s c => run_monitoring_cycle c s) cycles s.

End ControlLoop.

(** ** The trend algorithm, as the specification words it *)

Module Reference.

(** The last [k] samples of [S]. *)
Definition last_samples (k : nat) (S : list Q) : list Q :=
  skipn (length S - k)%nat S.

(** The window [W]: the last [min(5, n)] samples. *)
Definition window (S : list Q) : list Q :=
  last_samples (Nat.min 5 (length S)) S.

Section Arithmetic.

(** How the result of a mean or of a product is read: as it is, or rounded. *)
Variable fl : Q -> Q.

Definition mean (l : list Q) : Q :=
  fl (fold_right Qplus 0 l / inject_Z (Z.of_nat (length l)))%Q.

(** [recent]: the mean of the last three samples of the window. *)
Definition recent (S : list Q) : Q := mean (last_samples 3 (window S)).

(** [older]: the mean of the window without its last three samples when the
    window has more than three, its first sample otherwise. *)
Definition older (S : list Q) : Q :=
  let W := window S in
  if (3 <? length W)%nat then mean (firstn (length W - 3)%nat W)
  else hd 0%Q W.

(** [1.1 · older] and [0.9 · older]. *)
Definition upper (S : list Q) : Q := fl (fl (11 # 10) * older S)%Q.
Definition lower (S : list Q) : Q := fl (fl (9 # 10) * older S)%Q.

Definition trend (S : list Q) : trend :=
  if (length S <? 3)%nat then stable
  else if (length (window S) <? 3)%nat then stable
  else if Qlt_le_dec (upper S) (recent S) then increasing
  else if Qlt_le_dec (recent S) (lower S) then decreasing
  else stable.

End Arithmetic.

(** The two readings: in the arithmetic of the rationals, and in binary64. *)
Definition exact (x : Q) : Q := x.
Definition binary64 : Q -> Q := Binary64.rnd.

End Reference.


(** An empty collector, and a sample with the given readings. *)
Definition empty_collector : MetricsCollector :=
  {| metrics_history := ∅; last_scaling_action := ∅ |}.

Definition reading (cpu memory response : Q) : gmap string Q :=
  <["cpu_usage" := cpu]> (<["memory_usage" := memory]> (<["response_time" := response]> ∅)).

(** The request [scale_service] sends when it sends one. *)
Definition request_of (service_name : string) (target_replicas : Z)
    (a : scale_answers) (s : state) : update_request :=
  {| ur_service := service_name;
     ur_replicas := target_replicas;
     ur_time := clock s + sa_delay a;
     ur_accepted := sa_update_ok a |}.

(** The parts of the state that actuation is about. *)
Definition actuation_view (s : state) :=
  (docker_available s, update_log s,
   last_scaling_action (metrics_collector s), scaling_decisions_counter s).

(** The two statements every pipeline ends with,
    [if self.scale_service(name, target): record_scaling_action(key)]. *)
Definition actuate (service_name : string)
    (target_replicas : Z) (a : scale_answers) (dt : Z) (key : string)
    (s : state) : state :=
  let '(ok, s) := scale_service service_name target_replicas a s in
  if ok then stamp dt key s else s.

(** The state [scale_api_instances] is in when it asks [can_scale]. *)
Definition at_gate (cfg : AutoscalerConfig) (e : api_run)
    (metrics : gmap string Q) (s : state) : state :=
  advance (api_dt_gate e)
    (record_api_sample cfg e metrics
       (get_service_replicas (docker_available s) (api_replicas_read e)) s).

(** A run of the application pipeline that meets the given answer of the
    health endpoint, no container statistics, [replicas] replicas at the first
    reading and [replicas_again] when [scale_service] reads the count back,
    and an orchestrator that accepts updates. *)
Definition plain_run (health : health_answer) (replicas replicas_again : Z) : api_run :=
  {| api_health := health;
     api_containers := Returned [];
     api_replicas_read := Returned replicas;
     api_dt_cpu := 1000;
     api_dt_memory := 1000;
     api_dt_response := 1000;
     api_dt_gate := 1000;
     api_scale := {| sa_read := Returned replicas_again;
                     sa_delay := 50000;
                     sa_update_ok := true |};
     api_dt_stamp := 1000 |}.

(** The thresholds of the linear algorithm are percentages and milliseconds:
    the scale-up ones are not negative and the scale-down ones are positive. *)
Definition positive_thresholds (cfg : AutoscalerConfig) : Prop :=
  0 <= CPU_SCALE_UP_THRESHOLD cfg
  /\ 0 <= MEMORY_SCALE_UP_THRESHOLD cfg
  /\ 0 <= RESPONSE_TIME_SCALE_UP_THRESHOLD cfg
  /\ 0 < CPU_SCALE_DOWN_THRESHOLD cfg
  /\ 0 < MEMORY_SCALE_DOWN_THRESHOLD cfg
  /\ 0 < RESPONSE_TIME_SCALE_DOWN_THRESHOLD cfg.

(** A run of the database or cache pipeline that sees [api_replicas]
    application replicas and one replica of its own tier. *)
Definition tier_sees (api_replicas : Z) : tier_run :=
  {| tier_api_replicas_read := Returned api_replicas;
     tier_replicas_read := Returned 1;
     tier_dt_gate := 1000;
     tier_scale := {| sa_read := Returned 1; sa_delay := 50000; sa_update_ok := true |};
     tier_dt_stamp := 1000 |}.

(** A monitoring cycle whose first clock reading differs by [wait] microseconds
    from the reading before it, and which meets a slow endpoint (1.5 s) with
    [replicas] replicas of the application tier running. *)
Definition slow_cycle (wait : Z) (replicas : Z) : cycle :=
  {| cycle_api :=
       {| api_health := HealthResponse 200 (Returned true) 1500;
          api_containers := Returned [];
          api_replicas_read := Returned replicas;
          api_dt_cpu := wait;
          api_dt_memory := 1000;
          api_dt_response := 1000;
          api_dt_gate := 1000;
          api_scale := {| sa_read := Returned replicas;
                          sa_delay := 50000;
                          sa_update_ok := true |};
          api_dt_stamp := 1000 |};
     cycle_postgres := tier_sees replicas;
     cycle_redis := tier_sees replicas |}.

(** The collector after [add_metric('api', 'cpu_usage', v)] for each [v] of
    [values] in turn, under the default configuration. *)
Definition collector_with (values : list Q) : MetricsCollector :=
  fold_left (fun mc v => add_metric default_config mc 0 "api" "cpu_usage" v)
    values empty_collector.

(** ** Runs in which the clock is not set back *)

(** No clock reading of the run is earlier than the reading before it. *)
Definition forward_api (e : api_run) : Prop :=
  0 <= api_dt_cpu e /\ 0 <= api_dt_memory e /\ 0 <= api_dt_response e
  /\ 0 <= api_dt_gate e /\ 0 <= sa_delay (api_scale e) /\ 0 <= api_dt_stamp e.

Definition forward_tier (e : tier_run) : Prop :=
  0 <= tier_dt_gate e /\ 0 <= sa_delay (tier_scale e) /\ 0 <= tier_dt_stamp e.

Definition forward_cycle (c : cycle) : Prop :=
  forward_api (cycle_api c) /\ forward_tier (cycle_postgres c)
  /\ forward_tier (cycle_redis c).

(** ** The cooldown invariant *)






From Stdlib Require Import Lqa.

(** ** Vocabulary for the further properties *)

(** The two conditions of the linear algorithm: some metric is above its
    scale-up threshold; every metric is below its scale-down threshold. *)
Definition overloaded (cfg : AutoscalerConfig) (metrics : gmap string Q) : Prop :=
  (inject_Z (CPU_SCALE_UP_THRESHOLD cfg) < metrics_get metrics "cpu_usage")%Q
  \/ (inject_Z (MEMORY_SCALE_UP_THRESHOLD cfg) < metrics_get metrics "memory_usage")%Q
  \/ (inject_Z (RESPONSE_TIME_SCALE_UP_THRESHOLD cfg) < metrics_get metrics "response_time")%Q.

Definition idle (cfg : AutoscalerConfig) (metrics : gmap string Q) : Prop :=
  (metrics_get metrics "cpu_usage" < inject_Z (CPU_SCALE_DOWN_THRESHOLD cfg))%Q
  /\ (metrics_get metrics "memory_usage" < inject_Z (MEMORY_SCALE_DOWN_THRESHOLD cfg))%Q
  /\ (metrics_get metrics "response_time" < inject_Z (RESPONSE_TIME_SCALE_DOWN_THRESHOLD cfg))%Q.

(** No scale-down threshold lies above the scale-up threshold of its metric. *)
Definition ordered_thresholds (cfg : AutoscalerConfig) : Prop :=
  CPU_SCALE_DOWN_THRESHOLD cfg <= CPU_SCALE_UP_THRESHOLD cfg
  /\ MEMORY_SCALE_DOWN_THRESHOLD cfg <= MEMORY_SCALE_UP_THRESHOLD cfg
  /\ RESPONSE_TIME_SCALE_DOWN_THRESHOLD cfg <= RESPONSE_TIME_SCALE_UP_THRESHOLD cfg.

(** [max(cpu_usage, memory_usage)], the load the exponential algorithm reads. *)
Definition max_usage (metrics : gmap string Q) : Q :=
  Py.max (metrics_get metrics "cpu_usage") (metrics_get metrics "memory_usage").

(** The ring [get_trend] reads for a service and a metric. *)
Definition ring_of (mc : MetricsCollector) (service metric_type : string) : list sample :=
  default [] (metrics_history mc !! history_key service metric_type).

(** A ring is in the order of its timestamps. *)
Definition chronological (ring : list sample) : Prop :=
  forall (i j : nat) (a b : sample),
    ring !! i = Some a -> ring !! j = Some b -> (i <= j)%nat ->
    timestamp a <= timestamp b.

(** What the history keeps: no ring is longer than [PREDICTION_SAMPLES], every
    ring is in the order of its timestamps, and no sample is from the future. *)
Definition history_invariant (cfg : AutoscalerConfig) (s : state) : Prop :=
  forall key ring,
    metrics_history (metrics_collector s) !! key = Some ring ->
    (length ring <= PREDICTION_SAMPLES cfg)%nat
    /\ chronological ring
    /\ Forall (fun x => timestamp x <= clock s) ring.

(** No ring is longer than [PREDICTION_SAMPLES]. *)
Definition capacity_invariant (cfg : AutoscalerConfig) (s : state) : Prop :=
  forall key ring,
    metrics_history (metrics_collector s) !! key = Some ring ->
    (length ring <= PREDICTION_SAMPLES cfg)%nat.

(** [add_metric(service, metric_type, v)] at instant [t], for each [(t, v)] of
    a list in turn. *)
Definition add_metrics (cfg : AutoscalerConfig) (mc : MetricsCollector)
    (service metric_type : string) (readings : list (Z * Q)) : MetricsCollector :=
  fold_left (fun mc tv => add_metric cfg mc (fst tv) service metric_type (snd tv))
    readings mc.

Definition sample_of (tv : Z * Q) : sample :=
  {| timestamp := fst tv; value := snd tv |}.

(** The same configuration with another [COOLDOWN_PERIOD]. *)
Definition with_cooldown (seconds : Z) (c : AutoscalerConfig) : AutoscalerConfig := {|
  SCALE_UP_THRESHOLD := SCALE_UP_THRESHOLD c;
  SCALE_DOWN_THRESHOLD := SCALE_DOWN_THRESHOLD c;
  MIN_REPLICAS := MIN_REPLICAS c;
  MAX_REPLICAS := MAX_REPLICAS c;
  CHECK_INTERVAL := CHECK_INTERVAL c;
  COOLDOWN_PERIOD := seconds;
  SCALING_ALGORITHM := SCALING_ALGORITHM c;
  CPU_SCALE_UP_THRESHOLD := CPU_SCALE_UP_THRESHOLD c;
  CPU_SCALE_DOWN_THRESHOLD := CPU_SCALE_DOWN_THRESHOLD c;
  MEMORY_SCALE_UP_THRESHOLD := MEMORY_SCALE_UP_THRESHOLD c;
  MEMORY_SCALE_DOWN_THRESHOLD := MEMORY_SCALE_DOWN_THRESHOLD c;
  RESPONSE_TIME_SCALE_UP_THRESHOLD := RESPONSE_TIME_SCALE_UP_THRESHOLD c;
  RESPONSE_TIME_SCALE_DOWN_THRESHOLD := RESPONSE_TIME_SCALE_DOWN_THRESHOLD c;
  PREDICTION_SAMPLES := PREDICTION_SAMPLES c
|}.

(** The same configuration with another [PREDICTION_SAMPLES]. *)
Definition with_samples (n : nat) (c : AutoscalerConfig) : AutoscalerConfig := {|
  SCALE_UP_THRESHOLD := SCALE_UP_THRESHOLD c;
  SCALE_DOWN_THRESHOLD := SCALE_DOWN_THRESHOLD c;
  MIN_REPLICAS := MIN_REPLICAS c;
  MAX_REPLICAS := MAX_REPLICAS c;
  CHECK_INTERVAL := CHECK_INTERVAL c;
  COOLDOWN_PERIOD := COOLDOWN_PERIOD c;
  SCALING_ALGORITHM := SCALING_ALGORITHM c;
  CPU_SCALE_UP_THRESHOLD := CPU_SCALE_UP_THRESHOLD c;
  CPU_SCALE_DOWN_THRESHOLD := CPU_SCALE_DOWN_THRESHOLD c;
  MEMORY_SCALE_UP_THRESHOLD := MEMORY_SCALE_UP_THRESHOLD c;
  MEMORY_SCALE_DOWN_THRESHOLD := MEMORY_SCALE_DOWN_THRESHOLD c;
  RESPONSE_TIME_SCALE_UP_THRESHOLD := RESPONSE_TIME_SCALE_UP_THRESHOLD c;
  RESPONSE_TIME_SCALE_DOWN_THRESHOLD := RESPONSE_TIME_SCALE_DOWN_THRESHOLD c;
  PREDICTION_SAMPLES := n
|}.

(** The accepted updates of a service in a log. *)
Definition accepted_updates (service : string) (log : list update_request) : nat :=
  length (List.filter
            (fun r => ur_accepted r && String.eqb (ur_service r) service) log).

(** [scaling_decisions_total] of a service, its two directions together. *)
Definition counted (s : state) (service : string) : nat :=
  (default O (scaling_decisions_counter s !! (service, "up"))
   + default O (scaling_decisions_counter s !! (service, "down")))%nat.

(** The counter accounts for the accepted updates, service by service. *)
Definition counter_invariant (s : state) : Prop :=
  forall service, counted s service = accepted_updates service (update_log s).

(** A container whose [stats] call returned. *)
Definition answered (c : outcome container_stats) : bool :=
  match c with
  | Returned _ => true
  | Raised => false
  end.

(** Statistics as the Docker API reports them for a running container: the
    CPU time used between the two readings is not negative and not more than
    the system's, and the memory used is not negative and within the limit. *)
Definition plausible (c : outcome container_stats) : Prop :=
  match c with
  | Raised => True
  | Returned stats =>
      0 <= cpu_total_usage stats - precpu_total_usage stats
        <= system_cpu_usage stats - presystem_cpu_usage stats
      /\ 0 <= memory_stats_usage stats <= memory_stats_limit stats
  end.

(** The keys of every sample [collect_api_metrics] returns. *)
Definition sample_keys : gset string :=
  {[ "healthy"; "response_time"; "memory_usage"; "cpu_usage"; "error_rate" ]}.

(** The dictionary [collect_api_metrics] builds from a 200 response, before
    it looks at the containers. *)
Definition response_sample (h : bool) (ms : Q) : gmap string Q :=
  <["healthy" := if h then 1%Q else 0%Q]> (<["response_time" := ms]>
  (<["memory_usage" := 0%Q]> (<["cpu_usage" := 0%Q]> (<["error_rate" := 0%Q]> ∅)))).

(** ** The two start-up loops *)

(** What one attempt of [health_check_handler] to start its server meets:
    the probe finds the port in use ([connect_ex] returns 0); an exception is
    raised in the attempt (by the probe, by [HTTPServer] or later by
    [serve_forever]); or the server is started and serves until it is shut
    down. *)
Inductive bind_attempt := PortInUse | BindFailed | Serving.

Definition max_retries : nat := 5.

(** The [for attempt in range(max_retries)] loop of [health_check_handler],
    from attempt number [attempt] on, with [remaining] attempts to go:
    the [time.sleep] calls made, in seconds and in order, and whether the
    server was started. *)
Fixpoint health_attempts (answers : nat -> bind_attempt)
    (remaining attempt : nat) (retry_delay : Z) : list Z * bool :=
  match remaining with
  | O => ([], false)
  | S remaining =>
      match answers attempt with
      | PortInUse =>
          let '(sleeps, served) :=
            health_attempts answers remaining (S attempt) (retry_delay * 2) in
          (retry_delay :: sleeps, served)
      | Serving => ([], true)
      | BindFailed =>
          if (attempt <? max_retries - 1)%nat then
            let '(sleeps, served) :=
              health_attempts answers remaining (S attempt) (retry_delay * 2) in
            (retry_delay :: sleeps, served)
          else ([], false)
      end
  end.

(** [health_check_handler], below the definition of the handler class. *)
Definition health_check_handler (answers : nat -> bind_attempt) : list Z * bool :=
  health_attempts answers max_retries 0 2.

(** The loop of [run] that starts the Prometheus server; [answers] tells for
    each attempt whether [start_http_server] returned.  The result is the
    [time.sleep] calls made and [metrics_started]. *)
Fixpoint metrics_attempts (answers : nat -> bool)
    (remaining attempt : nat) (retry_delay : Z) : list Z * bool :=
  match remaining with
  | O => ([], false)
  | S remaining =>
      if answers attempt then ([], true)
      else if (attempt <? max_retries - 1)%nat then
        let '(sleeps, started) :=
          metrics_attempts answers remaining (S attempt) (retry_delay * 2) in
        (retry_delay :: sleeps, started)
      else
        metrics_attempts answers remaining (S attempt) retry_delay
  end.

Definition start_metrics_server (answers : nat -> bool) : list Z * bool :=
  metrics_attempts answers max_retries 0 2.

(** The seconds slept in all. *)
Definition total_sleep (sleeps : list Z) : Z := fold_right Z.add 0 sleeps.

(** A run of the application pipeline that lists two containers: one that
    used 80% of the CPU time and half of its memory, and one whose [stats]
    call raises. *)
Definition half_answering_run : api_run :=
  {| api_health := HealthResponse 200 (Returned true) 120;
     api_containers :=
       Returned [ Returned {| cpu_total_usage := 900; precpu_total_usage := 100;
                              system_cpu_usage := 2000; presystem_cpu_usage := 1000;
                              memory_stats_usage := 50; memory_stats_limit := 100 |};
                  Raised ];
     api_replicas_read := Returned 2;
     api_dt_cpu := 1000;
     api_dt_memory := 1000;
     api_dt_response := 1000;
     api_dt_gate := 1000;
     api_scale := {| sa_read := Returned 2; sa_delay := 50000; sa_update_ok := true |};
     api_dt_stamp := 1000 |}.

(** * Properties *)

(** ** Binary64 rounding *)

Section Rounding.

Import Binary64.
Local Open Scope Q_scope.

Lemma pow2_pos k : 0 < 2 ^ k.
Proof. apply Qpower_0_lt. reflexivity. Qed.

Lemma pow2_add a b : 2 ^ (a + b) == 2 ^ a * 2 ^ b.
Proof. apply Qpower_plus. discriminate. Qed.

Lemma pow2_le a b : (a <= b)%Z -> 2 ^ a <= 2 ^ b.
Proof. intros H. apply Qpower_le_compat_l; [exact H | discriminate]. Qed.

Lemma pow2_lt_inv a b : 2 ^ a < 2 ^ b -> (a < b)%Z.
Proof. intros H. apply (Qpower_lt_compat_l_inv 2); [exact H | reflexivity]. Qed.

Lemma pow2_inject k : (0 <= k)%Z -> inject_Z (2 ^ k) == 2 ^ k.
Proof. apply (Zpower_Qpower 2). Qed.

(** A power of two is a whole multiple of every smaller one. *)
Lemma pow2_multiple c e : (c <= e)%Z -> 2 ^ e == inject_Z (2 ^ (e - c)) * 2 ^ c.
Proof.
  intros H. rewrite pow2_inject by lia. rewrite <- pow2_add.
  replace (e - c + c)%Z with e by lia. reflexivity.
Qed.

Lemma ilog2_spec x : 0 < x -> 2 ^ ilog2 x <= x /\ x < 2 ^ (ilog2 x + 1).
Proof.
  intros Hx. destruct x as [n d].
  assert (Hn : (0 < n)%Z) by (unfold Qlt in Hx; cbn in Hx; lia).
  unfold ilog2. cbn [Qnum Qden].
  remember (Z.log2 n) as a eqn:Ea. remember (Z.log2 (Zpos d)) as b eqn:Eb.
  remember (a - b)%Z as k eqn:Ek.
  destruct (Z.log2_spec n Hn) as [Ha1 Ha2]. rewrite <- Ea in Ha1, Ha2.
  destruct (Z.log2_spec (Zpos d) ltac:(lia)) as [Hb1 Hb2]. rewrite <- Eb in Hb1, Hb2.
  assert (Ha0 : (0 <= a)%Z) by (subst a; apply Z.log2_nonneg).
  assert (Hb0 : (0 <= b)%Z) by (subst b; apply Z.log2_nonneg).
  assert (Qa1 : 2 ^ a <= inject_Z n)
    by (rewrite <- pow2_inject by lia; rewrite <- Zle_Qle; exact Ha1).
  assert (Qa2 : inject_Z n < 2 ^ (a + 1))
    by (rewrite <- pow2_inject by lia; rewrite <- Zlt_Qlt; lia).
  assert (Qb1 : 2 ^ b <= inject_Z (Zpos d))
    by (rewrite <- pow2_inject by lia; rewrite <- Zle_Qle; exact Hb1).
  assert (Qb2 : inject_Z (Zpos d) < 2 ^ (b + 1))
    by (rewrite <- pow2_inject by lia; rewrite <- Zlt_Qlt; lia).
  assert (E : n # d == inject_Z n / inject_Z (Zpos d)) by apply Qmake_Qdiv.
  assert (Hd : 0 < inject_Z (Zpos d)) by reflexivity.
  assert (Up : n # d < 2 ^ (k + 1)).
  { rewrite E. apply Qlt_shift_div_r; [exact Hd |].
    assert (P : 2 ^ (a + 1) == 2 ^ (k + 1) * 2 ^ b)
      by (rewrite <- pow2_add; replace (k + 1 + b)%Z with (a + 1)%Z by lia; reflexivity).
    eapply Qlt_le_trans; [exact Qa2 |]. rewrite P.
    apply Qmult_le_l; [apply pow2_pos | exact Qb1]. }
  assert (Lo : 2 ^ (k - 1) <= n # d).
  { rewrite E. apply Qle_shift_div_l; [exact Hd |].
    assert (P : 2 ^ a == 2 ^ (k - 1) * 2 ^ (b + 1))
      by (rewrite <- pow2_add; replace (k - 1 + (b + 1))%Z with a by lia; reflexivity).
    eapply Qle_trans; [| exact Qa1]. rewrite P.
    apply Qmult_le_l; [apply pow2_pos | apply Qlt_le_weak, Qb2]. }
  destruct (Qle_bool (2 ^ k) (n # d)) eqn:Hk.
  - apply Qle_bool_iff in Hk. split; assumption.
  - split; [exact Lo |]. replace (k - 1 + 1)%Z with k by lia.
    apply Qnot_le_lt. intros H. apply Qle_bool_iff in H. congruence.
Qed.

Lemma ilog2_unique x e : 0 < x -> 2 ^ e <= x -> x < 2 ^ (e + 1) -> ilog2 x = e.
Proof.
  intros Hx H1 H2. destruct (ilog2_spec x Hx) as [I1 I2].
  assert ((ilog2 x < e + 1)%Z)
    by (apply pow2_lt_inv; eapply Qle_lt_trans; eassumption).
  assert ((e < ilog2 x + 1)%Z)
    by (apply pow2_lt_inv; eapply Qle_lt_trans; eassumption).
  lia.
Qed.

Lemma ilog2_le x y : 0 < x -> x <= y -> (ilog2 x <= ilog2 y)%Z.
Proof.
  intros Hx Hxy. assert (Hy : 0 < y) by lra.
  destruct (ilog2_spec x Hx) as [I1 _]. destruct (ilog2_spec y Hy) as [_ J2].
  assert ((ilog2 x < ilog2 y + 1)%Z); [| lia].
  apply pow2_lt_inv. lra.
Qed.

Lemma ilog2_comp x y : 0 < x -> x == y -> ilog2 x = ilog2 y.
Proof.
  intros Hx E. assert (Hy : 0 < y) by lra.
  pose proof (ilog2_le x y Hx ltac:(lra)). pose proof (ilog2_le y x Hy ltac:(lra)). lia.
Qed.

Lemma nearest_even_bounds x : (Qfloor x <= nearest_even x <= Qfloor x + 1)%Z.
Proof.
  unfold nearest_even. cbv zeta.
  destruct (_ ?= _); [destruct (Z.even _) | |]; lia.
Qed.

Lemma nearest_even_inject k : nearest_even (inject_Z k) = k.
Proof.
  unfold nearest_even. rewrite Qfloor_Z. cbv zeta.
  assert (H : (inject_Z k - inject_Z k ?= 1 # 2) = Lt) by (apply (proj1 (Qlt_alt _ _)); lra).
  rewrite H. reflexivity.
Qed.

Lemma nearest_even_le x y : x <= y -> (nearest_even x <= nearest_even y)%Z.
Proof.
  intros H. pose proof (Qfloor_resp_le x y H) as Hf.
  pose proof (nearest_even_bounds x). pose proof (nearest_even_bounds y).
  destruct (Z.eq_dec (Qfloor x) (Qfloor y)) as [E | NE]; [| lia].
  unfold nearest_even. cbv zeta. rewrite <- E.
  destruct (Qcompare_spec (x - inject_Z (Qfloor x)) (1 # 2)) as [Hx | Hx | Hx];
    destruct (Qcompare_spec (y - inject_Z (Qfloor x)) (1 # 2)) as [Hy | Hy | Hy];
    try destruct (Z.even (Qfloor x)); try lia; exfalso; lra.
Qed.

Lemma nearest_even_comp : Proper (Qeq ==> eq) nearest_even.
Proof.
  intros x y E.
  pose proof (nearest_even_le x y ltac:(lra)). pose proof (nearest_even_le y x ltac:(lra)).
  lia.
Qed.

#[local] Existing Instance nearest_even_comp.

Lemma Qfloor_unique x z : inject_Z z <= x -> x < inject_Z (z + 1) -> Qfloor x = z.
Proof.
  intros H1 H2. pose proof (Qfloor_le x) as F1. pose proof (Qlt_floor x) as F2.
  assert (A : (z < Qfloor x + 1)%Z) by (rewrite Zlt_Qlt; lra).
  assert (B : (Qfloor x < z + 1)%Z) by (rewrite Zlt_Qlt; lra).
  lia.
Qed.

Lemma nearest_even_opp x : nearest_even (- x) = (- nearest_even x)%Z.
Proof.
  pose proof (Qfloor_le x) as F1. pose proof (Qlt_floor x) as F2.
  remember (Qfloor x) as f eqn:Ef.
  rewrite inject_Z_plus in F2.
  destruct (Qeq_dec x (inject_Z f)) as [E | NE].
  - assert (E' : - x == inject_Z (- f)) by (rewrite inject_Z_opp; lra).
    rewrite E', E, !nearest_even_inject. reflexivity.
  - assert (Hlt : inject_Z f < x).
    { destruct (Qle_lt_or_eq _ _ F1) as [G | G]; [exact G |]. exfalso. apply NE. lra. }
    assert (Fm : Qfloor (- x) = (- f - 1)%Z).
    { apply Qfloor_unique.
      - unfold Z.sub. rewrite inject_Z_plus, !inject_Z_opp. lra.
      - replace (- f - 1 + 1)%Z with (- f)%Z by lia. rewrite inject_Z_opp. lra. }
    unfold nearest_even. cbv zeta. rewrite Fm, <- Ef.
    assert (Ev : Z.even (- f - 1) = negb (Z.even f)).
    { replace (- f - 1)%Z with (- Z.succ f)%Z by lia.
      rewrite Z.even_opp, Z.even_succ, <- Z.negb_even. reflexivity. }
    rewrite Ev.
    assert (Em : inject_Z (- f - 1) == - inject_Z f - 1).
    { unfold Z.sub. rewrite inject_Z_plus, !inject_Z_opp. reflexivity. }
    destruct (Qcompare_spec (x - inject_Z f) (1 # 2)) as [Hx | Hx | Hx];
      destruct (Qcompare_spec (- x - inject_Z (- f - 1)) (1 # 2)) as [Hy | Hy | Hy];
      try destruct (Z.even f); cbn [negb]; try lia; exfalso; lra.
Qed.

Lemma round_at_le c x y : x <= y -> round_at c x <= round_at c y.
Proof.
  intros H. unfold round_at. pose proof (pow2_pos c) as Hc.
  apply Qmult_le_compat_r; [| lra].
  rewrite <- Zle_Qle. apply nearest_even_le.
  apply Qmult_le_compat_r; [exact H |].
  apply Qlt_le_weak, Qinv_lt_0_compat, Hc.
Qed.

Lemma round_at_comp c : Proper (Qeq ==> Qeq) (round_at c).
Proof.
  intros x y E. apply Qle_antisym; apply round_at_le; lra.
Qed.

#[local] Existing Instance round_at_comp.

Lemma round_at_multiple c k : round_at c (inject_Z k * 2 ^ c) == inject_Z k * 2 ^ c.
Proof.
  unfold round_at. pose proof (pow2_pos c) as Hc.
  assert (E : inject_Z k * 2 ^ c / 2 ^ c == inject_Z k) by (field; lra).
  rewrite E, nearest_even_inject. reflexivity.
Qed.

Lemma round_at_above c k x :
  inject_Z k * 2 ^ c <= x -> inject_Z k * 2 ^ c <= round_at c x.
Proof. intros H. rewrite <- (round_at_multiple c k). apply round_at_le, H. Qed.

Lemma round_at_below c k x :
  x <= inject_Z k * 2 ^ c -> round_at c x <= inject_Z k * 2 ^ c.
Proof. intros H. rewrite <- (round_at_multiple c k). apply round_at_le, H. Qed.

Lemma round_at_opp c x : round_at c (- x) == - round_at c x.
Proof.
  unfold round_at. pose proof (pow2_pos c) as Hc.
  assert (E : - x / 2 ^ c == - (x / 2 ^ c)) by (field; lra).
  rewrite E, nearest_even_opp, inject_Z_opp. ring.
Qed.

Lemma rnd_zero x : x == 0 -> rnd x == 0.
Proof.
  intros H. unfold rnd. rewrite Qred_correct.
  apply Qeq_bool_iff in H. rewrite H. reflexivity.
Qed.

Lemma rnd_nonzero x : ~ x == 0 -> rnd x == round_at (exponent x) x.
Proof.
  intros H. unfold rnd. rewrite Qred_correct.
  destruct (Qeq_bool x 0) eqn:E; [| reflexivity].
  apply Qeq_bool_iff in E. contradiction.
Qed.

Lemma exponent_pos x : 0 < x -> exponent x = Z.max (ilog2 x - 52) (-1074).
Proof.
  intros H. unfold exponent. f_equal. f_equal.
  apply ilog2_comp; [| apply Qabs_pos; lra].
  rewrite Qabs_pos; lra.
Qed.

Lemma exponent_opp x : ~ x == 0 -> exponent (- x) = exponent x.
Proof.
  intros H. unfold exponent. f_equal. f_equal.
  apply ilog2_comp; [| apply Qabs_opp].
  rewrite Qabs_opp. destruct (Qlt_le_dec 0 x).
  - rewrite Qabs_pos; lra.
  - rewrite Qabs_neg by lra.
    destruct (Qle_lt_or_eq _ _ q) as [G | G]; [lra | contradiction].
Qed.

Lemma rnd_opp x : rnd (- x) == - rnd x.
Proof.
  destruct (Qeq_dec x 0) as [E | NE].
  - rewrite !rnd_zero by lra. reflexivity.
  - rewrite !rnd_nonzero by lra. rewrite exponent_opp by exact NE.
    apply round_at_opp.
Qed.

Lemma rnd_nonneg x : 0 <= x -> 0 <= rnd x.
Proof.
  intros H. destruct (Qeq_dec x 0) as [E | NE].
  - rewrite rnd_zero by exact E. lra.
  - rewrite rnd_nonzero by exact NE.
    pose proof (round_at_above (exponent x) 0 x) as G.
    change (inject_Z 0) with 0 in G. rewrite Qmult_0_l in G. apply G, H.
Qed.

Lemma rnd_le_pos x y : 0 < x -> x <= y -> rnd x <= rnd y.
Proof.
  intros Hx Hxy. assert (Hy : 0 < y) by lra.
  rewrite !rnd_nonzero by lra. rewrite !exponent_pos by assumption.
  pose proof (ilog2_le x y Hx Hxy) as Hi.
  destruct (ilog2_spec x Hx) as [_ X2]. destruct (ilog2_spec y Hy) as [Y1 _].
  remember (ilog2 x) as ix. remember (ilog2 y) as iy.
  destruct (Z.eq_dec (Z.max (ix - 52) (-1074)) (Z.max (iy - 52) (-1074))) as [E | NE].
  - rewrite E. apply round_at_le, Hxy.
  - assert (Hb : x <= 2 ^ iy).
    { apply Qlt_le_weak. eapply Qlt_le_trans; [exact X2 |]. apply pow2_le. lia. }
    apply (Qle_trans _ (2 ^ iy)).
    + rewrite (pow2_multiple (Z.max (ix - 52) (-1074)) iy) in Hb |- * by lia.
      apply round_at_below, Hb.
    + rewrite (pow2_multiple (Z.max (iy - 52) (-1074)) iy) in Y1 |- * by lia.
      apply round_at_above, Y1.
Qed.

(** Rounding is monotone. *)
Lemma rnd_le x y : x <= y -> rnd x <= rnd y.
Proof.
  intros H. destruct (Qlt_le_dec 0 x) as [Hx | Hx]; [apply rnd_le_pos; assumption |].
  destruct (Qlt_le_dec y 0) as [Hy | Hy].
  - pose proof (rnd_le_pos (- y) (- x) ltac:(lra) ltac:(lra)) as G.
    rewrite !rnd_opp in G. lra.
  - pose proof (rnd_nonneg y Hy). pose proof (rnd_nonneg (- x) ltac:(lra)) as G.
    rewrite rnd_opp in G. lra.
Qed.

Lemma rnd_comp : Proper (Qeq ==> Qeq) rnd.
Proof. intros x y E. apply Qle_antisym; apply rnd_le; lra. Qed.

#[local] Existing Instance rnd_comp.

(** A number of at most 53 bits times a power of two within the exponent
    range is a binary64 number: rounding leaves it as it is. *)
Lemma rnd_multiple k c :
  (0 < k < 2 ^ 53)%Z -> (-1074 <= c)%Z -> rnd (inject_Z k * 2 ^ c) == inject_Z k * 2 ^ c.
Proof.
  intros Hk Hc. pose proof (pow2_pos c) as Pc.
  assert (Hk1 : 0 < inject_Z k) by (rewrite <- (Zlt_Qlt 0); lia).
  assert (Hk2 : inject_Z k < 2 ^ 53)
    by (rewrite <- (pow2_inject 53) by lia; rewrite <- Zlt_Qlt; lia).
  assert (Hy : 0 < inject_Z k * 2 ^ c) by (apply Qmult_lt_0_compat; assumption).
  rewrite rnd_nonzero by lra. rewrite exponent_pos by exact Hy.
  destruct (ilog2_spec _ Hy) as [I1 _].
  remember (ilog2 (inject_Z k * 2 ^ c)) as i.
  assert (Hi : (i < c + 53)%Z).
  { apply pow2_lt_inv. eapply Qle_lt_trans; [exact I1 |].
    rewrite (Z.add_comm c 53), pow2_add.
    apply Qmult_lt_compat_r; assumption. }
  remember (Z.max (i - 52) (-1074)) as e.
  assert (E : inject_Z k * 2 ^ c == inject_Z (k * 2 ^ (c - e)) * 2 ^ e).
  { rewrite inject_Z_mult, pow2_inject by lia.
    rewrite <- Qmult_assoc, <- pow2_add.
    replace (c - e + e)%Z with c by lia. reflexivity. }
  rewrite E. apply round_at_multiple.
Qed.

(** Rounding twice is rounding once. *)
Lemma rnd_idem_pos x : 0 < x -> rnd (rnd x) == rnd x.
Proof.
  intros Hx. pose proof (rnd_nonzero x ltac:(lra)) as R.
  rewrite exponent_pos in R by exact Hx.
  destruct (ilog2_spec x Hx) as [_ X2]. remember (ilog2 x) as i.
  remember (Z.max (i - 52) (-1074)) as e. pose proof (pow2_pos e) as Pe.
  unfold round_at in R. remember (nearest_even (x / 2 ^ e)) as K.
  assert (K0 : (0 <= K)%Z).
  { subst K. rewrite <- (nearest_even_inject 0). apply nearest_even_le.
    apply Qle_shift_div_l; [exact Pe |].
    change (inject_Z 0) with 0. rewrite Qmult_0_l. lra. }
  assert (K1 : (K <= 2 ^ 53)%Z).
  { subst K. rewrite <- (nearest_even_inject (2 ^ 53)). apply nearest_even_le.
    apply Qle_shift_div_r; [exact Pe |].
    rewrite pow2_inject, <- pow2_add by lia.
    apply Qlt_le_weak. eapply Qlt_le_trans; [exact X2 |]. apply pow2_le. lia. }
  rewrite R.
  destruct (Z.eq_dec K 0%Z) as [-> | Kn0].
  { assert (Z0 : inject_Z 0 * 2 ^ e == 0) by ring.
    rewrite Z0. apply rnd_zero. reflexivity. }
  destruct (Z.eq_dec K (2 ^ 53)%Z) as [-> | Kn].
  - assert (E : inject_Z (2 ^ 53) * 2 ^ e == inject_Z (2 ^ 52) * 2 ^ (e + 1)).
    { rewrite !pow2_inject, <- !pow2_add by lia. 
      replace (53 + e)%Z with (52 + (e + 1))%Z by lia. reflexivity. }
    rewrite E. apply rnd_multiple; lia.
  - apply rnd_multiple; lia.
Qed.

Lemma rnd_idem x : rnd (rnd x) == rnd x.
Proof.
  destruct (Qlt_le_dec 0 x) as [Hx | Hx]; [apply rnd_idem_pos, Hx |].
  destruct (Qle_lt_or_eq _ _ Hx) as [Hlt | Heq].
  - pose proof (rnd_idem_pos (- x) ltac:(lra)) as G.
    rewrite !rnd_opp in G. lra.
  - rewrite (rnd_zero x Heq). apply rnd_zero. reflexivity.
Qed.

End Rounding.

#[global] Existing Instance rnd_comp.

(** [rnd] on the numbers that matter below, against the IEEE 754
    specification of the standard library: the literals 1.1, 0.9 and 0.7,
    [50 * 1.1], [11 * 50 / 1000 * 100], and [90 * 0.7], whose truncation is
    62. *)
Example rnd_agrees_with_ieee_on_literals :
  Binary64.ieee_value (Binary64.ieee_div (Binary64.ieee_of_Z 11) (Binary64.ieee_of_Z 10))
  = Some (Binary64.rnd (11 # 10))
  /\ Binary64.ieee_value (Binary64.ieee_div (Binary64.ieee_of_Z 9) (Binary64.ieee_of_Z 10))
     = Some (Binary64.rnd (9 # 10))
  /\ Binary64.ieee_value (Binary64.ieee_div (Binary64.ieee_of_Z 7) (Binary64.ieee_of_Z 10))
     = Some (Binary64.rnd (7 # 10)).
Proof. vm_compute. repeat split. Qed.

Example rnd_agrees_with_ieee_on_products :
  let tenth x := Binary64.ieee_div (Binary64.ieee_of_Z x) (Binary64.ieee_of_Z 10) in
  Binary64.ieee_value (Binary64.ieee_mul (Binary64.ieee_of_Z 50) (tenth 11))
  = Some (Binary64.mul 50 (Binary64.rnd (11 # 10)))
  /\ Binary64.ieee_value
       (Binary64.ieee_mul
          (Binary64.ieee_div (Binary64.ieee_of_Z (11 * 50)) (Binary64.ieee_of_Z 1000))
          (Binary64.ieee_of_Z 100))
     = Some (Binary64.mul (Binary64.div (inject_Z (11 * 50)) 1000) 100)
  /\ Binary64.ieee_value (Binary64.ieee_mul (Binary64.ieee_of_Z 90) (tenth 7))
     = Some (Binary64.mul 90 (Binary64.rnd (7 # 10)))
  /\ Py.int (Binary64.mul 90 (Binary64.rnd (7 # 10))) = 62
  /\ Py.int (90 * (7 # 10)) = 63.
Proof. vm_compute. repeat split. Qed.

(** ** Python primitives *)

Lemma ltb_lt a b : Py.ltb a b = true <-> (a < b)%Q.
Proof.
  unfold Py.ltb. rewrite negb_true_iff, <- not_true_iff_false, Qle_bool_iff.
  split; [apply Qnot_le_lt | apply Qlt_not_le].
Qed.

Lemma ltb_ge a b : Py.ltb a b = false <-> (b <= a)%Q.
Proof.
  unfold Py.ltb. rewrite negb_false_iff. apply Qle_bool_iff.
Qed.

Lemma gtb_gt a b : Py.gtb a b = true <-> (b < a)%Q.
Proof. apply ltb_lt. Qed.

Lemma gtb_le a b : Py.gtb a b = false <-> (a <= b)%Q.
Proof. apply ltb_ge. Qed.


Lemma int_three_halves c : 0 <= c -> Py.int (inject_Z c * (3 # 2)) = c * 3 / 2.
Proof.
  intros H. unfold Py.int. simpl. rewrite Z.quot_div_nonneg by lia. reflexivity.
Qed.

(** ** The decision engine *)

Section DecisionFacts.

Variable cfg : AutoscalerConfig.

Lemma linear_within_bounds metrics current :
  MIN_REPLICAS cfg <= current <= MAX_REPLICAS cfg ->
  MIN_REPLICAS cfg <= _linear_scaling_decision cfg metrics current <= MAX_REPLICAS cfg.
Proof.
  intros Hc. unfold _linear_scaling_decision.
  cbv zeta.
  destruct (Py.gtb _ _ || Py.gtb _ _ || Py.gtb _ _);
    destruct (Py.ltb _ _ && Py.ltb _ _ && Py.ltb _ _);
    destruct (Z.ltb_spec current (MAX_REPLICAS cfg));
    destruct (Z.gtb_spec current (MIN_REPLICAS cfg)); cbn [andb]; lia.
Qed.

Lemma exponential_within_bounds metrics current :
  MIN_REPLICAS cfg <= current <= MAX_REPLICAS cfg ->
  MIN_REPLICAS cfg <= _exponential_scaling_decision cfg metrics current <= MAX_REPLICAS cfg.
Proof.
  intros Hc. unfold _exponential_scaling_decision.
  destruct (scale_factor cfg _); lia.
Qed.

Lemma predictive_within_bounds mc metrics current :
  MIN_REPLICAS cfg <= current <= MAX_REPLICAS cfg ->
  MIN_REPLICAS cfg <= _predictive_scaling_decision cfg mc metrics current <= MAX_REPLICAS cfg.
Proof.
  intros Hc. unfold _predictive_scaling_decision.
  destruct (_ && _); [lia |]. destruct (_ && _); lia.
Qed.

Lemma decision_within_bounds mc metrics current :
  MIN_REPLICAS cfg <= current <= MAX_REPLICAS cfg ->
  MIN_REPLICAS cfg <= make_scaling_decision cfg mc metrics current <= MAX_REPLICAS cfg.
Proof.
  intros Hc. unfold make_scaling_decision.
  repeat destruct (String.eqb _ _);
    auto using linear_within_bounds, exponential_within_bounds, predictive_within_bounds.
Qed.

End DecisionFacts.

(** The scenarios and boundary cases the specification lists, run on the
    embedding. *)

Example linear_scale_up :
  make_scaling_decision default_config empty_collector (reading 85 50 300) 3 = 4.
Proof. reflexivity. Qed.

Example linear_scale_down_blocked_by_memory :
  make_scaling_decision default_config empty_collector (reading 10 50 100) 5 = 5.
Proof. reflexivity. Qed.

Example linear_threshold_is_strict :
  make_scaling_decision default_config empty_collector (reading 70 0 0) 5 = 5.
Proof. reflexivity. Qed.

Example linear_stops_at_maximum :
  make_scaling_decision default_config empty_collector (reading 71 0 0) 10 = 10.
Proof. reflexivity. Qed.

Example exponential_critical :
  make_scaling_decision (with_algorithm "exponential" default_config)
    empty_collector (reading 95 50 0) 4 = 8.
Proof. reflexivity. Qed.

Example exponential_fractional_floor :
  make_scaling_decision (with_algorithm "exponential" default_config)
    empty_collector (reading 85 50 0) 3 = 4.
Proof. reflexivity. Qed.

Example exponential_ninety_is_not_critical :
  make_scaling_decision (with_algorithm "exponential" default_config)
    empty_collector (reading 90 50 0) 4 = 6.
Proof. reflexivity. Qed.

Example predictive_proactive_up :
  make_scaling_decision (with_algorithm "predictive" default_config)
    (collector_with [50; 55; 62; 68; 72]%Q) (reading 72 65 0) 4 = 5.
Proof. vm_compute. reflexivity. Qed.

Example predictive_without_history :
  make_scaling_decision (with_algorithm "predictive" default_config)
    (collector_with [50; 90]%Q) (reading 90 90 0) 4 = 4.
Proof. vm_compute. reflexivity. Qed.

(** C7: with an algorithm tag that is none of [linear], [exponential] and
    [predictive], [make_scaling_decision] is a total function returning, on
    every sample, replica count and history, exactly what it returns under the
    [linear] tag. *)
Theorem unrecognized_algorithm_is_linear
    (cfg : AutoscalerConfig) (tag : string) (mc : MetricsCollector)
    (metrics : gmap string Q) (current : Z) :
  tag <> "linear" -> tag <> "exponential" -> tag <> "predictive" ->
  make_scaling_decision (with_algorithm tag cfg) mc metrics current
  = make_scaling_decision (with_algorithm "linear" cfg) mc metrics current
  /\ make_scaling_decision (with_algorithm tag cfg) mc metrics current
     = _linear_scaling_decision cfg metrics current.
Proof.
  intros Hl He Hp. unfold make_scaling_decision. simpl.
  apply String.eqb_neq in Hl, He, Hp. rewrite Hl, He, Hp.
  split; reflexivity.
Qed.

Lemma unrecognized_algorithm_is_linear_witness :
  make_scaling_decision (with_algorithm "quadratic" default_config)
    empty_collector (reading 85 50 300) 3
  = make_scaling_decision (with_algorithm "linear" default_config)
      empty_collector (reading 85 50 300) 3
  /\ make_scaling_decision (with_algorithm "quadratic" default_config)
       empty_collector (reading 85 50 300) 3
     = _linear_scaling_decision default_config (reading 85 50 300) 3.
Proof.
  apply (unrecognized_algorithm_is_linear default_config "quadratic"
           empty_collector (reading 85 50 300) 3); discriminate.
Defined.




(** ** The cooldown gate *)

(** What [can_scale] computes: the seconds field of the elapsed time, which
    starts again from zero with every whole day. *)
Lemma can_scale_spec cfg mc now service :
  can_scale cfg mc now service = true <->
  last_scaling_action mc !! service = None
  \/ exists last, last_scaling_action mc !! service = Some last
       /\ COOLDOWN_PERIOD cfg <= ((now - last) / us_per_second) mod seconds_per_day.
Proof.
  unfold can_scale, timedelta_seconds.
  destruct (last_scaling_action mc !! service) as [last|]; split.
  - intros H. right. exists last. split; [reflexivity | lia].
  - intros [H | (l & [= <-] & H)]; [discriminate | lia].
  - auto.
  - reflexivity.
Qed.

(** Within the first day after the recorded instant the gate is the
    comparison of the elapsed time with the cooldown. *)
Lemma can_scale_within_a_day cfg mc now service last :
  last_scaling_action mc !! service = Some last ->
  0 <= now - last < seconds_per_day * us_per_second ->
  can_scale cfg mc now service = true <->
  COOLDOWN_PERIOD cfg * us_per_second <= now - last.
Proof.
  intros Hl Hd. unfold can_scale, timedelta_seconds. rewrite Hl.
  unfold us_per_second, seconds_per_day in *.
  assert (0 <= (now - last) / 1000000 < 86400)
    by (split; [apply Z.div_pos | apply Z.div_lt_upper_bound]; lia).
  rewrite Z.mod_small by assumption.
  rewrite Z.leb_le. split; intros H'.
  - pose proof (Z.mul_div_le (now - last) 1000000 ltac:(lia)). nia.
  - apply Z.div_le_lower_bound; lia.
Qed.


(** C4, at the input where the code departs from it: a scaling action is
    recorded for the application tier, and one day and ten seconds later, far
    beyond the 120 seconds of cooldown, [can_scale] still answers no. *)
Theorem can_scale_forgets_whole_days :
  let mc := record_scaling_action empty_collector 0 "api" in
  let now := (seconds_per_day + 10) * us_per_second in
  last_scaling_action mc !! "api" = Some 0
  /\ COOLDOWN_PERIOD default_config * us_per_second <= now - 0
  /\ can_scale default_config mc now "api" = false.
Proof.
  vm_compute. repeat split. discriminate.
Qed.

(** ** [scale_service] *)

(** The three ways a call of [scale_service] can go: nothing is asked of the
    orchestrator and the call reports failure; nothing is asked and the call
    reports success, the replica count read back being the target already;
    one update is sent, and the call reports whether it was accepted. *)
Lemma scale_service_cases name target a s :
  (scale_service name target a s = (false, s)
   /\ (docker_available s = false \/ sa_read a = Raised))
  \/ (scale_service name target a s = (true, s)
      /\ docker_available s = true /\ sa_read a = Returned target)
  \/ (exists current s',
        scale_service name target a s = (sa_update_ok a, s')
        /\ docker_available s = true
        /\ sa_read a = Returned current /\ current <> target
        /\ update_log s' = request_of name target a s :: update_log s
        /\ clock s' = clock s + sa_delay a
        /\ metrics_collector s' = metrics_collector s
        /\ docker_available s' = docker_available s
        /\ scaling_decisions_counter s' =
             if sa_update_ok a
             then scaling_decisions_counter
                    (counter_inc name (if target >? current then "up" else "down") s)
             else scaling_decisions_counter s).
Proof.
  unfold scale_service.
  destruct (docker_available s) eqn:Hd; cbn [negb]; [| left; auto].
  destruct (sa_read a) as [current|] eqn:Hr; [| left; auto].
  destruct (Z.eqb_spec current target) as [-> | Hne]; [right; left; auto |].
  right; right. exists current. unfold request_of.
  destruct (sa_update_ok a); eexists; (split; [reflexivity |]);
    repeat split; auto.
Qed.

(** In monitoring-only mode [scale_service] does nothing and reports failure. *)
Lemma scale_service_unavailable name target a s :
  docker_available s = false -> scale_service name target a s = (false, s).
Proof. intros H. unfold scale_service. rewrite H. reflexivity. Qed.

(** ** What a pipeline leaves as it is *)

Lemma record_api_sample_view cfg e metrics current s :
  actuation_view (record_api_sample cfg e metrics current s) = actuation_view s.
Proof. reflexivity. Qed.

Lemma record_api_sample_clock cfg e metrics current s :
  clock (record_api_sample cfg e metrics current s)
  = clock s + api_dt_cpu e + api_dt_memory e + api_dt_response e.
Proof. reflexivity. Qed.

Section MonitoringOnly.

Variable cfg : AutoscalerConfig.

Lemma scale_api_instances_unavailable e s :
  docker_available s = false ->
  actuation_view (scale_api_instances cfg e s) = actuation_view s.
Proof.
  intros Hd. unfold scale_api_instances.
  destruct (collect_api_metrics _ e) as [metrics|]; [| reflexivity].
  cbv zeta. destruct (negb (can_scale _ _ _ _)); [reflexivity |].
  destruct (negb (_ =? _)); [| reflexivity].
  rewrite scale_service_unavailable by exact Hd. reflexivity.
Qed.

Lemma scale_postgres_instances_unavailable e s :
  docker_available s = false ->
  actuation_view (scale_postgres_instances cfg e s) = actuation_view s.
Proof.
  intros Hd. unfold scale_postgres_instances. cbv zeta.
  destruct (_ && _); [| reflexivity].
  destruct (can_scale _ _ _ _); [| reflexivity].
  rewrite scale_service_unavailable by exact Hd. reflexivity.
Qed.

Lemma scale_redis_instances_unavailable e s :
  docker_available s = false ->
  actuation_view (scale_redis_instances cfg e s) = actuation_view s.
Proof.
  intros Hd. unfold scale_redis_instances. cbv zeta.
  destruct (_ && _); [| reflexivity].
  destruct (can_scale _ _ _ _); [| reflexivity].
  rewrite scale_service_unavailable by exact Hd. reflexivity.
Qed.

Lemma run_monitoring_cycle_unavailable c s :
  docker_available s = false ->
  actuation_view (run_monitoring_cycle cfg c s) = actuation_view s.
Proof.
  intros Hd. unfold run_monitoring_cycle.
  pose proof (scale_api_instances_unavailable (cycle_api c) s Hd) as Ha.
  assert (Hd1 : docker_available (scale_api_instances cfg (cycle_api c) s) = false)
    by (unfold actuation_view in Ha; congruence).
  pose proof (scale_postgres_instances_unavailable (cycle_postgres c) _ Hd1) as Hp.
  assert (Hd2 : docker_available
                  (scale_postgres_instances cfg (cycle_postgres c)
                     (scale_api_instances cfg (cycle_api c) s)) = false)
    by (unfold actuation_view in Hp; congruence).
  rewrite (scale_redis_instances_unavailable (cycle_redis c) _ Hd2). congruence.
Qed.

Lemma run_unavailable cycles s :
  docker_available s = false ->
  actuation_view (run cfg cycles s) = actuation_view s.
Proof.
  revert s. induction cycles as [| c cycles IH]; intros s Hd; [reflexivity |].
  unfold run in *. cbn [fold_left].
  pose proof (run_monitoring_cycle_unavailable c s Hd) as Hc.
  rewrite IH; [exact Hc |]. unfold actuation_view in Hc. congruence.
Qed.

End MonitoringOnly.

(** C6, as the code has it: when [DOCKER_UNAVAILABLE] is set to a non-empty
    value or the connection test fails, then at every point of every run
    [get_service_replicas] answers 1 whatever the service, and
    [scale_service] changes nothing and reports failure; no update is ever
    sent, no scaling action is recorded and the scaling counter stays empty. *)
Theorem monitoring_only_mode
    (cfg : AutoscalerConfig) (docker_unavailable : option string) (ping_ok : bool)
    (now : Z) (cycles : list cycle) :
  Py.truthy docker_unavailable = true \/ ping_ok = false ->
  let s := run cfg cycles (AutoScaler_init docker_unavailable ping_ok now) in
  (forall read, get_service_replicas (docker_available s) read = 1)
  /\ (forall name target a, scale_service name target a s = (false, s))
  /\ update_log s = []
  /\ last_scaling_action (metrics_collector s) = ∅
  /\ scaling_decisions_counter s = ∅.
Proof.
  intros Hm s.
  assert (H0 : docker_available (AutoScaler_init docker_unavailable ping_ok now) = false).
  { cbn. destruct Hm as [-> | ->]; [reflexivity |].
    destruct (Py.truthy _); reflexivity. }
  pose proof (run_unavailable cfg cycles _ H0) as Hv. fold s in Hv.
  unfold actuation_view in Hv. rewrite H0 in Hv.
  injection Hv as Hd Hl Hs Hc.
  repeat split; try assumption.
  - intros read. unfold get_service_replicas. rewrite Hd. reflexivity.
  - intros name target a. apply scale_service_unavailable, Hd.
Qed.

Lemma monitoring_only_mode_witness :
  let s := run default_config [] (AutoScaler_init (Some "true") true 0) in
  (forall read, get_service_replicas (docker_available s) read = 1)
  /\ (forall name target a, scale_service name target a s = (false, s))
  /\ update_log s = []
  /\ last_scaling_action (metrics_collector s) = ∅
  /\ scaling_decisions_counter s = ∅.
Proof.
  apply (monitoring_only_mode default_config (Some "true") true 0 []).
  left. reflexivity.
Defined.

(** C6, as the claim words it, fails: in monitoring-only mode [scale_service]
    does not report success. *)
Lemma monitoring_only_scale_service_fails :
  let s := AutoScaler_init (Some "true") true 0 in
  docker_available s = false
  /\ fst (scale_service API_SERVICE_NAME 3
            {| sa_read := Returned 2; sa_delay := 0; sa_update_ok := true |} s) = false.
Proof. split; reflexivity. Qed.

(** ** The pipelines, case by case *)

Lemma actuate_cases name target a dt key s :
  let s' := actuate name target a dt key s in
  (s' = s /\ (docker_available s = false \/ sa_read a = Raised))
  \/ (s' = stamp dt key s
      /\ docker_available s = true /\ sa_read a = Returned target)
  \/ (exists current s2,
        scale_service name target a s = (sa_update_ok a, s2)
        /\ s' = (if sa_update_ok a then stamp dt key s2 else s2)
        /\ docker_available s = true
        /\ sa_read a = Returned current /\ current <> target
        /\ update_log s2 = request_of name target a s :: update_log s
        /\ clock s2 = clock s + sa_delay a
        /\ metrics_collector s2 = metrics_collector s
        /\ docker_available s2 = docker_available s).
Proof.
  unfold actuate.
  destruct (scale_service_cases name target a s)
    as [[E H] | [(E & H1 & H2) | (current & s2 & E & H)]]; rewrite E; cbv zeta.
  - left. auto.
  - right; left. auto.
  - right; right. exists current, s2. intuition.
Qed.

(** What [actuate] does to the log of updates: nothing, or one request for
    the target, sent because the replica count read back differs from it. *)
Lemma actuate_log name target a dt key s :
  let s' := actuate name target a dt key s in
  docker_available s' = docker_available s
  /\ (update_log s' = update_log s
      \/ update_log s' = request_of name target a s :: update_log s
         /\ docker_available s = true
         /\ exists current, sa_read a = Returned current /\ current <> target).
Proof.
  destruct (actuate_cases name target a dt key s)
    as [[E H] | [(E & H1 & H2) | (current & s2 & E1 & E & Hd & Hr & Hne & Hl & Hc & Hm & Hd2)]];
    cbv zeta; rewrite E.
  - auto.
  - auto.
  - destruct (sa_update_ok a); cbn; rewrite Hl, Hd2;
      (split; [reflexivity | right; eauto]).
Qed.

Lemma scale_api_instances_unfold cfg e s :
  scale_api_instances cfg e s =
  match collect_api_metrics (docker_available s) e with
  | None => s
  | Some metrics =>
      let current := get_service_replicas (docker_available s) (api_replicas_read e) in
      let s1 := at_gate cfg e metrics s in
      if negb (can_scale cfg (metrics_collector s1) (clock s1) "api") then s1
      else
        let target := make_scaling_decision cfg (metrics_collector s1) metrics current in
        if negb (target =? current)
        then actuate API_SERVICE_NAME target (api_scale e) (api_dt_stamp e) "api" s1
        else s1
  end.
Proof. unfold scale_api_instances, at_gate, actuate. reflexivity. Qed.

Lemma scale_api_instances_cases cfg e s :
  let current := get_service_replicas (docker_available s) (api_replicas_read e) in
  let s' := scale_api_instances cfg e s in
  (collect_api_metrics (docker_available s) e = None /\ s' = s)
  \/ exists metrics,
       collect_api_metrics (docker_available s) e = Some metrics
       /\ let s1 := at_gate cfg e metrics s in
          let target := make_scaling_decision cfg (metrics_collector s1) metrics current in
          (can_scale cfg (metrics_collector s1) (clock s1) "api" = false /\ s' = s1)
          \/ (can_scale cfg (metrics_collector s1) (clock s1) "api" = true
              /\ target = current /\ s' = s1)
          \/ (can_scale cfg (metrics_collector s1) (clock s1) "api" = true
              /\ target <> current
              /\ s' = actuate API_SERVICE_NAME target (api_scale e)
                        (api_dt_stamp e) "api" s1).
Proof.
  cbv zeta. rewrite scale_api_instances_unfold.
  destruct (collect_api_metrics (docker_available s) e) as [metrics|]; [| left; auto].
  right. exists metrics. split; [reflexivity |].
  cbv zeta. generalize (at_gate cfg e metrics s) as s1. intros s1.
  generalize (get_service_replicas (docker_available s) (api_replicas_read e)) as current.
  intros current.
  destruct (can_scale cfg (metrics_collector s1) (clock s1) "api");
    cbn [negb]; [| left; auto].
  right.
  destruct (Z.eqb_spec (make_scaling_decision cfg (metrics_collector s1) metrics current)
              current) as [Heq | Hne]; cbn [negb]; [left | right]; auto.
Qed.

Lemma scale_postgres_instances_cases cfg e s :
  let metrics := collect_postgres_metrics (docker_available s) (tier_api_replicas_read e) in
  let current := get_service_replicas (docker_available s) (tier_replicas_read e) in
  let s0 := gauge_set "postgres_replicas_current" (inject_Z current) s in
  let s1 := advance (tier_dt_gate e) s0 in
  let s' := scale_postgres_instances cfg e s in
  (s' = s0 /\ (Py.gtb (metrics_get metrics "connection_utilization") 80 = false
               \/ POSTGRES_MAX_REPLICAS <= current))
  \/ (s' = s1 /\ can_scale cfg (metrics_collector s1) (clock s1) "postgres" = false)
  \/ (can_scale cfg (metrics_collector s1) (clock s1) "postgres" = true
      /\ Py.gtb (metrics_get metrics "connection_utilization") 80 = true
      /\ current < POSTGRES_MAX_REPLICAS
      /\ s' = actuate POSTGRES_SERVICE_NAME (current + 1) (tier_scale e)
                (tier_dt_stamp e) "postgres" s1).
Proof.
  cbv zeta. unfold scale_postgres_instances. cbv zeta.
  destruct (Py.gtb _ 80); cbn [andb]; [| left; auto].
  destruct (Z.ltb_spec (get_service_replicas (docker_available s) (tier_replicas_read e))
              POSTGRES_MAX_REPLICAS); [| left; auto].
  right. destruct (can_scale cfg _ _ "postgres") eqn:Hg; [right | left]; auto.
Qed.

Lemma scale_redis_instances_cases cfg e s :
  let metrics := collect_redis_metrics (docker_available s) (tier_api_replicas_read e) in
  let current := get_service_replicas (docker_available s) (tier_replicas_read e) in
  let s0 := gauge_set "redis_replicas_current" (inject_Z current) s in
  let s1 := advance (tier_dt_gate e) s0 in
  let s' := scale_redis_instances cfg e s in
  (s' = s0 /\ (Py.gtb (metrics_get metrics "memory_usage") (inject_Z REDIS_SCALE_UP_MEMORY) = false
               \/ REDIS_MAX_REPLICAS <= current))
  \/ (s' = s1 /\ can_scale cfg (metrics_collector s1) (clock s1) "redis" = false)
  \/ (can_scale cfg (metrics_collector s1) (clock s1) "redis" = true
      /\ current < REDIS_MAX_REPLICAS
      /\ s' = actuate REDIS_SERVICE_NAME (current + 1) (tier_scale e)
                (tier_dt_stamp e) "redis" s1).
Proof.
  cbv zeta. unfold scale_redis_instances. cbv zeta.
  destruct (Py.gtb _ (inject_Z REDIS_SCALE_UP_MEMORY)); cbn [andb]; [| left; auto].
  destruct (Z.ltb_spec (get_service_replicas (docker_available s) (tier_replicas_read e))
              REDIS_MAX_REPLICAS); [| left; auto].
  right. destruct (can_scale cfg _ _ "redis") eqn:Hg; [right | left]; auto.
Qed.

Lemma at_gate_view cfg e metrics s :
  actuation_view (at_gate cfg e metrics s) = actuation_view s.
Proof. reflexivity. Qed.

Lemma at_gate_projections cfg e metrics s :
  docker_available (at_gate cfg e metrics s) = docker_available s
  /\ update_log (at_gate cfg e metrics s) = update_log s
  /\ last_scaling_action (metrics_collector (at_gate cfg e metrics s))
     = last_scaling_action (metrics_collector s)
  /\ scaling_decisions_counter (at_gate cfg e metrics s) = scaling_decisions_counter s
  /\ (forward_api e -> clock s <= clock (at_gate cfg e metrics s)).
Proof.
  repeat split. intros (H1 & H2 & H3 & H4 & _). unfold at_gate. cbn [clock advance].
  rewrite record_api_sample_clock. lia.
Qed.

(** What a run of [scale_api_instances] adds to the log of updates: nothing,
    or one request for the decision taken at the gate, which then differs
    from the replica count observed. *)
Lemma scale_api_instances_log cfg e s :
  let current := get_service_replicas (docker_available s) (api_replicas_read e) in
  let s' := scale_api_instances cfg e s in
  docker_available s' = docker_available s
  /\ (update_log s' = update_log s
      \/ exists metrics,
           collect_api_metrics (docker_available s) e = Some metrics
           /\ let s1 := at_gate cfg e metrics s in
              let target := make_scaling_decision cfg (metrics_collector s1) metrics current in
              can_scale cfg (metrics_collector s1) (clock s1) "api" = true
              /\ target <> current
              /\ docker_available s = true
              /\ update_log s'
                 = request_of API_SERVICE_NAME target (api_scale e) s1 :: update_log s).
Proof.
  cbv zeta.
  destruct (scale_api_instances_cases cfg e s) as [[Hn ->] | (metrics & Hm & H)]; [auto |].
  cbv zeta in H.
  destruct (at_gate_projections cfg e metrics s) as (Hd & Hl & _).
  destruct H as [[Hg ->] | [(Hg & Ht & ->) | (Hg & Ht & ->)]]; [auto | auto |].
  match goal with
  | |- context [actuate ?n ?t ?a ?dt ?k ?s1] =>
      destruct (actuate_log n t a dt k s1) as (Hd' & [Hl' | (Hl' & Ha & _)])
  end; cbv zeta in *; rewrite Hd', Hd.
  - split; [reflexivity | left; congruence].
  - split; [reflexivity |]. right. exists metrics. rewrite Hl', Hl.
    repeat split; try assumption; congruence.
Qed.

Lemma scale_postgres_instances_log cfg e s :
  let current := get_service_replicas (docker_available s) (tier_replicas_read e) in
  let s1 := advance (tier_dt_gate e)
              (gauge_set "postgres_replicas_current" (inject_Z current) s) in
  let s' := scale_postgres_instances cfg e s in
  docker_available s' = docker_available s
  /\ (update_log s' = update_log s
      \/ Py.gtb (metrics_get (collect_postgres_metrics (docker_available s)
                                (tier_api_replicas_read e)) "connection_utilization") 80 = true
         /\ current < POSTGRES_MAX_REPLICAS
         /\ can_scale cfg (metrics_collector s1) (clock s1) "postgres" = true
         /\ update_log s'
            = request_of POSTGRES_SERVICE_NAME (current + 1) (tier_scale e) s1 :: update_log s).
Proof.
  cbv zeta.
  destruct (scale_postgres_instances_cases cfg e s)
    as [[-> _] | [[-> _] | (Hg & Hu & Hc & ->)]]; [auto | auto |].
  match goal with
  | |- context [actuate ?n ?t ?a ?dt ?k ?s1] =>
      destruct (actuate_log n t a dt k s1) as (Hd' & [Hl' | (Hl' & _)])
  end; cbv zeta in *; rewrite Hd', Hl'; auto 6.
Qed.

Lemma scale_redis_instances_log cfg e s :
  let current := get_service_replicas (docker_available s) (tier_replicas_read e) in
  let s1 := advance (tier_dt_gate e)
              (gauge_set "redis_replicas_current" (inject_Z current) s) in
  let s' := scale_redis_instances cfg e s in
  docker_available s' = docker_available s
  /\ (update_log s' = update_log s
      \/ current < REDIS_MAX_REPLICAS
         /\ can_scale cfg (metrics_collector s1) (clock s1) "redis" = true
         /\ update_log s'
            = request_of REDIS_SERVICE_NAME (current + 1) (tier_scale e) s1 :: update_log s).
Proof.
  cbv zeta.
  destruct (scale_redis_instances_cases cfg e s)
    as [[-> _] | [[-> _] | (Hg & Hc & ->)]]; [auto | auto |].
  match goal with
  | |- context [actuate ?n ?t ?a ?dt ?k ?s1] =>
      destruct (actuate_log n t a dt k s1) as (Hd' & [Hl' | (Hl' & _)])
  end; cbv zeta in *; rewrite Hd', Hl'; auto 6.
Qed.

(** ** The database tier *)

Lemma postgres_utilization avail read :
  metrics_get (collect_postgres_metrics avail read) "connection_utilization"
  = Py.min (Binary64.mul
              (Binary64.div (inject_Z (get_service_replicas avail read * 50)) 1000) 100)
      100.
Proof.
  unfold metrics_get, collect_postgres_metrics. cbv zeta.
  rewrite lookup_insert_ne by discriminate. rewrite lookup_insert_eq. reflexivity.
Qed.

Lemma py_min_Qmin x y : (Py.min x y == Qmin x y)%Q.
Proof.
  unfold Py.min. destruct (Py.ltb y x) eqn:H.
  - apply ltb_lt in H. symmetry. apply Q.min_r. apply Qlt_le_weak, H.
  - apply ltb_ge in H. symmetry. apply Q.min_l, H.
Qed.

(** Before the cap, the utilization grows with the replica count: both
    roundings are monotone. *)
Lemma utilization_monotone a b :
  a <= b ->
  (Binary64.mul (Binary64.div (inject_Z (a * 50)) 1000) 100
   <= Binary64.mul (Binary64.div (inject_Z (b * 50)) 1000) 100)%Q.
Proof.
  intros H. unfold Binary64.mul, Binary64.div, Qdiv. apply rnd_le.
  apply Qmult_le_compat_r; [| discriminate]. apply rnd_le.
  apply Qmult_le_compat_r; [| discriminate].
  rewrite <- Zle_Qle. lia.
Qed.

(** Binary64 gives the utilization of the exact formula at every replica
    count but one. *)
Lemma postgres_utilization_value avail read :
  0 <= get_service_replicas avail read ->
  get_service_replicas avail read <> 11 ->
  (metrics_get (collect_postgres_metrics avail read) "connection_utilization"
   == Qmin (inject_Z (get_service_replicas avail read * 5)) 100)%Q.
Proof.
  rewrite postgres_utilization. generalize (get_service_replicas avail read) as n.
  intros n H0 H11. destruct (Z.le_gt_cases 20 n) as [H20 | H20].
  - assert (Hcap : (100 <= Binary64.mul (Binary64.div (inject_Z (n * 50)) 1000) 100)%Q).
    { eapply Qle_trans; [| apply (utilization_monotone 20 n H20)].
      vm_compute. discriminate. }
    rewrite py_min_Qmin, (Q.min_r _ _ Hcap). symmetry. apply Q.min_r.
    rewrite <- (Zle_Qle 100). lia.
  - assert (Hall : forallb
                     (fun k =>
                        (k =? 11)
                        || Qeq_bool
                             (Py.min (Binary64.mul
                                        (Binary64.div (inject_Z (k * 50)) 1000) 100) 100)
                             (Qmin (inject_Z (k * 5)) 100))
                     (map Z.of_nat (seq 0 20)) = true) by (vm_compute; reflexivity).
    rewrite forallb_forall in Hall.
    assert (Hin : In n (map Z.of_nat (seq 0 20))).
    { apply in_map_iff. exists (Z.to_nat n). split; [lia | apply in_seq; lia]. }
    apply Hall in Hin. apply orb_true_iff in Hin as [H | H].
    + apply Z.eqb_eq in H. contradiction.
    + apply Qeq_bool_iff, H.
Qed.

Lemma postgres_utilization_low avail read :
  get_service_replicas avail read <= 16 ->
  Py.gtb (metrics_get (collect_postgres_metrics avail read) "connection_utilization") 80
  = false.
Proof.
  intros H. apply gtb_le. rewrite postgres_utilization, py_min_Qmin.
  eapply Qle_trans; [apply Q.le_min_l |].
  eapply Qle_trans; [apply (utilization_monotone _ 16 H) |].
  vm_compute. discriminate.
Qed.

Lemma postgres_step_quiet cfg e s :
  get_service_replicas (docker_available s) (tier_api_replicas_read e) <= 16 ->
  scale_postgres_instances cfg e s
  = gauge_set "postgres_replicas_current"
      (inject_Z (get_service_replicas (docker_available s) (tier_replicas_read e))) s.
Proof.
  intros H. unfold scale_postgres_instances. cbv zeta.
  rewrite postgres_utilization_low by exact H. reflexivity.
Qed.

Lemma postgres_cycle_quiet cfg c s :
  get_service_replicas (docker_available s) (tier_api_replicas_read (cycle_postgres c)) <= 16 ->
  docker_available (run_monitoring_cycle cfg c s) = docker_available s
  /\ forall r, r ∈ update_log (run_monitoring_cycle cfg c s) ->
       ur_service r = POSTGRES_SERVICE_NAME -> r ∈ update_log s.
Proof.
  intros H. unfold run_monitoring_cycle.
  destruct (scale_api_instances_log cfg (cycle_api c) s) as (Hda & Hla).
  cbv zeta in Hda, Hla.
  set (sa := scale_api_instances cfg (cycle_api c) s) in *.
  rewrite <- Hda in H.
  rewrite (postgres_step_quiet cfg (cycle_postgres c) sa H).
  match goal with |- context [scale_redis_instances cfg ?e ?s0] =>
    destruct (scale_redis_instances_log cfg e s0) as (Hdr & Hlr);
    set (sr := scale_redis_instances cfg e s0) in * end.
  cbv zeta in Hdr, Hlr. split; [rewrite Hdr; exact Hda |].
  intros r Hin Hs.
  assert (Hin' : r ∈ update_log sa).
  { destruct Hlr as [Hlr | (_ & _ & Hlr)]; rewrite Hlr in Hin; [exact Hin |].
    apply elem_of_cons in Hin as [-> | Hin]; [discriminate Hs | exact Hin]. }
  destruct Hla as [Hla | (metrics & _ & _ & _ & _ & Hla)]; rewrite Hla in Hin';
    [exact Hin' |].
  apply elem_of_cons in Hin' as [-> | Hin']; [discriminate Hs | exact Hin'].
Qed.

(** C9, as the code has it: the utilization [collect_postgres_metrics]
    synthesizes is [min(api_replicas * 5, 100)] at every replica count but
    11, where the binary64 value of [11 * 50 / 1000 * 100] is
    [55 + 2^-47], printed as 55.00000000000001.  With at most 16 application
    replicas it does not exceed 80, [scale_postgres_instances] only
    publishes its gauge, and over any number of monitoring cycles in which
    the application tier is seen with at most 16 replicas no update of the
    database service is sent. *)
Theorem database_tier_never_scaled_up (cfg : AutoscalerConfig) :
  (forall avail read,
     0 <= get_service_replicas avail read ->
     get_service_replicas avail read <> 11 ->
     (metrics_get (collect_postgres_metrics avail read) "connection_utilization"
      == Qmin (inject_Z (get_service_replicas avail read * 5)) 100)%Q)
  /\ (forall avail read,
        get_service_replicas avail read = 11 ->
        (metrics_get (collect_postgres_metrics avail read) "connection_utilization"
         == 55 + (1 # 140737488355328))%Q)
  /\ (forall e s,
        get_service_replicas (docker_available s) (tier_api_replicas_read e) <= 16 ->
        (metrics_get (collect_postgres_metrics (docker_available s)
                        (tier_api_replicas_read e)) "connection_utilization" <= 80)%Q
        /\ scale_postgres_instances cfg e s
           = gauge_set "postgres_replicas_current"
               (inject_Z (get_service_replicas (docker_available s) (tier_replicas_read e))) s
        /\ update_log (scale_postgres_instances cfg e s) = update_log s)
  /\ (forall cycles s,
        Forall (fun c => get_service_replicas (docker_available s)
                           (tier_api_replicas_read (cycle_postgres c)) <= 16) cycles ->
        forall r, r ∈ update_log (run cfg cycles s) ->
          ur_service r = POSTGRES_SERVICE_NAME -> r ∈ update_log s).
Proof.
  split; [exact postgres_utilization_value |]. split; [| split].
  - intros avail read H. rewrite postgres_utilization, H. vm_compute. reflexivity.
  - intros e s H. split; [apply gtb_le, postgres_utilization_low, H |].
    rewrite postgres_step_quiet by exact H. split; reflexivity.
  - intros cycles. unfold run.
    induction cycles as [| c cycles IH]; intros s Hall r Hin Hs; [exact Hin |].
    cbn [fold_left] in Hin. inversion Hall as [| c' cs Hc Hcs]; subst.
    destruct (postgres_cycle_quiet cfg c s Hc) as (Hd & Hstep).
    apply Hstep; [| exact Hs]. apply IH; [| exact Hin | exact Hs].
    rewrite Hd. exact Hcs.
Qed.

Lemma database_tier_never_scaled_up_witness :
  let e := {| tier_api_replicas_read := Returned 10;
              tier_replicas_read := Returned 1;
              tier_dt_gate := 0;
              tier_scale := {| sa_read := Returned 1; sa_delay := 0; sa_update_ok := true |};
              tier_dt_stamp := 0 |} in
  let s := AutoScaler_init None true 0 in
  update_log (scale_postgres_instances default_config e s) = update_log s.
Proof.
  intros e s.
  destruct (database_tier_never_scaled_up default_config) as (_ & _ & H & _).
  apply (H e s). vm_compute. discriminate.
Defined.

(** C9, as the claim words it, fails: at 11 application replicas the
    utilization the code computes is not [min(11 * 5, 100) = 55]. *)
Lemma utilization_at_eleven_replicas :
  let utilization :=
    metrics_get (collect_postgres_metrics true (Returned 11)) "connection_utilization" in
  Qmin (inject_Z (11 * 5)) 100 = 55%Q
  /\ ~ (utilization == Qmin (inject_Z (11 * 5)) 100)%Q
  /\ (utilization - 55 == 1 # 140737488355328)%Q.
Proof.
  vm_compute. repeat split. discriminate.
Qed.

(** ** The application tier *)

(** C10: when the replica count [scale_service] reads back is the target
    already, it reports success and leaves the state as it is: no update is
    sent and the scaling counter is not incremented.  [scale_api_instances]
    then records a scaling action all the same: with the gate open and a
    decision that differs from the replica count read first, the log of
    updates and the counter are unchanged while the cooldown clock of the
    application tier is stamped with the current instant. *)
Theorem cooldown_stamped_without_change (cfg : AutoscalerConfig) :
  (forall name target a s,
     docker_available s = true -> sa_read a = Returned target ->
     scale_service name target a s = (true, s))
  /\ (forall e s metrics,
        docker_available s = true ->
        collect_api_metrics (docker_available s) e = Some metrics ->
        let current := get_service_replicas (docker_available s) (api_replicas_read e) in
        let s1 := at_gate cfg e metrics s in
        let target := make_scaling_decision cfg (metrics_collector s1) metrics current in
        can_scale cfg (metrics_collector s1) (clock s1) "api" = true ->
        target <> current ->
        sa_read (api_scale e) = Returned target ->
        let s' := scale_api_instances cfg e s in
        update_log s' = update_log s
        /\ scaling_decisions_counter s' = scaling_decisions_counter s
        /\ last_scaling_action (metrics_collector s') !! "api" = Some (clock s')
        /\ clock s' = clock s1 + api_dt_stamp e).
Proof.
  split.
  - intros name target a s Hd Hr. unfold scale_service.
    rewrite Hd, Hr, Z.eqb_refl. reflexivity.
  - intros e s metrics Hd Hm current s1 target Hg Hne Hr s'.
    destruct (at_gate_projections cfg e metrics s) as (Hd1 & Hl1 & _ & Hc1 & _).
    fold s1 in Hd1, Hl1, Hc1.
    assert (E : s' = stamp (api_dt_stamp e) "api" s1).
    { subst s'. rewrite scale_api_instances_unfold, Hm. cbv zeta.
      fold current s1. rewrite Hg. cbn [negb]. fold target.
      destruct (Z.eqb_spec target current) as [Heq | _]; [contradiction |].
      cbn [negb]. unfold actuate, scale_service.
      rewrite Hd1, Hd, Hr, Z.eqb_refl. reflexivity. }
    rewrite E. cbn [stamp advance set_metrics_collector update_log
                    scaling_decisions_counter clock metrics_collector
                    record_scaling_action last_scaling_action].
    rewrite lookup_insert_eq. auto.
Qed.

Lemma cooldown_stamped_without_change_witness :
  let e := plain_run (HealthResponse 200 (Returned true) 1500) 3 4 in
  let s := AutoScaler_init None true 0 in
  let s' := scale_api_instances default_config e s in
  update_log s' = update_log s
  /\ scaling_decisions_counter s' = scaling_decisions_counter s
  /\ last_scaling_action (metrics_collector s') !! "api" = Some (clock s')
  /\ clock s' = clock (at_gate default_config e
                         (<["healthy" := 1%Q]> (<["response_time" := 1500%Q]>
                          (<["memory_usage" := 0%Q]> (<["cpu_usage" := 0%Q]>
                          (<["error_rate" := 0%Q]> ∅))))) s)
                + api_dt_stamp e.
Proof.
  intros e s.
  destruct (cooldown_stamped_without_change default_config) as (_ & H).
  apply (H e s); try reflexivity. vm_compute. discriminate.
Defined.

Lemma zero_filled_readings :
  metrics_get zero_filled "cpu_usage" = 0%Q
  /\ metrics_get zero_filled "memory_usage" = 0%Q
  /\ metrics_get zero_filled "response_time" = 0%Q.
Proof. repeat split. Qed.

Lemma gtb_zero_threshold t : 0 <= t -> Py.gtb 0 (inject_Z t) = false.
Proof. intros H. apply gtb_le. unfold Qle. cbn. lia. Qed.

Lemma ltb_zero_threshold t : 0 < t -> Py.ltb 0 (inject_Z t) = true.
Proof. intros H. apply ltb_lt. unfold Qlt. cbn. lia. Qed.

(** On the zero-filled sample the linear algorithm asks for one replica less
    whenever the count is above the minimum. *)
Lemma linear_on_zero_filled cfg current :
  positive_thresholds cfg ->
  _linear_scaling_decision cfg zero_filled current
  = if current >? MIN_REPLICAS cfg then current - 1 else current.
Proof.
  intros (H1 & H2 & H3 & H4 & H5 & H6). unfold _linear_scaling_decision.
  destruct zero_filled_readings as (-> & -> & ->). cbv zeta.
  rewrite !gtb_zero_threshold, !ltb_zero_threshold by assumption.
  reflexivity.
Qed.

Lemma collect_api_metrics_raised avail e :
  api_health e = HealthRaised -> collect_api_metrics avail e = Some zero_filled.
Proof. intros H. unfold collect_api_metrics. rewrite H. reflexivity. Qed.

Lemma collect_api_metrics_not_ok avail e code h ms :
  api_health e = HealthResponse code h ms -> code <> 200 ->
  collect_api_metrics avail e = None.
Proof.
  intros H Hc. unfold collect_api_metrics. rewrite H.
  destruct (Z.eqb_spec code 200); [contradiction | reflexivity].
Qed.

(** What the application pipeline does when the health check fails, whatever
    the state.  An endpoint that answers with a status other than 200 stops
    the pipeline before anything is stored or sent.  A request that raises
    does not: the collector returns the zero-filled sample and the pipeline
    decides on it as on any other.  Under the linear algorithm, with
    thresholds of the usual signs, no update is sent when the replica count
    is at most [MIN_REPLICAS]; when it is above, the gate is open and Docker
    answers with a count other than [current - 1], the update to
    [current - 1] is sent. *)
Lemma zero_filled_sample_is_decided_on
    (cfg : AutoscalerConfig) (e : api_run) (s : state) :
  let current := get_service_replicas (docker_available s) (api_replicas_read e) in
  let s' := scale_api_instances cfg e s in
  (forall code h ms,
     api_health e = HealthResponse code h ms -> code <> 200 -> s' = s)
  /\ (api_health e = HealthRaised ->
      collect_api_metrics (docker_available s) e = Some zero_filled
      /\ let s1 := at_gate cfg e zero_filled s in
         (SCALING_ALGORITHM cfg = "linear" -> positive_thresholds cfg ->
          (current <= MIN_REPLICAS cfg -> update_log s' = update_log s)
          /\ (MIN_REPLICAS cfg < current ->
              can_scale cfg (metrics_collector s1) (clock s1) "api" = true ->
              docker_available s = true ->
              forall read_back,
                sa_read (api_scale e) = Returned read_back ->
                read_back <> current - 1 ->
                update_log s'
                = request_of API_SERVICE_NAME (current - 1) (api_scale e) s1
                  :: update_log s))).
Proof.
  intros current s'. split.
  - intros code h ms Hh Hc. subst s'. rewrite scale_api_instances_unfold.
    rewrite (collect_api_metrics_not_ok _ e code h ms Hh Hc). reflexivity.
  - intros Hh.
    pose proof (collect_api_metrics_raised (docker_available s) e Hh) as Hm.
    split; [exact Hm |]. intros s1 Halg Hpos.
    assert (Hdec : make_scaling_decision cfg (metrics_collector s1) zero_filled current
                   = if current >? MIN_REPLICAS cfg then current - 1 else current).
    { unfold make_scaling_decision. rewrite Halg. cbn [String.eqb Ascii.eqb Bool.eqb].
      apply linear_on_zero_filled, Hpos. }
    destruct (at_gate_projections cfg e zero_filled s) as (Hd1 & Hl1 & _).
    fold s1 in Hd1, Hl1.
    split.
    + intros Hle. subst s'. rewrite scale_api_instances_unfold, Hm. cbv zeta.
      fold current s1. rewrite Hdec.
      destruct (Z.gtb_spec current (MIN_REPLICAS cfg)); [lia |].
      rewrite Z.eqb_refl. cbn [negb].
      destruct (negb (can_scale _ _ _ _)); exact Hl1.
    + intros Hlt Hg Hd read_back Hr Hne. subst s'.
      rewrite scale_api_instances_unfold, Hm. cbv zeta.
      fold current s1. rewrite Hg, Hdec. cbn [negb].
      destruct (Z.gtb_spec current (MIN_REPLICAS cfg)); [| lia].
      destruct (Z.eqb_spec (current - 1) current) as [Heq | _]; [lia |].
      cbn [negb]. unfold actuate, scale_service. rewrite Hd1, Hd, Hr. cbn [negb].
      destruct (Z.eqb_spec read_back (current - 1)) as [Heq | _]; [contradiction |].
      unfold request_of.
      destruct (sa_update_ok (api_scale e)); reflexivity.
Qed.

(** C2, at the input where the code departs from it.  The health request
    raises while the application tier runs three replicas.  The collector
    catches the exception and returns its zero-filled sample, which carries
    [healthy = False]; the pipeline never looks at that flag, stores the
    sample and decides on it: all readings are below the scale-down
    thresholds, and the update that takes the tier down to two replicas is
    sent.  Under the exponential algorithm ten replicas are taken down to
    seven.  On the sibling path, an endpoint that answers with a status
    other than 200, the same pipeline stores nothing and sends nothing. *)
Theorem failed_collection_scales_down :
  let s := AutoScaler_init None true 0 in
  let raised := plain_run HealthRaised 3 3 in
  let refused := plain_run (HealthResponse 503 (Returned false) 1500) 3 3 in
  collect_api_metrics (docker_available s) raised = Some zero_filled
  /\ metrics_get zero_filled "healthy" = 0%Q
  /\ update_log s = []
  /\ update_log (scale_api_instances default_config raised s)
     = [ {| ur_service := API_SERVICE_NAME; ur_replicas := 2;
            ur_time := 54000; ur_accepted := true |} ]
  /\ update_log (scale_api_instances (with_algorithm "exponential" default_config)
                   (plain_run HealthRaised 10 10) s)
     = [ {| ur_service := API_SERVICE_NAME; ur_replicas := 7;
            ur_time := 54000; ur_accepted := true |} ]
  /\ scale_api_instances default_config refused s = s.
Proof. vm_compute. repeat split. Qed.

(** C1, as the code has it: whatever the algorithm tag, the sample and the
    history, [make_scaling_decision] applied to a replica count within
    [[MIN_REPLICAS, MAX_REPLICAS]] returns a count within the same bounds; and
    when the application pipeline observes a replica count within the bounds,
    it sends at most one update, for the application service, with a target
    that differs from the observed count and lies within the bounds.  The
    database and cache pipelines send at most one update each, for the
    observed count plus one, which does not exceed the tier's maximum. *)
Theorem decisions_and_actuations_within_bounds (cfg : AutoscalerConfig) :
  (forall mc metrics current,
     MIN_REPLICAS cfg <= current <= MAX_REPLICAS cfg ->
     MIN_REPLICAS cfg <= make_scaling_decision cfg mc metrics current <= MAX_REPLICAS cfg)
  /\ (forall e s,
        let current := get_service_replicas (docker_available s) (api_replicas_read e) in
        let s' := scale_api_instances cfg e s in
        MIN_REPLICAS cfg <= current <= MAX_REPLICAS cfg ->
        update_log s' = update_log s
        \/ exists r, update_log s' = r :: update_log s
             /\ ur_service r = API_SERVICE_NAME
             /\ ur_replicas r <> current
             /\ MIN_REPLICAS cfg <= ur_replicas r <= MAX_REPLICAS cfg)
  /\ (forall e s,
        let current := get_service_replicas (docker_available s) (tier_replicas_read e) in
        let s' := scale_postgres_instances cfg e s in
        update_log s' = update_log s
        \/ exists r, update_log s' = r :: update_log s
             /\ ur_service r = POSTGRES_SERVICE_NAME
             /\ ur_replicas r = current + 1
             /\ ur_replicas r <= POSTGRES_MAX_REPLICAS)
  /\ (forall e s,
        let current := get_service_replicas (docker_available s) (tier_replicas_read e) in
        let s' := scale_redis_instances cfg e s in
        update_log s' = update_log s
        \/ exists r, update_log s' = r :: update_log s
             /\ ur_service r = REDIS_SERVICE_NAME
             /\ ur_replicas r = current + 1
             /\ ur_replicas r <= REDIS_MAX_REPLICAS).
Proof.
  split; [apply decision_within_bounds |]. split; [| split].
  - intros e s current s' Hc.
    destruct (scale_api_instances_log cfg e s) as (_ & [Hl | (metrics & _ & H)]);
      [left; exact Hl |].
    cbv zeta in H. destruct H as (_ & Hne & _ & Hl).
    right. eexists. split; [exact Hl |]. cbn [request_of ur_service ur_replicas].
    split; [reflexivity |]. split; [exact Hne |].
    apply decision_within_bounds, Hc.
  - intros e s current s'.
    destruct (scale_postgres_instances_log cfg e s) as (_ & [Hl | (_ & Hc & _ & Hl)]);
      [left; exact Hl |].
    right. eexists. split; [exact Hl |]. cbn [request_of ur_service ur_replicas].
    fold current in Hc |- *. repeat split. lia.
  - intros e s current s'.
    destruct (scale_redis_instances_log cfg e s) as (_ & [Hl | (Hc & _ & Hl)]);
      [left; exact Hl |].
    right. eexists. split; [exact Hl |]. cbn [request_of ur_service ur_replicas].
    fold current in Hc |- *. repeat split. lia.
Qed.

Lemma decisions_and_actuations_within_bounds_witness :
  let e := plain_run (HealthResponse 200 (Returned true) 1500) 3 3 in
  let s := AutoScaler_init None true 0 in
  MIN_REPLICAS default_config
  <= make_scaling_decision default_config empty_collector (reading 85 50 300) 3
  <= MAX_REPLICAS default_config
  /\ (update_log (scale_api_instances default_config e s) = update_log s
      \/ exists r,
           update_log (scale_api_instances default_config e s) = r :: update_log s
           /\ ur_service r = API_SERVICE_NAME
           /\ ur_replicas r <> 3
           /\ MIN_REPLICAS default_config <= ur_replicas r <= MAX_REPLICAS default_config).
Proof.
  intros e s.
  destruct (decisions_and_actuations_within_bounds default_config) as (H & Ha & _).
  split.
  - apply (H empty_collector (reading 85 50 300) 3). cbn. lia.
  - apply (Ha e s). cbn. lia.
Defined.

(** C1, as the claim words it, fails.  With one replica, the count the
    controller assumes in monitoring-only mode, and an idle sample the linear
    algorithm returns 1, below [MIN_REPLICAS = 2].  With twelve replicas
    running and an idle sample it asks for eleven, above [MAX_REPLICAS = 10],
    and the pipeline sends that update. *)
Lemma linear_decision_leaves_bounds :
  make_scaling_decision default_config empty_collector (reading 0 0 0) 1 = 1
  /\ 1 < MIN_REPLICAS default_config
  /\ update_log (scale_api_instances default_config
                   (plain_run (HealthResponse 200 (Returned true) 50) 12 12)
                   (AutoScaler_init None true 0))
     = [ {| ur_service := API_SERVICE_NAME; ur_replicas := 11;
            ur_time := 54000; ur_accepted := true |} ]
  /\ MAX_REPLICAS default_config < 11.
Proof. vm_compute. repeat split. Qed.

(** ** The cooldown between actuations *)

Section Cooldown.

Variable cfg : AutoscalerConfig.













End Cooldown.




(** ** The trend of a ring *)

Lemma window_of_ring (ring : list sample) :
  map value (Py.last_n 5 ring) = Reference.window (map value ring).
Proof.
  unfold Py.last_n, Reference.window, Reference.last_samples.
  rewrite <- skipn_map, length_map. f_equal. lia.
Qed.

Lemma window_length (S : list Q) :
  length (Reference.window S) = Nat.min 5 (length S).
Proof.
  unfold Reference.window, Reference.last_samples. rewrite length_skipn. lia.
Qed.

Lemma nth_0_hd (W : list Q) : nth 0 W 0%Q = hd 0%Q W.
Proof. destruct W; reflexivity. Qed.

(** The numbers the code compares are those of the reference, read in
    binary64. *)
Lemma code_recent (W : list Q) :
  Py.mean (Py.last_n 3 W)
  = Reference.mean Reference.binary64 (Reference.last_samples 3 W).
Proof. reflexivity. Qed.

Lemma code_older (W : list Q) :
  (if (3 <? length W)%nat then Py.mean (Py.but_last_n 3 W) else nth 0 W 0%Q)
  = (if (3 <? length W)%nat
     then Reference.mean Reference.binary64 (firstn (length W - 3)%nat W)
     else hd 0%Q W).
Proof. rewrite nth_0_hd. reflexivity. Qed.

Lemma code_bounds (S : list Q) :
  (Binary64.mul (Reference.older Reference.binary64 S) (Binary64.rnd (11 # 10))
   == Reference.upper Reference.binary64 S)%Q
  /\ (Binary64.mul (Reference.older Reference.binary64 S) (Binary64.rnd (9 # 10))
      == Reference.lower Reference.binary64 S)%Q.
Proof.
  unfold Reference.upper, Reference.lower, Reference.binary64, Binary64.mul.
  split; apply rnd_comp, Qmult_comm.
Qed.

Lemma trend_of_ring_reference (ring : list sample) :
  trend_of_ring ring = Reference.trend Reference.binary64 (map value ring).
Proof.
  unfold trend_of_ring, Reference.trend. cbv zeta. rewrite window_of_ring.
  rewrite (length_map value ring).
  destruct (length ring <? 3)%nat; [reflexivity |].
  destruct (length (Reference.window (map value ring)) <? 3)%nat; [reflexivity |].
  rewrite code_recent, code_older.
  fold (Reference.older Reference.binary64 (map value ring))
       (Reference.recent Reference.binary64 (map value ring)).
  destruct (code_bounds (map value ring)) as (U & L).
  set (older := Reference.older _ _) in *. set (recent := Reference.recent _ _).
  destruct (Qlt_le_dec (Reference.upper Reference.binary64 (map value ring)) recent)
    as [Hi | Hi].
  - rewrite <- U in Hi. apply gtb_gt in Hi. rewrite Hi. reflexivity.
  - rewrite <- U in Hi. apply gtb_le in Hi. rewrite Hi.
    destruct (Qlt_le_dec recent (Reference.lower Reference.binary64 (map value ring)))
      as [Hd | Hd].
    + rewrite <- L in Hd. apply ltb_lt in Hd. rewrite Hd. reflexivity.
    + rewrite <- L in Hd. apply ltb_ge in Hd. rewrite Hd. reflexivity.
Qed.

Lemma sum_nonneg (l : list Q) :
  Forall (fun v => 0 <= v)%Q l -> (0 <= fold_right Qplus 0 l)%Q.
Proof.
  induction 1 as [| v l Hv Hl IH]; cbn [fold_right].
  - apply Qle_refl.
  - exact (Qplus_le_compat 0 v 0 _ Hv IH).
Qed.

Lemma mean_nonneg (l : list Q) :
  Forall (fun v => 0 <= v)%Q l -> (0 <= Reference.mean Reference.binary64 l)%Q.
Proof.
  intros H. unfold Reference.mean, Reference.binary64, Qdiv. apply rnd_nonneg.
  apply Qmult_le_0_compat; [apply sum_nonneg, H |].
  apply Qinv_le_0_compat. unfold Qle. cbn. lia.
Qed.

Lemma older_nonneg (S : list Q) :
  Forall (fun v => 0 <= v)%Q S -> (0 <= Reference.older Reference.binary64 S)%Q.
Proof.
  intros H.
  assert (HW : Forall (fun v => 0 <= v)%Q (Reference.window S))
    by (apply Forall_drop, H).
  unfold Reference.older. cbv zeta. destruct (3 <? _)%nat.
  - apply mean_nonneg, Forall_take, HW.
  - destruct HW; [apply Qle_refl | assumption].
Qed.

(** With samples that are not negative the lower mark is not above the upper. *)
Lemma band_nonneg (S : list Q) :
  Forall (fun v => 0 <= v)%Q S ->
  (Reference.lower Reference.binary64 S <= Reference.upper Reference.binary64 S)%Q.
Proof.
  intros H. unfold Reference.lower, Reference.upper, Reference.binary64.
  apply rnd_le. apply Qmult_le_compat_r; [| apply older_nonneg, H].
  vm_compute. discriminate.
Qed.

(** C8, as the code has it: [get_trend] is the reference trend algorithm on
    the values of the ring, carried out in binary64: [recent] and [older] are
    correctly rounded means, and the two marks are the rounded products of
    [older] by the binary64 numbers nearest to 1.1 and 0.9.  With fewer than
    three samples it answers [stable].  With three or more it answers
    [increasing] exactly when [recent] is above the upper mark, [decreasing]
    exactly when it is not and [recent] is below the lower mark, and [stable]
    exactly when [recent] lies between the marks, the marks included.  When
    no sample is negative the lower mark is not above the upper one: then
    [decreasing] is answered exactly when [recent] is below the lower mark,
    and a [recent] that equals a mark gives [stable]. *)
Theorem get_trend_is_reference_trend
    (mc : MetricsCollector) (service metric_type : string) :
  let S := map value (default [] (metrics_history mc !! history_key service metric_type)) in
  let recent := Reference.recent Reference.binary64 S in
  let upper := Reference.upper Reference.binary64 S in
  let lower := Reference.lower Reference.binary64 S in
  get_trend mc service metric_type = Reference.trend Reference.binary64 S
  /\ ((length S < 3)%nat -> get_trend mc service metric_type = stable)
  /\ ((3 <= length S)%nat ->
      (get_trend mc service metric_type = increasing <-> (upper < recent)%Q)
      /\ (get_trend mc service metric_type = decreasing <->
          (recent <= upper)%Q /\ (recent < lower)%Q)
      /\ (get_trend mc service metric_type = stable <->
          (lower <= recent)%Q /\ (recent <= upper)%Q)
      /\ (Forall (fun v => 0 <= v)%Q S ->
          (lower <= upper)%Q
          /\ (get_trend mc service metric_type = decreasing <-> (recent < lower)%Q)
          /\ ((recent == upper)%Q -> get_trend mc service metric_type = stable)
          /\ ((recent == lower)%Q -> get_trend mc service metric_type = stable))).
Proof.
  intros S recent upper lower.
  assert (E : get_trend mc service metric_type = Reference.trend Reference.binary64 S)
    by apply trend_of_ring_reference.
  rewrite E. split; [reflexivity |]. split.
  - intros Hn. unfold Reference.trend.
    destruct (Nat.ltb_spec (length S) 3); [reflexivity | lia].
  - intros Hn.
    assert (T : Reference.trend Reference.binary64 S
                = if Qlt_le_dec upper recent then increasing
                  else if Qlt_le_dec recent lower then decreasing
                  else stable).
    { unfold Reference.trend. rewrite window_length.
      destruct (Nat.ltb_spec (length S) 3); [lia |].
      destruct (Nat.ltb_spec (Nat.min 5 (length S)) 3); [lia | reflexivity]. }
    rewrite T.
    destruct (Qlt_le_dec upper recent) as [Hi | Hi];
      [| destruct (Qlt_le_dec recent lower) as [Hd | Hd]].
    + split; [tauto |]. split; [split; [discriminate | intros [H _]; lra] |].
      split; [split; [discriminate | intros [_ H]; lra] |].
      intros Hpos. pose proof (band_nonneg S Hpos) as Hband. fold upper lower in Hband.
      split; [exact Hband |]. split; [split; [discriminate | intros H; lra] |].
      split; intros H; lra.
    + split; [split; [discriminate | intros H; lra] |].
      split; [tauto |].
      split; [split; [discriminate | intros [H _]; lra] |].
      intros Hpos. pose proof (band_nonneg S Hpos) as Hband. fold upper lower in Hband.
      split; [exact Hband |]. split; [tauto |].
      split; intros H; lra.
    + split; [split; [discriminate | intros H; lra] |].
      split; [split; [discriminate | intros [_ H]; lra] |].
      split; [tauto |].
      intros Hpos. pose proof (band_nonneg S Hpos) as Hband. fold upper lower in Hband.
      split; [exact Hband |]. split; [split; [discriminate | intros H; lra] |].
      split; reflexivity.
Qed.

Lemma get_trend_is_reference_trend_witness :
  get_trend (collector_with [50; 55; 62; 68; 72]%Q) "api" "cpu_usage" = increasing.
Proof.
  destruct (get_trend_is_reference_trend
              (collector_with [50; 55; 62; 68; 72]%Q) "api" "cpu_usage")
    as (_ & _ & H).
  destruct H as (Hinc & _).
  - vm_compute. lia.
  - apply Hinc. vm_compute. reflexivity.
Defined.

(** C8, as the claim words it, fails, in two ways.  The ring holds 50 and
    three times the float [50 * 1.1]: [recent] is that float,
    55.00000000000001, which is more than [1.1] times the [older] 50, and
    the code answers [stable], since [older * 1.1] is the same float.  And
    on the ring -10, -10.5, -10.5, -10.5 [recent] is below [0.9 * older],
    -9, but also above [1.1 * older], -11, and the code, which tests that
    first, answers [increasing]. *)
Lemma trend_departs_from_the_exact_reference :
  let x := Binary64.mul 50 (Binary64.rnd (11 # 10)) in
  let S := [50; x; x; x]%Q in
  let S' := [-(10); -(21 # 2); -(21 # 2); -(21 # 2)]%Q in
  (x - 55 == 1 # 140737488355328)%Q
  /\ ((11 # 10) * Reference.older Reference.exact S < Reference.recent Reference.exact S)%Q
  /\ Reference.trend Reference.exact S = increasing
  /\ get_trend (collector_with S) "api" "cpu_usage" = stable
  /\ (Reference.recent Reference.exact S' < (9 # 10) * Reference.older Reference.exact S')%Q
  /\ (Reference.recent Reference.binary64 S' < Reference.lower Reference.binary64 S')%Q
  /\ get_trend (collector_with S') "api" "cpu_usage" = increasing.
Proof.
  vm_compute. repeat split.
Qed.

(** * Further properties of the code *)

(** ** The linear algorithm *)

Lemma linear_conditions cfg metrics current :
  exists up down : bool,
    (up = true <-> overloaded cfg metrics)
    /\ (down = true <-> idle cfg metrics)
    /\ _linear_scaling_decision cfg metrics current
       = if up && (current <? MAX_REPLICAS cfg) then current + 1
         else if down && (current >? MIN_REPLICAS cfg) then current - 1
         else current.
Proof.
  eexists _, _. split; [| split; [| reflexivity]].
  - unfold overloaded. rewrite !orb_true_iff, !gtb_gt. tauto.
  - unfold idle. rewrite !andb_true_iff, !ltb_lt. tauto.
Qed.

Lemma overloaded_not_idle cfg metrics :
  ordered_thresholds cfg -> overloaded cfg metrics -> idle cfg metrics -> False.
Proof.
  intros (Hc & Hm & Hr) Hup (Dc & Dm & Dr).
  rewrite Zle_Qle in Hc, Hm, Hr.
  destruct Hup as [U | [U | U]].
  - apply (Qlt_irrefl (metrics_get metrics "cpu_usage")).
    eapply Qlt_trans; [exact Dc |]. eapply Qle_lt_trans; [exact Hc | exact U].
  - apply (Qlt_irrefl (metrics_get metrics "memory_usage")).
    eapply Qlt_trans; [exact Dm |]. eapply Qle_lt_trans; [exact Hm | exact U].
  - apply (Qlt_irrefl (metrics_get metrics "response_time")).
    eapply Qlt_trans; [exact Dr |]. eapply Qle_lt_trans; [exact Hr | exact U].
Qed.

Lemma linear_when_overloaded cfg metrics current :
  ordered_thresholds cfg -> overloaded cfg metrics ->
  _linear_scaling_decision cfg metrics current
  = if current <? MAX_REPLICAS cfg then current + 1 else current.
Proof.
  intros Ho Hup.
  destruct (linear_conditions cfg metrics current) as (up & down & Hu & Hd & ->).
  assert (up = true) as -> by (apply Hu, Hup).
  assert (down = false) as ->.
  { destruct down; [| reflexivity]. exfalso.
    apply (overloaded_not_idle cfg metrics Ho Hup). apply Hd. reflexivity. }
  cbn [andb]. destruct (current <? MAX_REPLICAS cfg); reflexivity.
Qed.

Lemma linear_when_idle cfg metrics current :
  ordered_thresholds cfg -> idle cfg metrics ->
  _linear_scaling_decision cfg metrics current
  = if current >? MIN_REPLICAS cfg then current - 1 else current.
Proof.
  intros Ho Hdn.
  destruct (linear_conditions cfg metrics current) as (up & down & Hu & Hd & ->).
  assert (down = true) as -> by (apply Hd, Hdn).
  assert (up = false) as ->.
  { destruct up; [| reflexivity]. exfalso.
    apply (overloaded_not_idle cfg metrics Ho); [apply Hu; reflexivity | exact Hdn]. }
  cbn [andb]. reflexivity.
Qed.

(** X1: the linear algorithm moves the replica count by at most one.  When no
    scale-down threshold lies above its scale-up threshold, a metric above
    its scale-up threshold never lowers the count (it adds one below
    [MAX_REPLICAS] and holds otherwise), and metrics all below their
    scale-down thresholds never raise it (one less above [MIN_REPLICAS]);
    in between, the count is held. *)
Theorem linear_follows_the_load
    (cfg : AutoscalerConfig) (metrics : gmap string Q) (current : Z) :
  let r := _linear_scaling_decision cfg metrics current in
  (r = current - 1 \/ r = current \/ r = current + 1)
  /\ (~ overloaded cfg metrics -> ~ idle cfg metrics -> r = current)
  /\ (ordered_thresholds cfg ->
      (overloaded cfg metrics ->
       r = if current <? MAX_REPLICAS cfg then current + 1 else current)
      /\ (idle cfg metrics ->
          r = if current >? MIN_REPLICAS cfg then current - 1 else current)).
Proof.
  intros r. split; [| split].
  - subst r.
    destruct (linear_conditions cfg metrics current) as (up & down & _ & _ & ->).
    destruct (up && _); [auto |]. destruct (down && _); auto.
  - intros Hu Hd. subst r.
    destruct (linear_conditions cfg metrics current) as (up & down & Hup & Hdn & ->).
    destruct up; [exfalso; apply Hu, Hup; reflexivity |].
    destruct down; [exfalso; apply Hd, Hdn; reflexivity |]. reflexivity.
  - intros Ho. split; intros H.
    + apply linear_when_overloaded; assumption.
    + apply linear_when_idle; assumption.
Qed.

Lemma linear_follows_the_load_witness :
  _linear_scaling_decision default_config (reading 85 50 300) 10 = 10
  /\ _linear_scaling_decision default_config (reading 5 5 50) 3 = 2.
Proof.
  destruct (linear_follows_the_load default_config (reading 85 50 300) 10)
    as (_ & _ & H1).
  destruct (linear_follows_the_load default_config (reading 5 5 50) 3)
    as (_ & _ & H2).
  split.
  - apply H1.
    + unfold ordered_thresholds. cbn. lia.
    + left. vm_compute. reflexivity.
  - apply H2.
    + unfold ordered_thresholds. cbn. lia.
    + repeat split; vm_compute; reflexivity.
Defined.

(** X2: under a load that stays above a scale-up threshold, [k] successive
    linear decisions take a count that does not exceed [MAX_REPLICAS] to
    [min(current + k, MAX_REPLICAS)]; under a load that stays below all
    scale-down thresholds they take a count of at least [MIN_REPLICAS] to
    [max(current - k, MIN_REPLICAS)]. *)
Theorem linear_reaches_the_bound
    (cfg : AutoscalerConfig) (metrics : gmap string Q) (current : Z) (k : nat) :
  ordered_thresholds cfg ->
  (overloaded cfg metrics -> current <= MAX_REPLICAS cfg ->
   Nat.iter k (_linear_scaling_decision cfg metrics) current
   = Z.min (current + Z.of_nat k) (MAX_REPLICAS cfg))
  /\ (idle cfg metrics -> MIN_REPLICAS cfg <= current ->
      Nat.iter k (_linear_scaling_decision cfg metrics) current
      = Z.max (current - Z.of_nat k) (MIN_REPLICAS cfg)).
Proof.
  intros Ho. split; intros Hl Hc.
  - induction k as [| k IH]; [cbn; lia |].
    rewrite Nat.iter_succ, IH, linear_when_overloaded by assumption.
    destruct (Z.ltb_spec (Z.min (current + Z.of_nat k) (MAX_REPLICAS cfg))
                (MAX_REPLICAS cfg)); lia.
  - induction k as [| k IH]; [cbn; lia |].
    rewrite Nat.iter_succ, IH, linear_when_idle by assumption.
    destruct (Z.gtb_spec (Z.max (current - Z.of_nat k) (MIN_REPLICAS cfg))
                (MIN_REPLICAS cfg)); lia.
Qed.

Lemma linear_reaches_the_bound_witness :
  Nat.iter 20 (_linear_scaling_decision default_config (reading 85 50 300)) 3 = 10.
Proof.
  destruct (linear_reaches_the_bound default_config (reading 85 50 300) 3 20) as (H & _).
  - unfold ordered_thresholds. cbn. lia.
  - apply H.
    + left. vm_compute. reflexivity.
    + cbn. lia.
Defined.

(** ** The exponential algorithm *)

Lemma scale_factor_cases cfg u :
  (scale_factor cfg u = Some 2%Q /\ (90 < u)%Q)
  \/ (scale_factor cfg u = Some (3 # 2)%Q
      /\ (u <= 90)%Q /\ (inject_Z (SCALE_UP_THRESHOLD cfg) < u)%Q)
  \/ (scale_factor cfg u = Some (7 # 10)%Q
      /\ (u <= 90)%Q /\ (u <= inject_Z (SCALE_UP_THRESHOLD cfg))%Q
      /\ (u < inject_Z (SCALE_DOWN_THRESHOLD cfg))%Q)
  \/ (scale_factor cfg u = None
      /\ (u <= 90)%Q /\ (u <= inject_Z (SCALE_UP_THRESHOLD cfg))%Q
      /\ (inject_Z (SCALE_DOWN_THRESHOLD cfg) <= u)%Q).
Proof.
  unfold scale_factor.
  destruct (Py.gtb u 90) eqn:H90.
  { apply gtb_gt in H90. auto. }
  apply gtb_le in H90.
  destruct (Py.gtb u (inject_Z (SCALE_UP_THRESHOLD cfg))) eqn:Hup.
  { apply gtb_gt in Hup. auto. }
  apply gtb_le in Hup.
  destruct (Py.ltb u (inject_Z (SCALE_DOWN_THRESHOLD cfg))) eqn:Hdn.
  { apply ltb_lt in Hdn. auto 8. }
  apply ltb_ge in Hdn. auto 8.
Qed.

Lemma int_double c : Py.int (inject_Z c * 2) = c * 2.
Proof. unfold Py.int. cbn. apply Z.quot_1_r. Qed.

Lemma int_seven_tenths c : 0 <= c -> Py.int (inject_Z c * (7 # 10)) = c * 7 / 10.
Proof.
  intros H. unfold Py.int. cbn. rewrite Z.quot_div_nonneg by lia. reflexivity.
Qed.

(** X3: when the load is outside the band in which the exponential algorithm
    holds the count (above 90, above [SCALE_UP_THRESHOLD] or below
    [SCALE_DOWN_THRESHOLD]), its result lies in [[MIN_REPLICAS, MAX_REPLICAS]]
    whatever the replica count was, also a count outside the bounds; inside
    the band the count is returned as it is. *)
Theorem exponential_clamps_every_count
    (cfg : AutoscalerConfig) (metrics : gmap string Q) (current : Z) :
  let u := max_usage metrics in
  let r := _exponential_scaling_decision cfg metrics current in
  ((u <= 90)%Q -> (u <= inject_Z (SCALE_UP_THRESHOLD cfg))%Q ->
   (inject_Z (SCALE_DOWN_THRESHOLD cfg) <= u)%Q -> r = current)
  /\ (MIN_REPLICAS cfg <= MAX_REPLICAS cfg ->
      (90 < u)%Q \/ (inject_Z (SCALE_UP_THRESHOLD cfg) < u)%Q
      \/ (u < inject_Z (SCALE_DOWN_THRESHOLD cfg))%Q ->
      MIN_REPLICAS cfg <= r <= MAX_REPLICAS cfg).
Proof.
  intros u r. subst r. unfold _exponential_scaling_decision. fold (max_usage metrics).
  fold u. cbv zeta.
  destruct (scale_factor_cases cfg u)
    as [[-> H] | [(-> & H1 & H2) | [(-> & H1 & H2 & H3) | (-> & H1 & H2 & H3)]]].
  - split; [| lia]. intros H90. exfalso. apply (Qlt_irrefl u).
    eapply Qle_lt_trans; [exact H90 | exact H].
  - split; [| lia]. intros _ Hup. exfalso. apply (Qlt_irrefl u).
    eapply Qle_lt_trans; [exact Hup | exact H2].
  - split; [| lia]. intros _ _ Hdn. exfalso. apply (Qlt_irrefl u).
    eapply Qlt_le_trans; [exact H3 | exact Hdn].
  - split; [reflexivity |]. intros _ [H | [H | H]]; exfalso; apply (Qlt_irrefl u).
    + eapply Qle_lt_trans; [exact H1 | exact H].
    + eapply Qle_lt_trans; [exact H2 | exact H].
    + eapply Qlt_le_trans; [exact H | exact H3].
Qed.

Lemma exponential_clamps_every_count_witness :
  MIN_REPLICAS default_config
  <= _exponential_scaling_decision default_config (reading 95 50 0) 40
  <= MAX_REPLICAS default_config.
Proof.
  destruct (exponential_clamps_every_count default_config (reading 95 50 0) 40)
    as (_ & H).
  apply H.
  - cbn. lia.
  - left. vm_compute. reflexivity.
Defined.

(** X4: the exponential algorithm never moves against the load.  For a
    non-negative replica count, a load above 90 gives the doubled count,
    clamped; a load above 90 or above [SCALE_UP_THRESHOLD] gives at least
    [min(current, MAX_REPLICAS)]; a load below [SCALE_DOWN_THRESHOLD] (and not
    above the other two marks) gives at most [max(current, MIN_REPLICAS)]. *)
Theorem exponential_follows_the_load
    (cfg : AutoscalerConfig) (metrics : gmap string Q) (current : Z) :
  let u := max_usage metrics in
  let r := _exponential_scaling_decision cfg metrics current in
  0 <= current ->
  ((90 < u)%Q ->
   r = Z.max (MIN_REPLICAS cfg) (Z.min (MAX_REPLICAS cfg) (current * 2)))
  /\ ((90 < u)%Q \/ (inject_Z (SCALE_UP_THRESHOLD cfg) < u)%Q ->
      Z.min current (MAX_REPLICAS cfg) <= r)
  /\ ((u <= 90)%Q -> (u <= inject_Z (SCALE_UP_THRESHOLD cfg))%Q ->
      (u < inject_Z (SCALE_DOWN_THRESHOLD cfg))%Q ->
      r <= Z.max current (MIN_REPLICAS cfg)).
Proof.
  intros u r Hc. subst r. unfold _exponential_scaling_decision.
  fold (max_usage metrics). fold u. cbv zeta.
  assert (H32 : current <= current * 3 / 2)
    by (apply Z.div_le_lower_bound; lia).
  assert (H710 : current * 7 / 10 <= current)
    by (apply Z.div_le_upper_bound; lia).
  destruct (scale_factor_cases cfg u)
    as [[-> H] | [(-> & H1 & H2) | [(-> & H1 & H2 & H3) | (-> & H1 & H2 & H3)]]].
  - rewrite int_double. split; [| split].
    + intros _. reflexivity.
    + intros _. lia.
    + intros H90. exfalso. apply (Qlt_irrefl u).
      eapply Qle_lt_trans; [exact H90 | exact H].
  - rewrite int_three_halves by exact Hc. split; [| split].
    + intros H. exfalso. apply (Qlt_irrefl u).
      eapply Qle_lt_trans; [exact H1 | exact H].
    + intros _. lia.
    + intros _ Hup. exfalso. apply (Qlt_irrefl u).
      eapply Qle_lt_trans; [exact Hup | exact H2].
  - rewrite int_seven_tenths by exact Hc. split; [| split].
    + intros H. exfalso. apply (Qlt_irrefl u).
      eapply Qle_lt_trans; [exact H1 | exact H].
    + intros [H | H]; exfalso; apply (Qlt_irrefl u).
      * eapply Qle_lt_trans; [exact H1 | exact H].
      * eapply Qle_lt_trans; [exact H2 | exact H].
    + intros _ _ _. lia.
  - split; [| split].
    + intros H. exfalso. apply (Qlt_irrefl u).
      eapply Qle_lt_trans; [exact H1 | exact H].
    + intros [H | H]; exfalso; apply (Qlt_irrefl u).
      * eapply Qle_lt_trans; [exact H1 | exact H].
      * eapply Qle_lt_trans; [exact H2 | exact H].
    + intros _ _ Hdn. exfalso. apply (Qlt_irrefl u).
      eapply Qlt_le_trans; [exact Hdn | exact H3].
Qed.

Lemma exponential_follows_the_load_witness :
  _exponential_scaling_decision default_config (reading 95 50 0) 4 = 8.
Proof.
  destruct (exponential_follows_the_load default_config (reading 95 50 0) 4
              ltac:(lia)) as (H & _).
  apply H. vm_compute. reflexivity.
Defined.

(** ** The predictive algorithm *)

Lemma trend_of_short_ring ring : (length ring < 3)%nat -> trend_of_ring ring = stable.
Proof.
  intros H. unfold trend_of_ring.
  destruct (Nat.ltb_spec (length ring) 3); [reflexivity | lia].
Qed.

(** X5: the predictive algorithm changes the replica count only on a trend.
    It returns another count than the current one only if a trend is
    [increasing] while CPU or memory is above 60, the result then being
    [min(current + 1, MAX_REPLICAS)], or if both trends are [decreasing]
    while CPU and memory are below 40, the result then being
    [max(current - 1, MIN_REPLICAS)].  With fewer than three samples in both
    the CPU and the memory ring it returns the current count. *)
Theorem predictive_needs_a_trend
    (cfg : AutoscalerConfig) (mc : MetricsCollector)
    (metrics : gmap string Q) (current : Z) :
  let r := _predictive_scaling_decision cfg mc metrics current in
  let cpu_trend := get_trend mc "api" "cpu_usage" in
  let memory_trend := get_trend mc "api" "memory_usage" in
  let cpu_usage := metrics_get metrics "cpu_usage" in
  let memory_usage := metrics_get metrics "memory_usage" in
  (r <> current ->
   ((cpu_trend = increasing \/ memory_trend = increasing)
    /\ ((60 < cpu_usage)%Q \/ (60 < memory_usage)%Q)
    /\ r = Z.min (current + 1) (MAX_REPLICAS cfg))
   \/ (cpu_trend = decreasing /\ memory_trend = decreasing
       /\ (cpu_usage < 40)%Q /\ (memory_usage < 40)%Q
       /\ r = Z.max (current - 1) (MIN_REPLICAS cfg)))
  /\ ((length (ring_of mc "api" "cpu_usage") < 3)%nat ->
      (length (ring_of mc "api" "memory_usage") < 3)%nat ->
      r = current).
Proof.
  intros r cpu_trend memory_trend cpu_usage memory_usage.
  assert (Hr : r = if (bool_decide (cpu_trend = increasing)
                       || bool_decide (memory_trend = increasing))
                      && (Py.gtb cpu_usage 60 || Py.gtb memory_usage 60)
                   then Z.min (current + 1) (MAX_REPLICAS cfg)
                   else if (bool_decide (cpu_trend = decreasing)
                            && bool_decide (memory_trend = decreasing))
                           && (Py.ltb cpu_usage 40 && Py.ltb memory_usage 40)
                   then Z.max (current - 1) (MIN_REPLICAS cfg)
                   else current) by reflexivity.
  split.
  - intros Hne. rewrite Hr in Hne |- *. clear Hr.
    set (up := (bool_decide (cpu_trend = increasing)
                || bool_decide (memory_trend = increasing))
               && (Py.gtb cpu_usage 60 || Py.gtb memory_usage 60)) in *.
    set (down := (bool_decide (cpu_trend = decreasing)
                  && bool_decide (memory_trend = decreasing))
                 && (Py.ltb cpu_usage 40 && Py.ltb memory_usage 40)) in *.
    destruct up eqn:Hup.
    + left. apply andb_true_iff in Hup as [Ht Hu].
      apply orb_true_iff in Ht, Hu.
      rewrite !bool_decide_eq_true in Ht. rewrite !gtb_gt in Hu. auto.
    + destruct down eqn:Hdn; [| congruence].
      right. apply andb_true_iff in Hdn as [Ht Hu].
      apply andb_true_iff in Ht as [Ht1 Ht2], Hu as [Hu1 Hu2].
      apply bool_decide_eq_true in Ht1, Ht2. apply ltb_lt in Hu1, Hu2. auto 6.
  - intros Hc Hm. rewrite Hr.
    assert (cpu_trend = stable) as -> by (apply trend_of_short_ring, Hc).
    assert (memory_trend = stable) as -> by (apply trend_of_short_ring, Hm).
    reflexivity.
Qed.

Lemma predictive_needs_a_trend_witness :
  _predictive_scaling_decision default_config (collector_with [50; 90]%Q)
    (reading 90 90 0) 4 = 4.
Proof.
  destruct (predictive_needs_a_trend default_config (collector_with [50; 90]%Q)
              (reading 90 90 0) 4) as (_ & H).
  apply H; vm_compute; lia.
Defined.

(** ** The history rings *)

Lemma last_n_short {A} (n : nat) (l : list A) :
  (length l <= n)%nat -> Py.last_n n l = l.
Proof.
  intros H. unfold Py.last_n. replace (length l - n)%nat with O by lia. reflexivity.
Qed.

Lemma last_n_length {A} (n : nat) (l : list A) :
  length (Py.last_n n l) = Nat.min n (length l).
Proof. unfold Py.last_n. rewrite length_drop. lia. Qed.

(** Trimming before an append changes nothing of what is kept after it. *)
Lemma last_n_app_trim {A} (n : nat) (l k : list A) :
  Py.last_n n (Py.last_n n l ++ k) = Py.last_n n (l ++ k).
Proof.
  destruct (Nat.le_gt_cases (length l) n) as [Hle | Hgt].
  { rewrite (last_n_short n l Hle). reflexivity. }
  unfold Py.last_n at 1 3. rewrite !length_app, last_n_length.
  replace (Nat.min n (length l) + length k - n)%nat with (length k) by lia.
  unfold Py.last_n.
  destruct (Nat.le_gt_cases (length k) n) as [Hk | Hk].
  - rewrite drop_app_le by (rewrite length_drop; lia).
    rewrite drop_drop.
    rewrite (drop_app_le l k) by lia.
    f_equal. f_equal. lia.
  - rewrite drop_app_ge by (rewrite length_drop; lia).
    rewrite (drop_app_ge l k) by lia.
    rewrite length_drop. f_equal. lia.
Qed.

Lemma ring_of_add_metric cfg mc now service metric_type v :
  ring_of (add_metric cfg mc now service metric_type v) service metric_type
  = deque_append (PREDICTION_SAMPLES cfg) (ring_of mc service metric_type)
      {| timestamp := now; value := v |}.
Proof.
  unfold ring_of, add_metric. cbn [metrics_history].
  rewrite lookup_insert_eq. reflexivity.
Qed.

Lemma ring_of_add_metric_other cfg mc now service metric_type v service' metric_type' :
  history_key service metric_type <> history_key service' metric_type' ->
  ring_of (add_metric cfg mc now service metric_type v) service' metric_type'
  = ring_of mc service' metric_type'.
Proof.
  intros H. unfold ring_of, add_metric. cbn [metrics_history].
  rewrite lookup_insert_ne by exact H. reflexivity.
Qed.

(** X6: a ring holds the last [PREDICTION_SAMPLES] samples that were added to
    it, oldest first.  After any sequence of [add_metric] calls for one
    service and metric, starting from a ring that is not over-long, the ring
    is the old ring followed by the new samples, cut to its last
    [PREDICTION_SAMPLES] entries; from an empty history it is the last
    [PREDICTION_SAMPLES] of the samples added; and the rings of the other
    keys are as they were. *)
Theorem ring_keeps_the_last_samples
    (cfg : AutoscalerConfig) (mc : MetricsCollector)
    (service metric_type : string) (readings : list (Z * Q)) :
  ((length (ring_of mc service metric_type) <= PREDICTION_SAMPLES cfg)%nat ->
   ring_of (add_metrics cfg mc service metric_type readings) service metric_type
   = Py.last_n (PREDICTION_SAMPLES cfg)
       (ring_of mc service metric_type ++ map sample_of readings))
  /\ ring_of (add_metrics cfg empty_collector service metric_type readings)
       service metric_type
     = Py.last_n (PREDICTION_SAMPLES cfg) (map sample_of readings)
  /\ (forall service' metric_type',
        history_key service metric_type <> history_key service' metric_type' ->
        ring_of (add_metrics cfg mc service metric_type readings) service' metric_type'
        = ring_of mc service' metric_type').
Proof.
  assert (Hmain : forall readings mc,
            (length (ring_of mc service metric_type) <= PREDICTION_SAMPLES cfg)%nat ->
            ring_of (add_metrics cfg mc service metric_type readings) service metric_type
            = Py.last_n (PREDICTION_SAMPLES cfg)
                (ring_of mc service metric_type ++ map sample_of readings)).
  { clear. intros readings. unfold add_metrics.
    induction readings as [| [t v] readings IH]; intros mc Hle.
    - cbn. rewrite app_nil_r, last_n_short by exact Hle. reflexivity.
    - cbn [fold_left map fst snd]. rewrite IH.
      + rewrite ring_of_add_metric. unfold deque_append.
        set (ring := ring_of mc service metric_type).
        set (x := {| timestamp := t; value := v |}).
        change (sample_of (t, v)) with x.
        rewrite last_n_app_trim, <- app_assoc. reflexivity.
      + rewrite ring_of_add_metric. unfold deque_append.
        rewrite last_n_length. lia. }
  split; [apply Hmain |]. split.
  - rewrite Hmain; [reflexivity |]. unfold ring_of, empty_collector.
    cbn [metrics_history]. rewrite lookup_empty. cbn. lia.
  - intros service' metric_type' Hne. revert mc. unfold add_metrics.
    induction readings as [| [t v] readings IH]; intros mc; [reflexivity |].
    cbn [fold_left fst snd]. rewrite IH.
    apply ring_of_add_metric_other, Hne.
Qed.

Lemma ring_keeps_the_last_samples_witness :
  map value (ring_of (add_metrics default_config
                        (collector_with [1; 2; 3; 4; 5; 6; 7; 8; 9]%Q) "api" "cpu_usage"
                        [(10, 10%Q); (20, 11%Q); (30, 12%Q)])
               "api" "cpu_usage")
  = [3; 4; 5; 6; 7; 8; 9; 10; 11; 12]%Q.
Proof.
  destruct (ring_keeps_the_last_samples default_config
              (collector_with [1; 2; 3; 4; 5; 6; 7; 8; 9]%Q) "api" "cpu_usage"
              [(10, 10%Q); (20, 11%Q); (30, 12%Q)]) as (H & _).
  rewrite H; [reflexivity | vm_compute; lia].
Defined.

Lemma chronological_drop n ring : chronological ring -> chronological (drop n ring).
Proof.
  intros H i j a b Hi Hj Hij. rewrite lookup_drop in Hi, Hj.
  apply (H (n + i)%nat (n + j)%nat); [assumption | assumption | lia].
Qed.

Lemma chronological_snoc ring x :
  chronological ring ->
  Forall (fun y => timestamp y <= timestamp x) ring ->
  chronological (ring ++ [x]).
Proof.
  intros Hc Hall i j a b Hi Hj Hij.
  apply lookup_app_Some in Hi as [Hi | [Hli Hi]];
    apply lookup_app_Some in Hj as [Hj | [Hlj Hj]].
  - exact (Hc i j a b Hi Hj Hij).
  - apply list_lookup_singleton_Some in Hj as [_ <-].
    rewrite Forall_lookup in Hall. exact (Hall i a Hi).
  - apply lookup_lt_Some in Hj. lia.
  - apply list_lookup_singleton_Some in Hi as [_ <-].
    apply list_lookup_singleton_Some in Hj as [_ <-]. lia.
Qed.

Section History.

Variable cfg : AutoscalerConfig.

(** The capacity of the rings: only [add_metric] touches them. *)
Lemma capacity_frame s s' :
  capacity_invariant cfg s ->
  metrics_history (metrics_collector s') = metrics_history (metrics_collector s) ->
  capacity_invariant cfg s'.
Proof. intros Hi Eh key ring Hk. rewrite Eh in Hk. exact (Hi key ring Hk). Qed.

Lemma capacity_store_metric dt service metric_type v s :
  capacity_invariant cfg s ->
  capacity_invariant cfg (store_metric cfg dt service metric_type v s).
Proof.
  intros Hi key ring.
  unfold store_metric, add_metric.
  cbn [advance set_metrics_collector metrics_collector metrics_history clock].
  rewrite lookup_insert. case_decide as Hk.
  - intros [= <-]. unfold deque_append. rewrite last_n_length. lia.
  - apply Hi.
Qed.

Lemma capacity_at_gate e metrics s :
  capacity_invariant cfg s -> capacity_invariant cfg (at_gate cfg e metrics s).
Proof.
  intros Hi. unfold at_gate, record_api_sample. cbv zeta.
  match goal with
  | |- capacity_invariant cfg
         (advance _ (gauge_set _ _ (gauge_set _ _ (gauge_set _ _ (gauge_set _ _ ?s3))))) =>
      apply (capacity_frame s3); [| reflexivity]
  end.
  apply capacity_store_metric, capacity_store_metric, capacity_store_metric, Hi.
Qed.

Lemma actuate_history name target a dt key s :
  metrics_history (metrics_collector (actuate name target a dt key s))
  = metrics_history (metrics_collector s)
  /\ (0 <= sa_delay a -> 0 <= dt -> clock s <= clock (actuate name target a dt key s)).
Proof.
  destruct (actuate_cases name target a dt key s)
    as [[E _] | [(E & _) | (current & s2 & _ & E & _ & _ & _ & _ & Ec & Em & _)]];
    cbv zeta in E; rewrite E.
  - split; [reflexivity | lia].
  - split; [reflexivity |]. cbn [stamp advance set_metrics_collector clock]. lia.
  - destruct (sa_update_ok a).
    + cbn [stamp advance set_metrics_collector clock metrics_collector
           record_scaling_action metrics_history].
      rewrite Em, Ec. split; [reflexivity | lia].
    + rewrite Em, Ec. split; [reflexivity | lia].
Qed.

Lemma capacity_api e s :
  capacity_invariant cfg s -> capacity_invariant cfg (scale_api_instances cfg e s).
Proof.
  intros Hi.
  destruct (scale_api_instances_cases cfg e s) as [[_ ->] | (metrics & _ & H)];
    [exact Hi |].
  cbv zeta in H. pose proof (capacity_at_gate e metrics s Hi) as Hi1.
  destruct H as [[_ ->] | [(_ & _ & ->) | (_ & _ & ->)]];
    [exact Hi1 | exact Hi1 |].
  eapply capacity_frame; [exact Hi1 | apply actuate_history].
Qed.

Lemma capacity_postgres e s :
  capacity_invariant cfg s -> capacity_invariant cfg (scale_postgres_instances cfg e s).
Proof.
  intros Hi.
  destruct (scale_postgres_instances_cases cfg e s)
    as [[-> _] | [[-> _] | (_ & _ & _ & ->)]].
  - exact Hi.
  - exact Hi.
  - eapply capacity_frame; [exact Hi |].
    etransitivity; [apply actuate_history | reflexivity].
Qed.

Lemma capacity_redis e s :
  capacity_invariant cfg s -> capacity_invariant cfg (scale_redis_instances cfg e s).
Proof.
  intros Hi.
  destruct (scale_redis_instances_cases cfg e s)
    as [[-> _] | [[-> _] | (_ & _ & ->)]].
  - exact Hi.
  - exact Hi.
  - eapply capacity_frame; [exact Hi |].
    etransitivity; [apply actuate_history | reflexivity].
Qed.

Lemma capacity_run cycles s :
  capacity_invariant cfg s -> capacity_invariant cfg (run cfg cycles s).
Proof.
  revert s. unfold run.
  induction cycles as [| c cycles IH]; intros s Hi; [exact Hi |].
  cbn [fold_left]. apply IH. unfold run_monitoring_cycle.
  apply capacity_redis, capacity_postgres, capacity_api, Hi.
Qed.

Lemma capacity_init docker_unavailable ping_ok now :
  capacity_invariant cfg (AutoScaler_init docker_unavailable ping_ok now).
Proof.
  intros key ring H. cbn in H. rewrite lookup_empty in H. discriminate.
Qed.

(** The order of the rings: the invariant speaks of the rings and the clock
    only, and is kept as long as the clock is not set back. *)
Lemma history_frame s s' :
  history_invariant cfg s ->
  metrics_history (metrics_collector s') = metrics_history (metrics_collector s) ->
  clock s <= clock s' ->
  history_invariant cfg s'.
Proof.
  intros Hi Eh Hc key ring Hk. rewrite Eh in Hk.
  destruct (Hi key ring Hk) as (Hl & Ho & Hp). repeat split; [exact Hl | exact Ho |].
  eapply Forall_impl; [exact Hp |]. cbn. intros x Hx. lia.
Qed.

Lemma history_store_metric dt service metric_type v s :
  0 <= dt ->
  history_invariant cfg s ->
  history_invariant cfg (store_metric cfg dt service metric_type v s).
Proof.
  intros Hdt Hi key ring.
  unfold store_metric, add_metric.
  cbn [advance set_metrics_collector metrics_collector metrics_history clock].
  set (now := clock s + dt).
  rewrite lookup_insert. case_decide as Hk.
  - intros [= <-]. unfold deque_append.
    set (old := default [] (metrics_history (metrics_collector s) !! _)).
    assert (Hold : chronological old /\ Forall (fun x => timestamp x <= clock s) old).
    { subst old. destruct (metrics_history (metrics_collector s) !! _) as [r|] eqn:Hr.
      - destruct (Hi _ _ Hr) as (_ & Ho & Hp). split; assumption.
      - split; [| constructor]. intros i j a b Ha. cbn in Ha.
        rewrite lookup_nil in Ha. discriminate. }
    destruct Hold as (Ho & Hp).
    repeat split.
    + rewrite last_n_length. lia.
    + apply chronological_drop, chronological_snoc; [exact Ho |].
      eapply Forall_impl; [exact Hp |]. cbn. intros x Hx. lia.
    + apply Forall_drop, Forall_app. split.
      * eapply Forall_impl; [exact Hp |]. cbn. intros x Hx. lia.
      * repeat constructor. cbn. lia.
  - intros Hr. destruct (Hi key ring Hr) as (Hl & Ho & Hp).
    repeat split; [exact Hl | exact Ho |].
    eapply Forall_impl; [exact Hp |]. cbn. intros x Hx. lia.
Qed.

Lemma history_at_gate e metrics s :
  forward_api e ->
  history_invariant cfg s -> history_invariant cfg (at_gate cfg e metrics s).
Proof.
  intros (H1 & H2 & H3 & H4 & _) Hi. unfold at_gate, record_api_sample. cbv zeta.
  match goal with
  | |- history_invariant cfg
         (advance _ (gauge_set _ _ (gauge_set _ _ (gauge_set _ _ (gauge_set _ _ ?s3))))) =>
      apply (history_frame s3); [| reflexivity | cbn [advance gauge_set clock]; lia]
  end.
  apply history_store_metric; [exact H3 |].
  apply history_store_metric; [exact H2 |].
  apply history_store_metric; [exact H1 | exact Hi].
Qed.

Lemma history_actuate name target a dt key s :
  0 <= sa_delay a -> 0 <= dt ->
  history_invariant cfg s -> history_invariant cfg (actuate name target a dt key s).
Proof.
  intros Hda Hdt Hi. destruct (actuate_history name target a dt key s) as (Eh & Hc).
  exact (history_frame s _ Hi Eh (Hc Hda Hdt)).
Qed.

Lemma history_tier_gate name v dt s :
  0 <= dt ->
  history_invariant cfg s -> history_invariant cfg (advance dt (gauge_set name v s)).
Proof.
  intros Hdt Hi. apply (history_frame s); [exact Hi | reflexivity |].
  cbn [advance gauge_set clock]. lia.
Qed.

Lemma history_api e s :
  forward_api e ->
  history_invariant cfg s -> history_invariant cfg (scale_api_instances cfg e s).
Proof.
  intros Hf Hi.
  destruct (scale_api_instances_cases cfg e s) as [[_ ->] | (metrics & _ & H)];
    [exact Hi |].
  cbv zeta in H. pose proof (history_at_gate e metrics s Hf Hi) as Hi1.
  destruct H as [[_ ->] | [(_ & _ & ->) | (_ & _ & ->)]];
    [exact Hi1 | exact Hi1 |].
  destruct Hf as (_ & _ & _ & _ & Hda & Hdt).
  apply history_actuate; assumption.
Qed.

Lemma history_postgres e s :
  forward_tier e ->
  history_invariant cfg s -> history_invariant cfg (scale_postgres_instances cfg e s).
Proof.
  intros (Hg0 & Hda & Hdt) Hi.
  destruct (scale_postgres_instances_cases cfg e s)
    as [[-> _] | [[-> _] | (_ & _ & _ & ->)]].
  - apply (history_frame s); [exact Hi | reflexivity | cbn [gauge_set clock]; lia].
  - apply history_tier_gate; assumption.
  - apply history_actuate; [exact Hda | exact Hdt |]. apply history_tier_gate; assumption.
Qed.

Lemma history_redis e s :
  forward_tier e ->
  history_invariant cfg s -> history_invariant cfg (scale_redis_instances cfg e s).
Proof.
  intros (Hg0 & Hda & Hdt) Hi.
  destruct (scale_redis_instances_cases cfg e s)
    as [[-> _] | [[-> _] | (_ & _ & ->)]].
  - apply (history_frame s); [exact Hi | reflexivity | cbn [gauge_set clock]; lia].
  - apply history_tier_gate; assumption.
  - apply history_actuate; [exact Hda | exact Hdt |]. apply history_tier_gate; assumption.
Qed.

Lemma history_run cycles s :
  Forall forward_cycle cycles ->
  history_invariant cfg s -> history_invariant cfg (run cfg cycles s).
Proof.
  intros Hf. revert s. unfold run.
  induction Hf as [| c cycles (Ha & Hp & Hr) _ IH]; intros s Hi; [exact Hi |].
  cbn [fold_left]. apply IH. unfold run_monitoring_cycle.
  apply history_redis; [exact Hr |].
  apply history_postgres; [exact Hp |].
  apply history_api; [exact Ha | exact Hi].
Qed.

Lemma history_init docker_unavailable ping_ok now :
  history_invariant cfg (AutoScaler_init docker_unavailable ping_ok now).
Proof.
  intros key ring H. cbn in H. rewrite lookup_empty in H. discriminate.
Qed.

End History.

(** X7: the history rings stay within their capacity.  At every point of
    every run of the control loop no ring holds more than
    [PREDICTION_SAMPLES] samples. *)
Theorem rings_never_exceed_capacity
    (cfg : AutoscalerConfig) (docker_unavailable : option string) (ping_ok : bool)
    (now : Z) (cycles : list cycle) (key : string) (ring : list sample) :
  metrics_history
    (metrics_collector (run cfg cycles (AutoScaler_init docker_unavailable ping_ok now)))
    !! key = Some ring ->
  (length ring <= PREDICTION_SAMPLES cfg)%nat.
Proof.
  intros H.
  exact (capacity_run cfg cycles _ (capacity_init cfg docker_unavailable ping_ok now)
           key ring H).
Qed.

(** X8: the history rings are in time order.  At every point of every run in
    which no reading of the clock is earlier than the reading before it, the
    samples of a ring carry non-decreasing timestamps, oldest first, and
    none of them is later than the clock. *)
Theorem rings_are_chronological
    (cfg : AutoscalerConfig) (docker_unavailable : option string) (ping_ok : bool)
    (now : Z) (cycles : list cycle) (key : string) (ring : list sample) :
  let s := run cfg cycles (AutoScaler_init docker_unavailable ping_ok now) in
  Forall forward_cycle cycles ->
  metrics_history (metrics_collector s) !! key = Some ring ->
  (forall i j a b, ring !! i = Some a -> ring !! j = Some b -> (i <= j)%nat ->
     timestamp a <= timestamp b)
  /\ (forall a, a ∈ ring -> timestamp a <= clock s).
Proof.
  intros s Hf H.
  destruct (history_run cfg cycles _ Hf (history_init cfg docker_unavailable ping_ok now)
              key ring H) as (_ & Ho & Hp).
  split; [exact Ho |]. intros a Ha. rewrite Forall_forall in Hp. apply Hp, Ha.
Qed.

Lemma rings_never_exceed_capacity_witness :
  (length [ {| timestamp := 1000; value := 0 |} ] <= PREDICTION_SAMPLES default_config)%nat.
Proof.
  apply (rings_never_exceed_capacity default_config None true 0 [slow_cycle 1000 3]
           "api_cpu_usage" [ {| timestamp := 1000; value := 0 |} ]).
  vm_compute. reflexivity.
Defined.

Lemma rings_are_chronological_witness :
  timestamp {| timestamp := 1000; value := 0 |}
  <= timestamp {| timestamp := 57000; value := 0 |}.
Proof.
  destruct (rings_are_chronological default_config None true 0
              [slow_cycle 1000 3; slow_cycle 2000 4] "api_cpu_usage"
              [ {| timestamp := 1000; value := 0 |};
                {| timestamp := 57000; value := 0 |} ]) as (H & _).
  - repeat constructor; cbn; lia.
  - vm_compute. reflexivity.
  - apply (H 0%nat 1%nat); [reflexivity | reflexivity | lia].
Defined.

(** ** The trend *)

Lemma last_n_app_long {A} (n : nat) (l k : list A) :
  (n <= length k)%nat -> Py.last_n n (l ++ k) = Py.last_n n k.
Proof.
  intros H. unfold Py.last_n. rewrite length_app.
  rewrite drop_app_ge by lia. f_equal. lia.
Qed.

Lemma trend_of_long_ring older newest :
  (5 <= length newest)%nat ->
  trend_of_ring (older ++ newest) = trend_of_ring newest.
Proof.
  intros H. unfold trend_of_ring.
  rewrite (last_n_app_long 5 older newest H), length_app.
  destruct (Nat.ltb_spec (length older + length newest) 3); [lia |].
  destruct (Nat.ltb_spec (length newest) 3); [lia |]. reflexivity.
Qed.

(** X9: [get_trend] reads the five newest samples only.  Two rings that end
    with the same five or more samples have the same trend, whatever came
    before them. *)
Theorem trend_reads_the_newest_five
    (mc mc' : MetricsCollector) (service metric_type service' metric_type' : string)
    (older newest : list sample) :
  ring_of mc service metric_type = older ++ newest ->
  ring_of mc' service' metric_type' = newest ->
  (5 <= length newest)%nat ->
  get_trend mc service metric_type = get_trend mc' service' metric_type'.
Proof.
  intros H1 H2 H5. unfold get_trend.
  fold (ring_of mc service metric_type) (ring_of mc' service' metric_type').
  rewrite H1, H2. apply trend_of_long_ring, H5.
Qed.

Lemma trend_reads_the_newest_five_witness :
  get_trend (collector_with [90; 10; 50; 55; 62; 68; 72]%Q) "api" "cpu_usage"
  = get_trend (collector_with [50; 55; 62; 68; 72]%Q) "api" "cpu_usage".
Proof.
  apply (trend_reads_the_newest_five _ _ _ _ _ _
           [ {| timestamp := 0; value := 90 |}; {| timestamp := 0; value := 10 |} ]
           [ {| timestamp := 0; value := 50 |}; {| timestamp := 0; value := 55 |};
             {| timestamp := 0; value := 62 |}; {| timestamp := 0; value := 68 |};
             {| timestamp := 0; value := 72 |} ]).
  - vm_compute. reflexivity.
  - vm_compute. reflexivity.
  - cbn. lia.
Defined.

Lemma sum_const (v : Q) (l : list Q) :
  Forall (fun x => x == v)%Q l ->
  (Py.sum l == inject_Z (Z.of_nat (length l)) * v)%Q.
Proof.
  induction 1 as [| x l Hx Hl IH].
  - cbn. ring.
  - cbn [Py.sum fold_right length]. fold (Py.sum l).
    rewrite Nat2Z.inj_succ, <- Z.add_1_r, inject_Z_plus, Hx, IH. ring.
Qed.

Lemma mean_const (v : Q) (l : list Q) :
  l <> [] -> Forall (fun x => x == v)%Q l -> (Py.mean l == Binary64.rnd v)%Q.
Proof.
  intros Hne H. unfold Py.mean. apply rnd_comp. rewrite (sum_const v l H).
  field. intros H0.
  assert (Hz : Z.of_nat (length l) = 0).
  { unfold Qeq in H0. cbn in H0. lia. }
  destruct l; [contradiction | cbn in Hz; lia].
Qed.

(** X10: steady metrics have no trend.  A ring of three or more samples whose
    values all equal one non-negative number is [stable]. *)
Theorem steady_ring_is_stable
    (mc : MetricsCollector) (service metric_type : string) (v : Q) :
  (3 <= length (ring_of mc service metric_type))%nat ->
  Forall (fun x => value x == v)%Q (ring_of mc service metric_type) ->
  (0 <= v)%Q ->
  get_trend mc service metric_type = stable.
Proof.
  intros Hlen Hall Hv. unfold get_trend. fold (ring_of mc service metric_type).
  set (ring := ring_of mc service metric_type) in *.
  unfold trend_of_ring.
  destruct (Nat.ltb_spec (length ring) 3); [reflexivity |]. cbv zeta.
  set (values := map value (Py.last_n 5 ring)).
  assert (Hvals : Forall (fun x => x == v)%Q values).
  { subst values. apply Forall_map. unfold Py.last_n. apply Forall_drop, Hall. }
  assert (Hlv : (3 <= length values)%nat).
  { subst values. rewrite length_map, last_n_length. lia. }
  destruct (Nat.ltb_spec (length values) 3); [reflexivity |].
  assert (Hrecent : (Py.mean (Py.last_n 3 values) == Binary64.rnd v)%Q).
  { apply mean_const.
    - intros E. apply (f_equal length) in E. rewrite last_n_length in E. cbn [length] in E. lia.
    - unfold Py.last_n. apply Forall_drop, Hvals. }
  assert (Holder : ((if (3 <? length values)%nat
                     then Py.mean (Py.but_last_n 3 values)
                     else nth 0 values 0) == Binary64.rnd v)%Q
                   \/ ((if (3 <? length values)%nat
                        then Py.mean (Py.but_last_n 3 values)
                        else nth 0 values 0) == v)%Q).
  { destruct (Nat.ltb_spec 3 (length values)).
    - left. apply mean_const.
      + intros E. apply (f_equal length) in E. unfold Py.but_last_n in E.
        rewrite length_take in E. cbn [length] in E. lia.
      + unfold Py.but_last_n. apply Forall_take, Hvals.
    - right. destruct Hvals as [| x l Hx _]; [cbn in Hlv; lia | exact Hx]. }
  set (recent_avg := Py.mean (Py.last_n 3 values)) in *.
  set (older_avg := if (3 <? length values)%nat then _ else _) in *.
  assert (C11 : (1 <= Binary64.rnd (11 # 10))%Q) by (vm_compute; discriminate).
  assert (C09 : (Binary64.rnd (9 # 10) <= 1)%Q) by (vm_compute; discriminate).
  pose proof (rnd_nonneg v Hv) as Hw. pose proof (rnd_idem v) as Hidem.
  assert (Hup : Py.gtb recent_avg (Binary64.mul older_avg (Binary64.rnd (11 # 10))) = false).
  { apply gtb_le. rewrite Hrecent. unfold Binary64.mul.
    destruct Holder as [Ho | Ho]; rewrite Ho.
    - rewrite <- Hidem at 1. apply rnd_le. nra.
    - apply rnd_le. nra. }
  assert (Hdn : Py.ltb recent_avg (Binary64.mul older_avg (Binary64.rnd (9 # 10))) = false).
  { apply ltb_ge. rewrite Hrecent. unfold Binary64.mul.
    destruct Holder as [Ho | Ho]; rewrite Ho.
    - rewrite <- Hidem at 2. apply rnd_le. nra.
    - apply rnd_le. nra. }
  rewrite Hup, Hdn. reflexivity.
Qed.

Lemma steady_ring_is_stable_witness :
  get_trend (collector_with [55; 55; 55; 55]%Q) "api" "cpu_usage" = stable.
Proof.
  apply (steady_ring_is_stable (collector_with [55; 55; 55; 55]%Q) "api" "cpu_usage" 55).
  - vm_compute. lia.
  - vm_compute. repeat constructor.
  - discriminate.
Defined.

(** ** The cooldown ledger *)

Lemma ledger_after_record mc t service :
  last_scaling_action (record_scaling_action mc t service) !! service = Some t.
Proof. cbn. apply lookup_insert_eq. Qed.

(** X11: recording a scaling action closes the gate of that service, and of
    no other, for the cooldown period.  After [record_scaling_action(s)] at
    instant [t], [can_scale(s)] answers no at every instant from [t] to less
    than [COOLDOWN_PERIOD] seconds later, and yes from then on until a day
    after [t]; for every other service [can_scale] answers as before. *)
Theorem recording_closes_the_gate
    (cfg : AutoscalerConfig) (mc : MetricsCollector) (t now : Z) (service : string) :
  t <= now ->
  (now - t < COOLDOWN_PERIOD cfg * us_per_second ->
   can_scale cfg (record_scaling_action mc t service) now service = false)
  /\ (COOLDOWN_PERIOD cfg * us_per_second <= now - t ->
      now - t < seconds_per_day * us_per_second ->
      can_scale cfg (record_scaling_action mc t service) now service = true)
  /\ (forall other, other <> service ->
        can_scale cfg (record_scaling_action mc t service) now other
        = can_scale cfg mc now other).
Proof.
  intros Hle. split; [| split].
  - intros Hlt. unfold can_scale, timedelta_seconds.
    rewrite ledger_after_record. apply Z.leb_gt.
    unfold us_per_second, seconds_per_day in *.
    assert (0 <= (now - t) / 1000000) by (apply Z.div_pos; lia).
    pose proof (Z.mod_le ((now - t) / 1000000) 86400 ltac:(lia) ltac:(lia)).
    assert ((now - t) / 1000000 < COOLDOWN_PERIOD cfg)
      by (apply Z.div_lt_upper_bound; lia).
    lia.
  - intros Hcd Hday.
    apply (can_scale_within_a_day cfg _ now service t (ledger_after_record mc t service));
      [lia | exact Hcd].
  - intros other Hne. unfold can_scale. cbn [record_scaling_action last_scaling_action].
    rewrite lookup_insert_ne by congruence. reflexivity.
Qed.

Lemma recording_closes_the_gate_witness :
  can_scale default_config (record_scaling_action empty_collector 0 "api")
    60000000 "api" = false
  /\ can_scale default_config (record_scaling_action empty_collector 0 "api")
       121000000 "api" = true.
Proof.
  destruct (recording_closes_the_gate default_config empty_collector 0 60000000 "api"
              ltac:(lia)) as (H1 & _).
  destruct (recording_closes_the_gate default_config empty_collector 0 121000000 "api"
              ltac:(lia)) as (_ & H2 & _).
  split.
  - apply H1. vm_compute. reflexivity.
  - apply H2; vm_compute; [discriminate | reflexivity].
Defined.

(** X12: the two ends of the [COOLDOWN_PERIOD] range.  With a cooldown of a day
    (86400 seconds) or more, a service whose scaling action was recorded once
    can never be scaled again, at whatever instant [can_scale] is asked; with
    a cooldown of zero or less the gate is always open. *)
Theorem cooldown_period_extremes
    (cfg : AutoscalerConfig) (mc : MetricsCollector) (now : Z) (service : string) :
  (seconds_per_day <= COOLDOWN_PERIOD cfg ->
   forall t, can_scale cfg (record_scaling_action mc t service) now service = false)
  /\ (COOLDOWN_PERIOD cfg <= 0 -> can_scale cfg mc now service = true).
Proof.
  split.
  - intros Hcd t. unfold can_scale, timedelta_seconds.
    rewrite ledger_after_record. apply Z.leb_gt.
    unfold seconds_per_day in *.
    pose proof (Z.mod_pos_bound ((now - t) / us_per_second) 86400 ltac:(lia)). lia.
  - intros Hcd. unfold can_scale, timedelta_seconds.
    destruct (last_scaling_action mc !! service); [| reflexivity].
    apply Z.leb_le. unfold seconds_per_day.
    pose proof (Z.mod_pos_bound ((now - z) / us_per_second) 86400 ltac:(lia)). lia.
Qed.

Lemma cooldown_period_extremes_witness :
  can_scale (with_cooldown 90000 default_config)
    (record_scaling_action empty_collector 0 "api") 100000000000 "api" = false
  /\ can_scale (with_cooldown 0 default_config)
       (record_scaling_action empty_collector 0 "api") 1 "api" = true.
Proof.
  split.
  - destruct (cooldown_period_extremes (with_cooldown 90000 default_config)
                empty_collector 100000000000 "api") as (H & _).
    apply H. vm_compute. discriminate.
  - destruct (cooldown_period_extremes (with_cooldown 0 default_config)
                (record_scaling_action empty_collector 0 "api") 1 "api") as (_ & H).
    apply H. cbn. lia.
Defined.

(** ** The cache and database tiers *)

Lemma redis_test_never_fires avail read :
  Py.gtb (metrics_get (collect_redis_metrics avail read) "memory_usage")
    (inject_Z REDIS_SCALE_UP_MEMORY) = false.
Proof.
  apply gtb_le. unfold metrics_get, collect_redis_metrics. cbv zeta.
  rewrite lookup_insert_eq. unfold default. cbn [from_option id].
  rewrite <- Zle_Qle. unfold REDIS_SCALE_UP_MEMORY. lia.
Qed.

Lemma redis_step cfg e s :
  scale_redis_instances cfg e s
  = gauge_set "redis_replicas_current"
      (inject_Z (get_service_replicas (docker_available s) (tier_replicas_read e))) s.
Proof.
  unfold scale_redis_instances. cbv zeta.
  rewrite redis_test_never_fires. reflexivity.
Qed.

(** What one monitoring cycle adds to the log of updates: at most one update
    of the application service, then at most one of the database service. *)
Lemma cycle_log cfg c s :
  docker_available (run_monitoring_cycle cfg c s) = docker_available s
  /\ exists api_news postgres_news,
       update_log (run_monitoring_cycle cfg c s)
       = postgres_news ++ api_news ++ update_log s
       /\ (length api_news <= 1)%nat
       /\ (length postgres_news <= 1)%nat
       /\ Forall (fun r => ur_service r = API_SERVICE_NAME) api_news
       /\ Forall (fun r => ur_service r = POSTGRES_SERVICE_NAME) postgres_news.
Proof.
  unfold run_monitoring_cycle. rewrite redis_step.
  destruct (scale_api_instances_log cfg (cycle_api c) s) as (Hda & Hla).
  cbv zeta in Hda, Hla.
  set (sa := scale_api_instances cfg (cycle_api c) s) in *.
  destruct (scale_postgres_instances_log cfg (cycle_postgres c) sa) as (Hdp & Hlp).
  cbv zeta in Hdp, Hlp.
  set (sp := scale_postgres_instances cfg (cycle_postgres c) sa) in *.
  cbn [gauge_set docker_available update_log].
  split; [congruence |].
  assert (Ha : exists api_news,
             update_log sa = api_news ++ update_log s
             /\ (length api_news <= 1)%nat
             /\ Forall (fun r => ur_service r = API_SERVICE_NAME) api_news).
  { destruct Hla as [Hl | (metrics & _ & _ & _ & _ & Hl)].
    - exists []. rewrite Hl. repeat split; [cbn; lia | constructor].
    - eexists [_]. rewrite Hl. repeat split; [cbn; lia |].
      repeat constructor. }
  destruct Ha as (api_news & Ea & La & Fa).
  destruct Hlp as [Hl | (_ & _ & _ & Hl)].
  - exists api_news, []. rewrite Hl, Ea. repeat split; [exact La | cbn; lia | exact Fa |].
    constructor.
  - exists api_news. eexists [_]. rewrite Hl, Ea.
    repeat split; [exact La | cbn; lia | exact Fa |]. repeat constructor.
Qed.

(** X13: the cache tier is never scaled.  The memory usage
    [collect_redis_metrics] synthesizes is capped at 80 and the test is
    [> 80], so [scale_redis_instances] only ever publishes its gauge, and
    over any number of monitoring cycles no update of the cache service is
    sent. *)
Theorem cache_tier_never_scaled (cfg : AutoscalerConfig) :
  (forall avail read,
     (metrics_get (collect_redis_metrics avail read) "memory_usage"
      <= inject_Z REDIS_SCALE_UP_MEMORY)%Q)
  /\ (forall e s,
        scale_redis_instances cfg e s
        = gauge_set "redis_replicas_current"
            (inject_Z (get_service_replicas (docker_available s) (tier_replicas_read e))) s)
  /\ (forall cycles s r,
        r ∈ update_log (run cfg cycles s) ->
        ur_service r = REDIS_SERVICE_NAME -> r ∈ update_log s).
Proof.
  split; [| split].
  - intros avail read. apply gtb_le, redis_test_never_fires.
  - apply redis_step.
  - intros cycles. unfold run.
    induction cycles as [| c cycles IH]; intros s r Hin Hs; [exact Hin |].
    cbn [fold_left] in Hin. specialize (IH _ r Hin Hs).
    destruct (cycle_log cfg c s) as (_ & api_news & postgres_news & E & _ & _ & Fa & Fp).
    rewrite E in IH. rewrite Forall_forall in Fa, Fp.
    apply elem_of_app in IH as [IH | IH];
      [apply Fp in IH; rewrite IH in Hs; discriminate |].
    apply elem_of_app in IH as [IH | IH];
      [apply Fa in IH; rewrite IH in Hs; discriminate | exact IH].
Qed.

(** X14: Docker's availability is decided once, at start-up.  No monitoring
    cycle changes [docker_available]: a controller that started in
    monitoring-only mode stays in it, and one that started with Docker
    access never falls back to it. *)
Theorem docker_availability_is_fixed
    (cfg : AutoscalerConfig) (cycles : list cycle) :
  (forall s, docker_available (run cfg cycles s) = docker_available s)
  /\ (forall docker_unavailable ping_ok now,
        docker_available (run cfg cycles (AutoScaler_init docker_unavailable ping_ok now))
        = if Py.truthy docker_unavailable then false else ping_ok).
Proof.
  assert (H : forall s, docker_available (run cfg cycles s) = docker_available s).
  { unfold run. induction cycles as [| c cycles IH]; intros s; [reflexivity |].
    cbn [fold_left]. rewrite IH. apply cycle_log. }
  split; [exact H |]. intros. rewrite H. reflexivity.
Qed.

(** X15: one monitoring cycle sends at most one update of the application
    service and at most one of the database service, in that order, and
    nothing else. *)
Theorem one_update_per_service_per_cycle
    (cfg : AutoscalerConfig) (c : cycle) (s : state) :
  exists api_news postgres_news,
    update_log (run_monitoring_cycle cfg c s)
    = postgres_news ++ api_news ++ update_log s
    /\ (length api_news <= 1)%nat
    /\ (length postgres_news <= 1)%nat
    /\ Forall (fun r => ur_service r = API_SERVICE_NAME) api_news
    /\ Forall (fun r => ur_service r = POSTGRES_SERVICE_NAME) postgres_news.
Proof. apply cycle_log. Qed.

Lemma postgres_utilization_high avail read :
  17 <= get_service_replicas avail read ->
  Py.gtb (metrics_get (collect_postgres_metrics avail read) "connection_utilization") 80
  = true.
Proof.
  intros H. apply gtb_gt. rewrite postgres_utilization, py_min_Qmin.
  apply Q.min_glb_lt; [| reflexivity].
  eapply Qlt_le_trans; [| apply (utilization_monotone 17 _ H)].
  vm_compute. reflexivity.
Qed.

(** X16: the database tier is scaled from 17 application replicas on.  The
    test of [scale_postgres_instances] holds exactly when the application
    tier is seen with at least 17 replicas.  Then, with fewer than
    [POSTGRES_MAX_REPLICAS] database replicas, an open gate, Docker available
    and a replica count read back that is not the target already, one update
    to one replica more is sent, and the cooldown is stamped if it is
    accepted. *)
Theorem database_tier_scales_from_17
    (cfg : AutoscalerConfig) (e : tier_run) (s : state) :
  let api_replicas := get_service_replicas (docker_available s) (tier_api_replicas_read e) in
  let current := get_service_replicas (docker_available s) (tier_replicas_read e) in
  let s1 := advance (tier_dt_gate e)
              (gauge_set "postgres_replicas_current" (inject_Z current) s) in
  let s' := scale_postgres_instances cfg e s in
  (Py.gtb (metrics_get (collect_postgres_metrics (docker_available s)
                          (tier_api_replicas_read e)) "connection_utilization") 80 = true
   <-> 17 <= api_replicas)
  /\ (17 <= api_replicas ->
      current < POSTGRES_MAX_REPLICAS ->
      can_scale cfg (metrics_collector s1) (clock s1) "postgres" = true ->
      docker_available s = true ->
      forall read_back,
        sa_read (tier_scale e) = Returned read_back ->
        read_back <> current + 1 ->
        update_log s'
        = request_of POSTGRES_SERVICE_NAME (current + 1) (tier_scale e) s1 :: update_log s
        /\ (sa_update_ok (tier_scale e) = true ->
            last_scaling_action (metrics_collector s') !! "postgres" = Some (clock s'))
        /\ (sa_update_ok (tier_scale e) = false ->
            last_scaling_action (metrics_collector s')
            = last_scaling_action (metrics_collector s))).
Proof.
  intros api_replicas current s1 s'. split.
  - split.
    + intros H. destruct (Z.le_gt_cases 17 api_replicas) as [Hle | Hgt]; [exact Hle |].
      rewrite postgres_utilization_low in H by (fold api_replicas; lia). discriminate.
    + apply postgres_utilization_high.
  - intros Hr Hc Hg Hd read_back Hread Hne.
    assert (E : s' = actuate POSTGRES_SERVICE_NAME (current + 1) (tier_scale e)
                       (tier_dt_stamp e) "postgres" s1).
    { subst s'. unfold scale_postgres_instances. cbv zeta.
      rewrite postgres_utilization_high by exact Hr. fold current.
      destruct (Z.ltb_spec current POSTGRES_MAX_REPLICAS); [| lia].
      cbn [andb]. fold s1. rewrite Hg. reflexivity. }
    rewrite E. unfold actuate, scale_service.
    assert (Hd1 : docker_available s1 = true) by exact Hd.
    rewrite Hd1, Hread. cbn [negb].
    destruct (Z.eqb_spec read_back (current + 1)) as [Heq | _]; [contradiction |].
    unfold request_of.
    destruct (sa_update_ok (tier_scale e)).
    + split; [reflexivity |]. split; [| discriminate]. intros _.
      cbn [stamp advance set_metrics_collector metrics_collector
           record_scaling_action last_scaling_action clock].
      apply lookup_insert_eq.
    + split; [reflexivity |]. split; [discriminate | reflexivity].
Qed.

Lemma database_tier_scales_from_17_witness :
  let e := {| tier_api_replicas_read := Returned 20;
              tier_replicas_read := Returned 1;
              tier_dt_gate := 1000;
              tier_scale := {| sa_read := Returned 1; sa_delay := 50000;
                               sa_update_ok := true |};
              tier_dt_stamp := 1000 |} in
  let s := AutoScaler_init None true 0 in
  update_log (scale_postgres_instances default_config e s)
  = [ {| ur_service := POSTGRES_SERVICE_NAME; ur_replicas := 2;
         ur_time := 51000; ur_accepted := true |} ].
Proof.
  intros e s.
  destruct (database_tier_scales_from_17 default_config e s) as (_ & H).
  destruct (H ltac:(cbn; lia) ltac:(cbn; unfold POSTGRES_MAX_REPLICAS; lia)
              eq_refl eq_refl 1 eq_refl ltac:(cbn; lia)) as (Hl & _).
  exact Hl.
Defined.

(** ** The scaling counter *)

Lemma counted_frame s s' :
  counter_invariant s ->
  scaling_decisions_counter s' = scaling_decisions_counter s ->
  update_log s' = update_log s ->
  counter_invariant s'.
Proof.
  intros Hi Ec El service. unfold counted. rewrite Ec, El. apply Hi.
Qed.

Lemma counted_counter_inc name direction s service :
  direction = "up" \/ direction = "down" ->
  counted (counter_inc name direction s) service
  = ((if String.eqb name service then 1 else 0) + counted s service)%nat.
Proof.
  intros Hdir. unfold counted, counter_inc. cbn [scaling_decisions_counter].
  destruct (String.eqb_spec name service) as [-> | Hne].
  - destruct Hdir as [-> | ->].
    + rewrite lookup_insert_eq, lookup_insert_ne by congruence.
      cbn [default from_option id]. unfold default. cbn. lia.
    + rewrite lookup_insert_ne, lookup_insert_eq by congruence.
      unfold default. cbn. lia.
  - rewrite !lookup_insert_ne by congruence. reflexivity.
Qed.

Lemma counted_scale_service name target a s :
  counter_invariant s -> counter_invariant (snd (scale_service name target a s)).
Proof.
  intros Hi. unfold scale_service.
  destruct (docker_available s); cbn [negb]; [| exact Hi].
  destruct (sa_read a) as [current |]; [| exact Hi].
  destruct (current =? target); [exact Hi |]. cbv zeta.
  destruct (sa_update_ok a) eqn:Hok; cbn [snd]; intros service.
  - rewrite counted_counter_inc
      by (destruct (target >? current); [left | right]; reflexivity).
    cbn [counter_inc log_update advance update_log].
    unfold accepted_updates. cbn [List.filter ur_accepted ur_service andb].
    unfold counted. cbn [log_update advance scaling_decisions_counter].
    fold (counted s service). rewrite (Hi service). unfold accepted_updates.
    destruct (String.eqb name service); cbn [length]; lia.
  - unfold accepted_updates, counted.
    cbn [log_update advance update_log scaling_decisions_counter
         List.filter ur_accepted andb].
    apply Hi.
Qed.

Lemma counted_actuate name target a dt key s :
  counter_invariant s -> counter_invariant (actuate name target a dt key s).
Proof.
  intros Hi. unfold actuate.
  pose proof (counted_scale_service name target a s Hi) as H2.
  destruct (scale_service name target a s) as [ok s2]. cbn [snd] in H2.
  destruct ok; [| exact H2].
  apply (counted_frame s2); [exact H2 | reflexivity | reflexivity].
Qed.

Lemma counted_api cfg e s :
  counter_invariant s -> counter_invariant (scale_api_instances cfg e s).
Proof.
  intros Hi.
  destruct (scale_api_instances_cases cfg e s) as [[_ ->] | (metrics & _ & H)];
    [exact Hi |].
  cbv zeta in H.
  destruct (at_gate_projections cfg e metrics s) as (_ & El & _ & Ec & _).
  pose proof (counted_frame s _ Hi Ec El) as Hi1.
  destruct H as [[_ ->] | [(_ & _ & ->) | (_ & _ & ->)]];
    [exact Hi1 | exact Hi1 |].
  apply counted_actuate, Hi1.
Qed.

Lemma counted_postgres cfg e s :
  counter_invariant s -> counter_invariant (scale_postgres_instances cfg e s).
Proof.
  intros Hi.
  destruct (scale_postgres_instances_cases cfg e s)
    as [[-> _] | [[-> _] | (_ & _ & _ & ->)]].
  - apply (counted_frame s); [exact Hi | reflexivity | reflexivity].
  - apply (counted_frame s); [exact Hi | reflexivity | reflexivity].
  - apply counted_actuate. apply (counted_frame s); [exact Hi | reflexivity | reflexivity].
Qed.

Lemma counted_redis cfg e s :
  counter_invariant s -> counter_invariant (scale_redis_instances cfg e s).
Proof.
  intros Hi. rewrite redis_step.
  apply (counted_frame s); [exact Hi | reflexivity | reflexivity].
Qed.

Lemma counted_run cfg cycles s :
  counter_invariant s -> counter_invariant (run cfg cycles s).
Proof.
  revert s. unfold run.
  induction cycles as [| c cycles IH]; intros s Hi; [exact Hi |].
  cbn [fold_left]. apply IH. unfold run_monitoring_cycle.
  apply counted_redis, counted_postgres, counted_api, Hi.
Qed.

Lemma counted_init docker_unavailable ping_ok now :
  counter_invariant (AutoScaler_init docker_unavailable ping_ok now).
Proof. intros service. reflexivity. Qed.

(** X17: the scaling counter counts the accepted updates.  At every point of
    every run, for every service, [scaling_decisions_total] summed over its
    two directions equals the number of updates of that service the
    orchestrator accepted; an update that is refused, or not sent because
    the replica count read back is the target already, is not counted. *)
Theorem counter_counts_accepted_updates
    (cfg : AutoscalerConfig) (docker_unavailable : option string) (ping_ok : bool)
    (now : Z) (cycles : list cycle) (service : string) :
  let s := run cfg cycles (AutoScaler_init docker_unavailable ping_ok now) in
  counted s service = accepted_updates service (update_log s).
Proof.
  apply (counted_run cfg cycles _ (counted_init docker_unavailable ping_ok now)).
Qed.

(** ** What the application pipeline stores *)

Lemma at_gate_collector cfg e metrics s :
  metrics_collector (at_gate cfg e metrics s)
  = add_metric cfg
      (add_metric cfg
         (add_metric cfg (metrics_collector s)
            (clock s + api_dt_cpu e) "api" "cpu_usage"
            (metrics_get metrics "cpu_usage"))
         (clock s + api_dt_cpu e + api_dt_memory e)
         "api" "memory_usage" (metrics_get metrics "memory_usage"))
      (clock s + api_dt_cpu e + api_dt_memory e
       + api_dt_response e)
      "api" "response_time" (metrics_get metrics "response_time").
Proof. reflexivity. Qed.

Lemma api_history cfg e s metrics :
  collect_api_metrics (docker_available s) e = Some metrics ->
  metrics_history (metrics_collector (scale_api_instances cfg e s))
  = metrics_history (metrics_collector (at_gate cfg e metrics s)).
Proof.
  intros Hm.
  destruct (scale_api_instances_cases cfg e s) as [[Hn _] | (metrics' & Hm' & H)];
    [congruence |].
  assert (metrics' = metrics) as -> by congruence.
  cbv zeta in H.
  destruct H as [[_ ->] | [(_ & _ & ->) | (_ & _ & ->)]];
    [reflexivity | reflexivity |].
  apply actuate_history.
Qed.

(** X18: the application pipeline stores its sample on every cycle in which
    the collector returns one, before it consults the cooldown gate and
    whether or not anything is scaled: the CPU, memory and response-time
    readings are appended to their three rings, each with the clock reading
    of its own [add_metric] call.  When the collector returns nothing (a
    status other than 200) the rings are left as they are. *)
Theorem sample_is_stored_every_cycle
    (cfg : AutoscalerConfig) (e : api_run) (s : state) :
  let s' := scale_api_instances cfg e s in
  let t1 := clock s + api_dt_cpu e in
  let t2 := t1 + api_dt_memory e in
  let t3 := t2 + api_dt_response e in
  (collect_api_metrics (docker_available s) e = None -> s' = s)
  /\ (forall metrics,
        collect_api_metrics (docker_available s) e = Some metrics ->
        ring_of (metrics_collector s') "api" "cpu_usage"
        = deque_append (PREDICTION_SAMPLES cfg)
            (ring_of (metrics_collector s) "api" "cpu_usage")
            {| timestamp := t1; value := metrics_get metrics "cpu_usage" |}
        /\ ring_of (metrics_collector s') "api" "memory_usage"
           = deque_append (PREDICTION_SAMPLES cfg)
               (ring_of (metrics_collector s) "api" "memory_usage")
               {| timestamp := t2; value := metrics_get metrics "memory_usage" |}
        /\ ring_of (metrics_collector s') "api" "response_time"
           = deque_append (PREDICTION_SAMPLES cfg)
               (ring_of (metrics_collector s) "api" "response_time")
               {| timestamp := t3; value := metrics_get metrics "response_time" |}).
Proof.
  intros s' t1 t2 t3. split.
  - intros Hn. subst s'. rewrite scale_api_instances_unfold, Hn. reflexivity.
  - intros metrics Hm.
    assert (E : forall service metric_type,
              ring_of (metrics_collector s') service metric_type
              = ring_of (metrics_collector (at_gate cfg e metrics s)) service metric_type).
    { intros service metric_type. unfold ring_of. subst s'.
      rewrite (api_history cfg e s metrics Hm). reflexivity. }
    rewrite !E, at_gate_collector. fold t1. fold t2. fold t3.
    split; [| split].
    + rewrite !ring_of_add_metric_other by discriminate.
      apply ring_of_add_metric.
    + rewrite ring_of_add_metric_other by discriminate.
      rewrite ring_of_add_metric.
      rewrite ring_of_add_metric_other by discriminate. reflexivity.
    + rewrite ring_of_add_metric.
      rewrite !ring_of_add_metric_other by discriminate. reflexivity.
Qed.

Lemma sample_is_stored_every_cycle_witness :
  let e := plain_run (HealthResponse 200 (Returned true) 1500) 3 3 in
  let s := AutoScaler_init None true 0 in
  ring_of (metrics_collector (scale_api_instances default_config e s))
    "api" "response_time"
  = [ {| timestamp := 3000; value := 1500 |} ].
Proof.
  intros e s.
  destruct (sample_is_stored_every_cycle default_config e s) as (_ & H).
  destruct (H _ eq_refl) as (_ & _ & H3).
  rewrite H3. reflexivity.
Defined.

(** ** When the cooldown is stamped *)



(** ** The predictive algorithm and the capacity of the rings *)

Lemma short_rings_are_stable cfg s service metric_type :
  capacity_invariant cfg s -> (PREDICTION_SAMPLES cfg < 3)%nat ->
  get_trend (metrics_collector s) service metric_type = stable.
Proof.
  intros Hi Hn. unfold get_trend. apply trend_of_short_ring.
  destruct (metrics_history (metrics_collector s) !! history_key service metric_type)
    as [ring |] eqn:Hr.
  - pose proof (Hi _ _ Hr) as Hl. cbn. lia.
  - cbn. lia.
Qed.

Lemma predictive_api_step_quiet cfg e s :
  capacity_invariant cfg s -> (PREDICTION_SAMPLES cfg < 3)%nat ->
  SCALING_ALGORITHM cfg = "predictive" ->
  update_log (scale_api_instances cfg e s) = update_log s.
Proof.
  intros Hi Hn Halg.
  destruct (scale_api_instances_log cfg e s) as (_ & [Hl | (metrics & _ & H)]);
    [exact Hl |].
  cbv zeta in H. destruct H as (_ & Hne & _). exfalso. apply Hne.
  pose proof (capacity_at_gate cfg e metrics s Hi) as Hi1.
  unfold make_scaling_decision. rewrite Halg. cbn [String.eqb Ascii.eqb Bool.eqb].
  unfold _predictive_scaling_decision.
  rewrite !(short_rings_are_stable cfg _ _ _ Hi1 Hn). reflexivity.
Qed.

(** X20: with a ring capacity below three the predictive algorithm is inert.
    When [PREDICTION_SAMPLES] is less than 3 no ring ever holds the three
    samples a trend needs, so under the predictive algorithm no run of the
    control loop ever sends an update of the application service. *)
Theorem predictive_needs_three_samples
    (cfg : AutoscalerConfig) (docker_unavailable : option string) (ping_ok : bool)
    (now : Z) (cycles : list cycle) (r : update_request) :
  (PREDICTION_SAMPLES cfg < 3)%nat ->
  SCALING_ALGORITHM cfg = "predictive" ->
  r ∈ update_log (run cfg cycles (AutoScaler_init docker_unavailable ping_ok now)) ->
  ur_service r <> API_SERVICE_NAME.
Proof.
  intros Hn Halg.
  assert (H : forall s, capacity_invariant cfg s ->
            (forall r, r ∈ update_log s -> ur_service r <> API_SERVICE_NAME) ->
            forall r, r ∈ update_log (run cfg cycles s) ->
                      ur_service r <> API_SERVICE_NAME).
  { unfold run. induction cycles as [| c cycles IH]; intros s Hi Hs; [exact Hs |].
    cbn [fold_left]. apply IH.
    - unfold run_monitoring_cycle.
      apply capacity_redis, capacity_postgres, capacity_api, Hi.
    - intros r' Hin. unfold run_monitoring_cycle in Hin.
      rewrite redis_step in Hin. cbn [gauge_set update_log] in Hin.
      destruct (scale_postgres_instances_log cfg (cycle_postgres c)
                  (scale_api_instances cfg (cycle_api c) s)) as (_ & Hlp).
      cbv zeta in Hlp.
      rewrite (predictive_api_step_quiet cfg (cycle_api c) s Hi Hn Halg) in Hlp.
      destruct Hlp as [Hlp | (_ & _ & _ & Hlp)]; rewrite Hlp in Hin.
      + apply Hs, Hin.
      + apply elem_of_cons in Hin as [-> | Hin]; [discriminate | apply Hs, Hin]. }
  apply H.
  - apply capacity_init.
  - intros r' Hin. cbn in Hin. apply elem_of_nil in Hin. contradiction.
Qed.

Lemma predictive_needs_three_samples_witness :
  update_log (run (with_samples 2 (with_algorithm "predictive" default_config))
                [slow_cycle 1000 20] (AutoScaler_init None true 0))
  = [ {| ur_service := POSTGRES_SERVICE_NAME; ur_replicas := 2;
         ur_time := 55000; ur_accepted := true |} ]
  /\ POSTGRES_SERVICE_NAME <> API_SERVICE_NAME.
Proof.
  split; [vm_compute; reflexivity |].
  apply (predictive_needs_three_samples
           (with_samples 2 (with_algorithm "predictive" default_config))
           None true 0 [slow_cycle 1000 20]
           {| ur_service := POSTGRES_SERVICE_NAME; ur_replicas := 2;
              ur_time := 55000; ur_accepted := true |}).
  - cbn. lia.
  - reflexivity.
  - replace (update_log _) with
      [ {| ur_service := POSTGRES_SERVICE_NAME; ur_replicas := 2;
           ur_time := 55000; ur_accepted := true |} ]
      by (vm_compute; reflexivity).
    apply list_elem_of_here.
Defined.

(** ** [collect_api_metrics] *)

Lemma get_after_update (metrics : gmap string Q) (cpu memory : Q) :
  metrics_get (<["memory_usage" := memory]> (<["cpu_usage" := cpu]> metrics)) "cpu_usage" = cpu
  /\ metrics_get (<["memory_usage" := memory]> (<["cpu_usage" := cpu]> metrics)) "memory_usage"
     = memory
  /\ metrics_get (<["memory_usage" := memory]> (<["cpu_usage" := cpu]> metrics)) "error_rate"
     = metrics_get metrics "error_rate".
Proof.
  unfold metrics_get. repeat split.
  - rewrite lookup_insert_ne by discriminate. rewrite lookup_insert_eq. reflexivity.
  - rewrite lookup_insert_eq. reflexivity.
  - rewrite !lookup_insert_ne by discriminate. reflexivity.
Qed.

(** The shapes of what [collect_api_metrics] returns. *)
Lemma collect_api_metrics_cases avail e :
  collect_api_metrics avail e = None
  \/ collect_api_metrics avail e = Some zero_filled
  \/ (exists h ms,
        collect_api_metrics avail e
        = Some (response_sample h ms))
  \/ (exists h ms c cs,
        avail = true /\ api_containers e = Returned (c :: cs)
        /\ collect_api_metrics avail e
           = Some (<["memory_usage" :=
                       (snd (fold_left add_container_stats (c :: cs) (0%Q, 0%Q))
                        / inject_Z (Z.of_nat (length (c :: cs))))%Q]>
                   (<["cpu_usage" :=
                        (fst (fold_left add_container_stats (c :: cs) (0%Q, 0%Q))
                         / inject_Z (Z.of_nat (length (c :: cs))))%Q]>
                    (response_sample h ms)))).
Proof.
  unfold collect_api_metrics.
  destruct (api_health e) as [| code healthy ms]; [auto |].
  destruct (code =? 200); [| auto].
  destruct healthy as [h |]; [| auto]. cbv zeta.
  destruct avail.
  - destruct (api_containers e) as [[| c cs] |] eqn:Hc; [eauto 6 | | auto].
    right; right; right. exists h, ms, c, cs.
    split; [reflexivity |]. split; [reflexivity |].
    destruct (fold_left add_container_stats (c :: cs) (0%Q, 0%Q)). reflexivity.
  - eauto 6.
Qed.

(** X21: every sample [collect_api_metrics] returns has exactly the five keys
    [healthy], [response_time], [memory_usage], [cpu_usage] and [error_rate],
    so that no subscript of [scale_api_instances] can fail on it; its
    [error_rate] is always 0; and in monitoring-only mode its CPU and memory
    readings are always 0. *)
Theorem collected_sample_is_complete
    (avail : bool) (e : api_run) (metrics : gmap string Q) :
  collect_api_metrics avail e = Some metrics ->
  dom metrics = sample_keys
  /\ metrics_get metrics "error_rate" = 0%Q
  /\ (avail = false ->
      metrics_get metrics "cpu_usage" = 0%Q /\ metrics_get metrics "memory_usage" = 0%Q).
Proof.
  intros Hm.
  destruct (collect_api_metrics_cases avail e)
    as [E | [E | [(h & ms & E) | (h & ms & c & cs & Ha & _ & E)]]];
    rewrite E in Hm; [discriminate | | |]; injection Hm as <-.
  - repeat split.
  - repeat split.
  - split; [| split].
    + unfold sample_keys, response_sample. rewrite !dom_insert_L, dom_empty_L. set_solver.
    + transitivity (metrics_get (response_sample h ms) "error_rate");
        [apply get_after_update | reflexivity].
    + intros Hf. congruence.
Qed.

Lemma collected_sample_is_complete_witness :
  metrics_get zero_filled "error_rate" = 0%Q.
Proof.
  destruct (collected_sample_is_complete false (plain_run HealthRaised 3 3) zero_filled
              eq_refl) as (_ & H & _).
  exact H.
Defined.

Lemma ratio_percent a b :
  0 <= a <= b -> 0 < b -> (0 <= inject_Z a / inject_Z b * 100 <= 100)%Q.
Proof.
  intros Ha Hb. destruct b as [| p | p]; try lia.
  unfold Qle, Qdiv, Qmult, Qinv, inject_Z. cbn. split; nia.
Qed.

Lemma step_within_percent c tc tm k :
  plausible c ->
  (0 <= tc <= 100 * inject_Z k)%Q -> (0 <= tm <= 100 * inject_Z k)%Q ->
  (0 <= fst (add_container_stats (tc, tm) c) <= 100 * inject_Z (k + 1))%Q
  /\ (0 <= snd (add_container_stats (tc, tm) c) <= 100 * inject_Z (k + 1))%Q.
Proof.
  intros Hp Hc Hm.
  assert (E : (100 * inject_Z (k + 1) == 100 * inject_Z k + 100)%Q)
    by (rewrite inject_Z_plus; ring).
  rewrite E. destruct c as [stats |]; cbn [add_container_stats fst snd].
  - cbn in Hp. destruct Hp as (Hcpu & Hmem). cbv zeta.
    destruct (memory_stats_limit stats =? 0) eqn:Hl; cbn [fst snd].
    + split; [| lra].
      destruct (Z.ltb_spec 0 (system_cpu_usage stats - presystem_cpu_usage stats)).
      * pose proof (ratio_percent _ _ Hcpu ltac:(assumption)). lra.
      * lra.
    + apply Z.eqb_neq in Hl. split.
      * destruct (Z.ltb_spec 0 (system_cpu_usage stats - presystem_cpu_usage stats)).
        -- pose proof (ratio_percent _ _ Hcpu ltac:(assumption)). lra.
        -- lra.
      * pose proof (ratio_percent _ _ Hmem ltac:(lia)). lra.
  - split; lra.
Qed.

Lemma totals_within_percent cs :
  Forall plausible cs ->
  forall tc tm k,
    (0 <= tc <= 100 * inject_Z k)%Q -> (0 <= tm <= 100 * inject_Z k)%Q ->
    (0 <= fst (fold_left add_container_stats cs (tc, tm))
     <= 100 * inject_Z (k + Z.of_nat (length cs)))%Q
    /\ (0 <= snd (fold_left add_container_stats cs (tc, tm))
        <= 100 * inject_Z (k + Z.of_nat (length cs)))%Q.
Proof.
  induction 1 as [| c cs Hc Hcs IH]; intros tc tm k Htc Htm.
  - cbn [fold_left length fst snd]. rewrite Z.add_0_r. split; assumption.
  - cbn [fold_left length].
    destruct (step_within_percent c tc tm k Hc Htc Htm) as (H1 & H2).
    destruct (add_container_stats (tc, tm) c) as [tc' tm'] eqn:E.
    cbn [fst snd] in H1, H2.
    replace (k + Z.of_nat (S (length cs))) with (k + 1 + Z.of_nat (length cs)) by lia.
    apply IH; assumption.
Qed.

(** X22: CPU and memory usage are percentages.  When the statistics of every
    container that answers are plausible (the CPU time used between the two
    readings is between zero and the system's, the memory used between zero
    and the limit), the [cpu_usage] and [memory_usage] of the sample
    [collect_api_metrics] returns lie between 0 and 100, however many
    containers fail to answer. *)
Theorem usage_is_a_percentage
    (avail : bool) (e : api_run) (metrics : gmap string Q) :
  collect_api_metrics avail e = Some metrics ->
  (forall cs, api_containers e = Returned cs -> Forall plausible cs) ->
  (0 <= metrics_get metrics "cpu_usage" <= 100)%Q
  /\ (0 <= metrics_get metrics "memory_usage" <= 100)%Q.
Proof.
  intros Hm Hp.
  destruct (collect_api_metrics_cases avail e)
    as [E | [E | [(h & ms & E) | (h & ms & c & cs & Ha & Hc & E)]]].
  - congruence.
  - replace metrics with zero_filled by congruence. split; split; discriminate.
  - replace metrics with (response_sample h ms) by congruence.
    split; split; discriminate.
  - set (n := inject_Z (Z.of_nat (length (c :: cs)))) in *.
    set (totals := fold_left add_container_stats (c :: cs) (0%Q, 0%Q)) in *.
    replace metrics with
      (<["memory_usage" := (snd totals / n)%Q]>
         (<["cpu_usage" := (fst totals / n)%Q]> (response_sample h ms)))
      by congruence.
    destruct (get_after_update (response_sample h ms) (fst totals / n) (snd totals / n))
      as (-> & -> & _).
    destruct (totals_within_percent (c :: cs) (Hp _ Hc) 0%Q 0%Q 0
                ltac:(split; discriminate) ltac:(split; discriminate)) as (H1 & H2).
    rewrite Z.add_0_l in H1, H2. fold totals n in H1, H2.
    assert (Hn : (0 < n)%Q).
    { subst n. rewrite <- (Zlt_Qlt 0). cbn [length]. lia. }
    split; split.
    + apply Qle_shift_div_l; [exact Hn | lra].
    + apply Qle_shift_div_r; [exact Hn | lra].
    + apply Qle_shift_div_l; [exact Hn | lra].
    + apply Qle_shift_div_r; [exact Hn | lra].
Qed.

Lemma fold_skips_failed cs totals :
  fold_left add_container_stats cs totals
  = fold_left add_container_stats (List.filter answered cs) totals.
Proof.
  revert totals. induction cs as [| c cs IH]; intros totals; [reflexivity |].
  destruct c as [stats |]; cbn [List.filter answered fold_left].
  - apply IH.
  - destruct totals. cbn [add_container_stats]. apply IH.
Qed.

(** X23: a container whose statistics cannot be read counts with zero.  With
    at least one container listed, the [cpu_usage] and [memory_usage] of the
    sample are the totals over the containers that answered, divided by the
    number of all containers listed. *)
Theorem failed_containers_count_with_zero
    (e : api_run) (h : bool) (ms : Q)
    (c : outcome container_stats) (cs : list (outcome container_stats)) :
  api_health e = HealthResponse 200 (Returned h) ms ->
  api_containers e = Returned (c :: cs) ->
  let totals :=
    fold_left add_container_stats (List.filter answered (c :: cs)) (0%Q, 0%Q) in
  let n := inject_Z (Z.of_nat (length (c :: cs))) in
  exists metrics,
    collect_api_metrics true e = Some metrics
    /\ metrics_get metrics "cpu_usage" = (fst totals / n)%Q
    /\ metrics_get metrics "memory_usage" = (snd totals / n)%Q
    /\ metrics_get metrics "response_time" = ms.
Proof.
  intros Hh Hc totals n. unfold collect_api_metrics. rewrite Hh.
  change (200 =? 200) with true. cbv beta iota. rewrite Hc. cbv beta iota zeta.
  rewrite (fold_skips_failed (c :: cs)). fold totals.
  destruct totals as [total_cpu total_memory]. fold n. cbn [fst snd].
  eexists. split; [reflexivity |].
  destruct (get_after_update (response_sample h ms) (total_cpu / n) (total_memory / n))
    as (H1 & H2 & _).
  split; [exact H1 |]. split; [exact H2 |].
  unfold metrics_get. rewrite !lookup_insert_ne by discriminate.
  rewrite lookup_insert_eq. reflexivity.
Qed.

Lemma failed_containers_count_with_zero_witness :
  exists metrics,
    collect_api_metrics true half_answering_run = Some metrics
    /\ (metrics_get metrics "cpu_usage" == 40)%Q
    /\ (metrics_get metrics "memory_usage" == 25)%Q.
Proof.
  destruct (failed_containers_count_with_zero half_answering_run true 120 _ [Raised]
              eq_refl eq_refl) as (metrics & Hm & Hc & Hmem & _).
  exists metrics. split; [exact Hm |]. rewrite Hc, Hmem. split; reflexivity.
Defined.

Lemma usage_is_a_percentage_witness :
  let metrics := default ∅ (collect_api_metrics true half_answering_run) in
  (0 <= metrics_get metrics "cpu_usage" <= 100)%Q
  /\ (0 <= metrics_get metrics "memory_usage" <= 100)%Q.
Proof.
  intros metrics.
  apply (usage_is_a_percentage true half_answering_run metrics).
  - vm_compute. reflexivity.
  - intros cs [= <-]. repeat constructor; cbn; lia.
Defined.

(** ** The start-up loops *)

Ltac first_index tac :=
  first [ exists 0%nat; tac | exists 1%nat; tac | exists 2%nat; tac
        | exists 3%nat; tac | exists 4%nat; tac | exists 5%nat; tac ].

Ltac below_five j :=
  destruct j as [| [| [| [| [| j]]]]]; try lia; try congruence.

(** X24: [health_check_handler] makes at most five attempts to start the
    health server and sleeps 2, 4, 8, 16 and 32 seconds after them, never
    more than 62 seconds in all.  The server is started exactly when one of
    the five attempts finds the port free and binds it, and then as many
    sleeps were made as attempts came before.  After five attempts that all
    find the port in use it has slept all five times; after a fifth attempt
    that raised it gives up without a fifth sleep. *)
Theorem health_server_start_is_bounded (answers : nat -> bind_attempt) :
  let sleeps := fst (health_check_handler answers) in
  let served := snd (health_check_handler answers) in
  (exists k, (k <= 5)%nat /\ sleeps = firstn k [2; 4; 8; 16; 32])
  /\ total_sleep sleeps <= 62
  /\ (served = true <->
      exists i, (i < 5)%nat /\ answers i = Serving
                /\ (forall j, (j < i)%nat -> answers j <> Serving)
                /\ length sleeps = i)
  /\ (served = false -> answers 4%nat = PortInUse -> sleeps = [2; 4; 8; 16; 32])
  /\ (served = false -> answers 4%nat = BindFailed -> sleeps = [2; 4; 8; 16]).
Proof.
  cbv beta iota zeta delta [health_check_handler health_attempts max_retries
                            Nat.ltb Nat.leb Nat.sub fst snd].
  destruct (answers 0%nat) eqn:A0; destruct (answers 1%nat) eqn:A1;
    destruct (answers 2%nat) eqn:A2; destruct (answers 3%nat) eqn:A3;
    destruct (answers 4%nat) eqn:A4;
    try change (2 * 2 * 2 * 2 * 2) with 32; try change (2 * 2 * 2 * 2) with 16;
    try change (2 * 2 * 2) with 8; try change (2 * 2) with 4;
    (split; [first_index ltac:(split; [lia | reflexivity]) |]);
    (split; [cbn; lia |]);
    (split; [| split; intros; congruence]);
    (split;
     [ intros; try discriminate;
       first_index ltac:(split; [lia |]; split; [assumption |];
                         split; [intros j Hj; below_five j | reflexivity])
     | intros (i & Hi & Hs & Hf & Hl); try reflexivity; exfalso;
       below_five i ]).
Qed.

(** X25: the loop of [run] that starts the Prometheus server makes at most
    five attempts and sleeps 2, 4, 8 and 16 seconds between them, never more
    than 30 seconds in all and never after the last attempt.
    [metrics_started] is set exactly when one of the five attempts succeeds,
    and then as many sleeps were made as attempts failed before. *)
Theorem metrics_server_start_is_bounded (answers : nat -> bool) :
  let sleeps := fst (start_metrics_server answers) in
  let started := snd (start_metrics_server answers) in
  (exists k, (k <= 4)%nat /\ sleeps = firstn k [2; 4; 8; 16])
  /\ total_sleep sleeps <= 30
  /\ (started = true <->
      exists i, (i < 5)%nat /\ answers i = true
                /\ (forall j, (j < i)%nat -> answers j = false)
                /\ length sleeps = i)
  /\ (started = false -> sleeps = [2; 4; 8; 16]).
Proof.
  cbv beta iota zeta delta [start_metrics_server metrics_attempts max_retries
                            Nat.ltb Nat.leb Nat.sub fst snd].
  destruct (answers 0%nat) eqn:A0; destruct (answers 1%nat) eqn:A1;
    destruct (answers 2%nat) eqn:A2; destruct (answers 3%nat) eqn:A3;
    destruct (answers 4%nat) eqn:A4;
    try change (2 * 2 * 2 * 2 * 2) with 32; try change (2 * 2 * 2 * 2) with 16;
    try change (2 * 2 * 2) with 8; try change (2 * 2) with 4;
    (split; [first_index ltac:(split; [lia | reflexivity]) |]);
    (split; [cbn; lia |]);
    (split; [| intros; congruence]);
    (split;
     [ intros; try discriminate;
       first_index ltac:(split; [lia |]; split; [assumption |];
                         split; [intros j Hj; below_five j | reflexivity])
     | intros (i & Hi & Hs & Hf & Hl); try reflexivity; exfalso;
       below_five i ]).
Qed.
